(** * Health-Advisor: ingestion and retrieval pipeline

    A shallow embedding of [process_medquad_data.py], [scrape_medlineplus.py]
    and [query_medical_qa.py], and the properties of the pipeline proved
    about it.

    Python values are modelled as follows.
    - [str] is [string]; one [ascii] stands for one character, so the text
      the model ranges over is the Latin-1 part of Unicode (the
      pictographs of a few printed lines stand as their UTF-8 bytes).
    - dictionaries with a fixed set of keys are records; the metadata
      dictionaries handed to the store are association lists in insertion
      order.
    - the vector store, the generative model and the operator at the
      terminal are a [World] of replies; every call made to them is
      recorded, in order, in a trace of [event]s.
    - exceptions are the [Raise] result of the [Run] monad.
    - the operator answers every prompt with a line of text: a run that
      meets the end of the input, or an interrupt, is outside the model.
    - a parsed HTML page keeps the class of each of its strings, since
      [get_text] tells them apart. *)

From Stdlib Require Import String Ascii List Arith ZArith Lia Bool.
From Stdlib Require Import DecimalString DecimalNat PrimFloat.
Import ListNotations.
Open Scope string_scope.
Open Scope list_scope.
Open Scope nat_scope.
Set Warnings "-register-all".

(* ===================================================================== *)
(** * Python built-ins on strings *)
(* ===================================================================== *)

Module Py.

(** [str.isspace] on one character: the whitespace characters of the
    Latin-1 range (TAB..CR, FS..US, SPACE, NEL, NBSP).  The regular
    expression class [\s] on [str] patterns tests the same set. *)
Definition isspace (c : ascii) : bool :=
  let n := nat_of_ascii c in
  ((9 <=? n) && (n <=? 13)) || ((28 <=? n) && (n <=? 32))
  || (n =? 133) || (n =? 160).

Definition is_empty (s : string) : bool :=
  match s with EmptyString => true | String _ _ => false end.

(** Truth value of a [str]: non-empty. *)
Definition truthy (s : string) : bool := negb (is_empty s).

Fixpoint lstrip (s : string) : string :=
  match s with
  | EmptyString => EmptyString
  | String c r => if isspace c then lstrip r else s
  end.

Fixpoint rstrip (s : string) : string :=
  match s with
  | EmptyString => EmptyString
  | String c r =>
      let r' := rstrip r in
      if isspace c && is_empty r' then EmptyString else String c r'
  end.

(** [s.strip()] *)
Definition strip (s : string) : string := rstrip (lstrip s).

(** [sep.join(parts)] *)
Fixpoint join (sep : string) (parts : list string) : string :=
  match parts with
  | [] => ""
  | [p] => p
  | p :: rest => p ++ sep ++ join sep rest
  end.

(** [len(s)] *)
Definition len (s : string) : nat := String.length s.

(** [str(n)] for a non-negative integer. *)
Definition str (n : nat) : string :=
  NilZero.string_of_uint (Nat.to_uint n).

(** [str(z)] for an integer. *)
Definition str_int (z : Z) : string :=
  NilZero.string_of_int (Z.to_int z).

(** [s.endswith(suffix)] *)
Definition endswith (s suffix : string) : bool :=
  let n := String.length s in
  let k := String.length suffix in
  (k <=? n) && String.eqb (substring (n - k) k s) suffix.

(** [c.lower()] on one character: ASCII and Latin-1 capital letters. *)
Definition lower_char (c : ascii) : ascii :=
  let n := nat_of_ascii c in
  if ((65 <=? n) && (n <=? 90))
     || ((192 <=? n) && (n <=? 222) && negb (n =? 215))
  then ascii_of_nat (n + 32) else c.

(** [s.lower()] *)
Fixpoint lower (s : string) : string :=
  match s with
  | EmptyString => EmptyString
  | String c r => String (lower_char c) (lower r)
  end.

(** [s[:n]] for [n >= 0]. *)
Definition prefix (n : nat) (s : string) : string := substring 0 n s.

(** [l[:n]] on a list, for any integer [n]: a negative bound counts from
    the end. *)
Definition slice_to {A : Type} (n : Z) (l : list A) : list A :=
  if (0 <=? n)%Z then firstn (Z.to_nat n) l
  else firstn (length l - Z.to_nat (- n)) l.

(** [l[i:j]] on a list, for [0 <= i <= j]. *)
Definition slice {A : Type} (i j : nat) (l : list A) : list A :=
  firstn (j - i) (skipn i l).

(** [range(0, stop, step)] for [step >= 1], as the list of its values:
    [ceil(stop / step)] multiples of [step]. *)
Definition range_values (stop step : nat) : list nat :=
  map (fun k => k * step) (seq 0 ((stop + step - 1) / step)).

(** An ASCII decimal digit, the digits [int] reads. *)
Definition is_decimal_char (c : ascii) : bool :=
  let n := nat_of_ascii c in (48 <=? n) && (n <=? 57).

(** [c.isdigit()]: the decimal digits and, in the Latin-1 range, the
    superscript digits two, three and one. *)
Definition isdigit_char (c : ascii) : bool :=
  let n := nat_of_ascii c in
  is_decimal_char c || (n =? 178) || (n =? 179) || (n =? 185).

Definition digit_value (c : ascii) : Z := Z.of_nat (nat_of_ascii c - 48).

(** The whitespace [int] skips around a literal: the ASCII whitespace of C
    and the two characters of the Latin-1 range above it that are Unicode
    whitespace.  The separators FS..US, which [str.strip] drops, are not
    skipped: [int] rejects a text that carries one. *)
Definition int_space (c : ascii) : bool :=
  let n := nat_of_ascii c in
  ((9 <=? n) && (n <=? 13)) || (n =? 32) || (n =? 133) || (n =? 160).

Fixpoint skip_int_space (s : string) : string :=
  match s with
  | EmptyString => EmptyString
  | String c r => if int_space c then skip_int_space r else s
  end.

(** The digits of an integer literal: a digit, then digits each preceded
    by at most one underscore.  The scan gives the value read, the number
    of digits (underscores not counted, leading zeros counted) and the
    text left after the last digit; [None] when there is no digit or an
    underscore is not followed by a digit. *)
Fixpoint scan_digits (acc : Z) (digits : nat) (after_digit : bool)
  (s : string) : option (Z * nat * string) :=
  match s with
  | EmptyString => if after_digit then Some (acc, digits, s) else None
  | String c r =>
      if is_decimal_char c
      then scan_digits (10 * acc + digit_value c) (S digits) true r
      else if Ascii.eqb c "_" then
        if after_digit then scan_digits acc digits false r else None
      else if after_digit then Some (acc, digits, s) else None
  end.

(** What [int(s)] does with a text: the integer, or one of its two
    [ValueError]s. *)
Inductive int_result : Type :=
| IntOk (z : Z)
| InvalidLiteral
| TooManyDigits (digits : nat).

(** [sys.get_int_max_str_digits()], at its default. *)
Definition max_str_digits : nat := 4300.

(** [int(s)] (CPython 3.11 and later): whitespace before the literal is
    skipped, one sign is allowed, the digits are scanned; a literal of
    more than [max_str_digits] digits is refused before whatever follows
    it is looked at; whitespace after the literal is skipped and nothing
    may follow it. *)
Definition parse_int (s : string) : int_result :=
  let t := skip_int_space s in
  let '(negative, body) :=
    match t with
    | String "+" r => (false, r)
    | String "-" r => (true, r)
    | _ => (false, t)
    end in
  match scan_digits 0 0 false body with
  | None => InvalidLiteral
  | Some (v, digits, rest) =>
      if max_str_digits <? digits then TooManyDigits digits
      else if is_empty (skip_int_space rest)
           then IntOk (if negative then (- v)%Z else v)
           else InvalidLiteral
  end.

(** [int(s)], with [None] for [ValueError]. *)
Definition int (s : string) : option Z :=
  match parse_int s with IntOk z => Some z | _ => None end.

(** A hexadecimal digit, in lower case. *)
Definition hex_digit (n : nat) : ascii :=
  ascii_of_nat (if n <? 10 then 48 + n else 87 + n).

Definition single_quote : ascii := ascii_of_nat 39.
Definition double_quote : ascii := ascii_of_nat 34.
Definition backslash : ascii := ascii_of_nat 92.

(** One character of [repr(s)] between the quotes: the quote in use and
    the backslash are escaped, TAB, LF and CR are written [\t], [\n] and
    [\r], the other characters that are not printable (the controls, DEL,
    the C1 controls, the no-break space and the soft hyphen) as [\xhh]. *)
Definition repr_char (quote c : ascii) : string :=
  let n := nat_of_ascii c in
  if Ascii.eqb c quote || Ascii.eqb c backslash
  then String backslash (String c EmptyString)
  else if n =? 9 then String backslash "t"
  else if n =? 10 then String backslash "n"
  else if n =? 13 then String backslash "r"
  else if (n <? 32) || (n =? 127) || ((128 <=? n) && (n <=? 160))
          || (n =? 173)
  then String backslash
         (String "x" (String (hex_digit (n / 16))
                        (String (hex_digit (n mod 16)) EmptyString)))
  else String c EmptyString.

Fixpoint contains_char (c : ascii) (s : string) : bool :=
  match s with
  | EmptyString => false
  | String d r => Ascii.eqb c d || contains_char c r
  end.

Fixpoint repr_body (quote : ascii) (s : string) : string :=
  match s with
  | EmptyString => String quote EmptyString
  | String c r => repr_char quote c ++ repr_body quote r
  end.

(** [repr(s)]: single quotes, unless the text holds a single quote and no
    double quote. *)
Definition repr (s : string) : string :=
  let quote :=
    if contains_char single_quote s && negb (contains_char double_quote s)
    then double_quote else single_quote in
  String quote (repr_body quote s).

(** [s.isdigit()] *)
Fixpoint all_digits (s : string) : bool :=
  match s with
  | EmptyString => true
  | String c r => isdigit_char c && all_digits r
  end.

Definition isdigit (s : string) : bool := truthy s && all_digits s.

End Py.


(* ===================================================================== *)
(** * The outside world and the monad of runs *)
(* ===================================================================== *)

(** An [xml.etree.ElementTree.Element]: its tag, its [text] (the text
    before the first child, [None] when absent) and its children.  The
    attributes and the tail, which the scripts never read, are left out. *)
Inductive Element : Type :=
| Elem (tag : string) (text : option string) (children : list Element).

(** The classes of string of a parsed HTML page other than the plain
    [NavigableString]: the parser gives a comment, a declaration and the
    like a class of its own, and so the strings it reads inside a
    [script], [style], [template], [rt] or [rp] tag. *)
Inductive string_class : Type :=
| CData
| Comment
| Declaration
| Doctype
| ProcessingInstruction
| Script
| Stylesheet
| TemplateString
| RubyTextString
| RubyParenthesisString.

(** A node of a parsed HTML page: a plain string ([NavigableString]), a
    string of another class, or a tag with its attributes and contents. *)
Inductive Node : Type :=
| Text (s : string)
| Special (cls : string_class) (s : string)
| Tag (name : string) (attrs : list (string * string)) (contents : list Node).

(** A Python exception: its class and its message, [str(e)]. *)
Record exn : Type := Exception { exn_class : string; exn_msg : string }.

(** What [open(path).read()] gives. *)
Inductive file_read : Type :=
| Content (s : string)
| ReadError (e : exn).

(** A directory as [os.walk] lists it: the plain files with what reading
    them gives, and the sub-directories, each in listing order. *)
Inductive Dir : Type :=
| MkDir (files : list (string * file_read)) (dirs : list (string * Dir)).

(** The metadata dictionary of a stored document. *)
Definition metadata : Type := list (string * string).

(** What [collection.query] returns: one inner list per query text. *)
Record query_result : Type := {
  qr_documents : list (list string);
  qr_metadatas : list (list metadata);
  qr_distances : list (list float)
}.

(** The calls the scripts make to the store, the generative model and the
    terminal, each with the reply it got. *)
Inductive event : Type :=
| Print (line : string)
| Input (prompt reply : string)
| Count (n : nat)
| Add (documents : list string) (metadatas : list metadata)
      (ids : list string) (rejected : option exn)
| DeleteCollection (name : string)
| CreateCollection (name : string)
| Query (query_texts : list string) (n_results : nat)
        (reply : query_result + exn)
| GenerateContent (model contents : string) (reply : string + exn).

(** The replies of the outside world.  The store, the model and the
    operator may answer by the history of the run so far; the file system,
    the web and the libraries are read-only. *)
Record World : Type := {
  count_reply : list event -> nat;
  add_reply : list event -> list string -> list metadata -> list string ->
              option exn;
  query_reply : list event -> list string -> nat -> query_result + exn;
  generate_reply : list event -> string -> string -> string + exn;
  input_reply : list event -> string -> string;
  elapsed_reply : list event -> string;
  os_walk_tree : string -> Dir;
  ET_fromstring : string -> Element + string;
  http_get : string -> list Node + exn;
  urljoin : string -> string -> string
}.

Inductive result (A : Type) : Type :=
| Ok (a : A)
| Raise (e : exn).
Arguments Ok {A} a.
Arguments Raise {A} e.

(** A run reads the world, extends the trace and returns or raises. *)
Definition Run (A : Type) : Type :=
  World -> list event -> result A * list event.

Definition ret {A} (a : A) : Run A := fun _ t => (Ok a, t).

Definition bind {A B} (m : Run A) (k : A -> Run B) : Run B :=
  fun W t =>
    match m W t with
    | (Ok a, t') => k a W t'
    | (Raise e, t') => (Raise e, t')
    end.

Definition raise {A} (e : exn) : Run A := fun _ t => (Raise e, t).

Declare Scope run_scope.
Delimit Scope run_scope with run.
Notation "x <- m ;; k" := (bind m (fun x => k))
  (at level 61, m at next level, right associativity) : run_scope.
Notation "m ;; k" := (bind m (fun _ => k))
  (at level 61, right associativity) : run_scope.
Open Scope run_scope.

(** [except cls as e]: [Exception] catches every class the model has. *)
Definition catches (cls : string) (e : exn) : bool :=
  String.eqb cls "Exception" || String.eqb (exn_class e) cls.

(** [try: m  except cls as e: handler e] *)
Definition try_except {A} (m : Run A) (cls : string) (handler : exn -> Run A)
  : Run A :=
  fun W t =>
    match m W t with
    | (Ok a, t') => (Ok a, t')
    | (Raise e, t') =>
        if catches cls e then handler e W t' else (Raise e, t')
    end.

(** A [for] loop threading the variables it assigns. *)
Fixpoint for_each {A S} (l : list A) (s : S) (body : A -> S -> Run S)
  : Run S :=
  match l with
  | [] => ret s
  | x :: rest => s' <- body x s ;; for_each rest s' body
  end.

(** [enumerate(l, start)] *)
Definition enumerate {A} (start : nat) (l : list A) : list (nat * A) :=
  combine (seq start (length l)) l.

Definition print (line : string) : Run unit :=
  fun _ t => (Ok tt, t ++ [Print line]).

(** [input(prompt)], at a terminal that answers: the runs modelled are
    those in which every prompt is answered with a line.  The end of the
    input and an interrupt at the keyboard ([EOFError],
    [KeyboardInterrupt]) are not part of the model, so nothing proved
    below speaks of a run in which a prompt gets no answer. *)
Definition input (prompt : string) : Run string :=
  fun W t =>
    let reply := input_reply W t prompt in (Ok reply, t ++ [Input prompt reply]).

Definition collection_count : Run nat :=
  fun W t => let n := count_reply W t in (Ok n, t ++ [Count n]).

Definition collection_add (documents : list string)
  (metadatas : list metadata) (ids : list string) : Run unit :=
  fun W t =>
    let r := add_reply W t documents metadatas ids in
    (match r with None => Ok tt | Some e => Raise e end,
     t ++ [Add documents metadatas ids r]).

Definition delete_collection (name : string) : Run unit :=
  fun _ t => (Ok tt, t ++ [DeleteCollection name]).

Definition create_collection (name : string) : Run unit :=
  fun _ t => (Ok tt, t ++ [CreateCollection name]).

Definition collection_query (query_texts : list string) (n_results : nat)
  : Run query_result :=
  fun W t =>
    let r := query_reply W t query_texts n_results in
    (match r with inl q => Ok q | inr e => Raise e end,
     t ++ [Query query_texts n_results r]).

Definition generate_content (model contents : string) : Run string :=
  fun W t =>
    let r := generate_reply W t model contents in
    (match r with inl s => Ok s | inr e => Raise e end,
     t ++ [GenerateContent model contents r]).

Definition elapsed : Run string := fun W t => (Ok (elapsed_reply W t), t).

(** [range(0, stop, step)]; a zero step raises [ValueError]. *)
Definition range (stop step : nat) : Run (list nat) :=
  if step =? 0
  then raise (Exception "ValueError" "range() arg 3 must not be zero")
  else ret (Py.range_values stop step).

(** [l[0]] *)
Definition first_item {A} (l : list A) : Run A :=
  match l with
  | x :: _ => ret x
  | [] => raise (Exception "IndexError" "list index out of range")
  end.

(** [d[key]] on a dictionary *)
Fixpoint dict_get (d : metadata) (key : string) : option string :=
  match d with
  | [] => None
  | (k, v) :: rest => if String.eqb k key then Some v else dict_get rest key
  end.

(** [d[key]], raising [KeyError]; its message, [str(e)], is
    [repr(key)]. *)
Definition getitem (d : metadata) (key : string) : Run string :=
  match dict_get d key with
  | Some v => ret v
  | None => raise (Exception "KeyError" (Py.repr key))
  end.

(** [key in d] *)
Definition contains (d : metadata) (key : string) : bool :=
  match dict_get d key with Some _ => true | None => false end.

(** [int(s)], raising [ValueError]: the message of an invalid literal
    quotes the text as given, through [repr], cut at 200 characters. *)
Definition int_or_raise (s : string) : Run Z :=
  match Py.parse_int s with
  | Py.IntOk z => ret z
  | Py.InvalidLiteral =>
      raise (Exception "ValueError"
               ("invalid literal for int() with base 10: "
                ++ Py.prefix 200 (Py.repr s)))
  | Py.TooManyDigits digits =>
      raise (Exception "ValueError"
               ("Exceeds the limit (" ++ Py.str Py.max_str_digits
                ++ " digits) for integer string conversion: value has "
                ++ Py.str digits
                ++ " digits; use sys.set_int_max_str_digits() to increase the limit"))
  end.

(** The line feed of the f-strings. *)
Definition LF : string := String (ascii_of_nat 10) EmptyString.

Definition collection_name : string := "medquad_qa_collection".

(* ===================================================================== *)
(** * xml.etree.ElementTree and os.path, as far as the scripts use them *)
(* ===================================================================== *)

Module ET.

Definition tag (e : Element) : string :=
  match e with Elem t _ _ => t end.

Definition text (e : Element) : option string :=
  match e with Elem _ t _ => t end.

Definition children (e : Element) : list Element :=
  match e with Elem _ _ cs => cs end.

(** [e.iter()]: the element, then its descendants, in document order. *)
Fixpoint iter (e : Element) : list Element :=
  match e with
  | Elem _ _ cs => e :: flat_map iter cs
  end.

(** [e.findall('.//name')]: the descendants of [e] (never [e] itself)
    with that tag, in document order. *)
Definition findall_descendants (e : Element) (name : string) : list Element :=
  filter (fun d => String.eqb (tag d) name) (flat_map iter (children e)).

(** [e.find('name')]: the first child of [e] with that tag. *)
Definition find (e : Element) (name : string) : option Element :=
  List.find (fun c => String.eqb (tag c) name) (children e).

End ET.

Module OsPath.

(** [os.path.join(a, b)] for a relative [b]. *)
Definition join (a b : string) : string :=
  if Py.is_empty a || Py.endswith a "/"
  then (a ++ b)%string else (a ++ "/" ++ b)%string.

End OsPath.

(** A file [os.walk] found: its directory and name components below the
    top directory, and what reading it gives. *)
Record xml_file : Type := {
  components : list string;
  read : file_read
}.

(** [os.path.join(root, filename)], where [os.walk] built [root] by
    joining the directory names onto the top directory one by one. *)
Definition file_path (directory_path : string) (f : xml_file) : string :=
  fold_left OsPath.join (components f) directory_path.

(** [os.path.relpath(file_path, directory_path)] for a path [os.walk]
    built below [directory_path]: the components below the top, joined
    by the separator. *)
Definition relpath (f : xml_file) : string := Py.join "/" (components f).

(** [os.path.basename(file_path)] *)
Definition basename (f : xml_file) : string := last (components f) "".

(** [d in specific_dirs] *)
Definition in_list (d : string) (l : list string) : bool :=
  existsb (String.eqb d) l.

(** The loop over [os.walk(directory_path)] that collects the [.xml]
    files, top-down; [keep] is the filter the loop applies to [dirs]
    before [os.walk] descends. *)
Fixpoint walk_xml_files (keep : string -> bool) (root : list string)
  (d : Dir) : list xml_file :=
  match d with
  | MkDir files dirs =>
      map (fun nf => {| components := root ++ [fst nf]; read := snd nf |})
          (filter (fun nf => Py.endswith (fst nf) ".xml") files)
      ++ (fix walk_dirs (ds : list (string * Dir)) : list xml_file :=
            match ds with
            | [] => []
            | (name, sub) :: rest =>
                (if keep name
                 then walk_xml_files keep (root ++ [name]) sub else [])
                ++ walk_dirs rest
            end) dirs
  end.

(* ===================================================================== *)
(** * process_medquad_data.py *)
(* ===================================================================== *)

Module ProcessMedquad.

(** The dictionary [{'question': ..., 'answer': ...}]. *)
Record qa : Type := { question : string; answer : string }.

(** The dictionary [load_xml_documents_from_directory] builds per pair. *)
Record document : Type := {
  id : string;
  text : string;
  doc_question : string;
  doc_answer : string;
  source_file : string
}.

(** [elem.text.strip() if elem.text else ""] *)
Definition stripped_text (elem : Element) : string :=
  match ET.text elem with
  | Some s => if Py.truthy s then Py.strip s else ""
  | None => ""
  end.

(** The body of the loop over the [QAPair] elements. *)
Definition append_qa (qa_pairs : list qa) (qa_pair : Element) : list qa :=
  match ET.find qa_pair "Question", ET.find qa_pair "Answer" with
  | Some question_elem, Some answer_elem =>
      let question := stripped_text question_elem in
      let answer := stripped_text answer_elem in
      if Py.truthy question && Py.truthy answer
      then qa_pairs ++ [{| question := question; answer := answer |}]
      else qa_pairs
  | _, _ => qa_pairs
  end.

Definition fromstring (xml_content : string) : Run Element :=
  fun W t =>
    match ET_fromstring W xml_content with
    | inl root => (Ok root, t)
    | inr msg => (Raise (Exception "ParseError" msg), t)
    end.

Definition extract_qa_from_xml (xml_content : string) : Run (list qa) :=
  try_except
    (root <- fromstring xml_content ;;
     ret (fold_left append_qa (ET.findall_descendants root "QAPair") []))
    "ParseError"
    (fun e => print ("Error parsing XML: " ++ exn_msg e) ;; ret []).

(** The variables the loop over the files assigns. *)
Record load_state : Type := {
  documents : list document;
  total_files : nat;
  total_qa_pairs : nat;
  processed_files : nat
}.

Definition open_read (f : xml_file) : Run string :=
  match read f with
  | Content s => ret s
  | ReadError e => raise e
  end.

(** The body of [for i, qa in enumerate(qa_pairs)]. *)
Definition append_document (f : xml_file) (st : list document * nat)
  (iq : nat * qa) : list document * nat :=
  let (i, q) := iq in
  let qa_id := (relpath f ++ "_qa_" ++ Py.str (i + 1))%string in
  let document_text :=
    ("Question: " ++ question q ++ LF ++ "Answer: " ++ answer q)%string in
  (fst st ++ [{| id := qa_id;
                 text := document_text;
                 doc_question := question q;
                 doc_answer := answer q;
                 source_file := relpath f |}],
   snd st + 1).

(** The filter on [dirs]: [d in specific_dirs] when [specific_dirs] is
    truthy, everything otherwise. *)
Definition keep_dir (specific_dirs : option (list string)) (d : string)
  : bool :=
  match specific_dirs with
  | Some (x :: l) => in_list d (x :: l)
  | _ => true
  end.

(** The files the main loop goes through: all of them, or the slice
    [all_xml_files[:max_files]] when [max_files] is truthy. *)
Definition limit_files (max_files : option Z) (all_xml_files : list xml_file)
  : list xml_file :=
  match max_files with
  | Some z => if negb (z =? 0)%Z then Py.slice_to z all_xml_files
              else all_xml_files
  | None => all_xml_files
  end.

Definition process_file (directory_path : string) (n_files : nat)
  (f : xml_file) (st : load_state) : Run load_state :=
  let st := {| documents := documents st;
               total_files := total_files st + 1;
               total_qa_pairs := total_qa_pairs st;
               processed_files := processed_files st + 1 |} in
  (if processed_files st mod 10 =? 0
   then print ("Processing file " ++ Py.str (processed_files st) ++ "/"
               ++ Py.str n_files ++ ": " ++ basename f)
   else ret tt) ;;
  try_except
    (xml_content <- open_read f ;;
     qa_pairs <- extract_qa_from_xml xml_content ;;
     let r := fold_left (append_document f) (enumerate 0 qa_pairs)
                (documents st, total_qa_pairs st) in
     ret {| documents := fst r;
            total_files := total_files st;
            total_qa_pairs := snd r;
            processed_files := processed_files st |})
    "Exception"
    (fun e =>
       print ("Error processing " ++ file_path directory_path f ++ ": "
              ++ exn_msg e) ;;
       ret st).

Definition load_xml_documents_from_directory (directory_path : string)
  (max_files : option Z) (specific_dirs : option (list string))
  : Run (list document) :=
  print "==== Loading XML documents from directory and subdirectories ====" ;;
  found <- (fun W t =>
              (Ok (walk_xml_files (keep_dir specific_dirs) []
                     (os_walk_tree W directory_path)), t)) ;;
  print ("Found " ++ Py.str (length found) ++ " XML files") ;;
  all_xml_files <-
    (match max_files with
     | Some z =>
         if negb (z =? 0)%Z
         then print ("Processing first " ++ Py.str_int z
                     ++ " files for testing") ;;
              ret (Py.slice_to z found)
         else ret found
     | None => ret found
     end) ;;
  st <- for_each all_xml_files
          {| documents := []; total_files := 0;
             total_qa_pairs := 0; processed_files := 0 |}
          (process_file directory_path (length all_xml_files)) ;;
  print ("Processed " ++ Py.str (total_files st) ++ " XML files") ;;
  print ("Extracted " ++ Py.str (total_qa_pairs st) ++ " QA pairs") ;;
  ret (documents st).

Definition metadata_of (doc : document) : metadata :=
  [("question", doc_question doc); ("answer", doc_answer doc);
   ("source_file", source_file doc)].

(** The body of [for i in range(0, total_docs, batch_size)]. *)
Definition add_batch (documents : list document) (batch_size : nat)
  (i : nat) (added_docs : nat) : Run nat :=
  let batch := Py.slice i (i + batch_size) documents in
  let ids := map id batch in
  let texts := map text batch in
  let metadatas := map metadata_of batch in
  collection_add texts metadatas ids ;;
  let added_docs := added_docs + length batch in
  print ("Added batch " ++ Py.str (i / batch_size + 1) ++ ": "
         ++ Py.str (length batch) ++ " documents (Total: "
         ++ Py.str added_docs ++ "/" ++ Py.str (length documents) ++ ")") ;;
  ret added_docs.

Definition add_documents_to_chroma_batch (documents : list document)
  (batch_size : nat) : Run unit :=
  print "==== Adding documents to ChromaDB ====" ;;
  let total_docs := length documents in
  starts <- range total_docs batch_size ;;
  added_docs <- for_each starts 0 (add_batch documents batch_size) ;;
  print ("Successfully added " ++ Py.str added_docs
         ++ " documents to ChromaDB collection").

Definition main : Run unit :=
  print "=== MedQuAD Data Processor ===" ;;
  print "This script will process all XML files and store them in ChromaDB." ;;
  print "You only need to run this once to create your knowledge base." ;;
  mode <- input "Run in test mode? (y/n, default: y): " ;;
  let TEST_MODE := negb (String.eqb (Py.lower mode) "n") in
  config <-
    (if TEST_MODE then
       print (LF ++ "=== TEST MODE ===") ;;
       n <- input "Number of files to process (default: 50): " ;;
       MAX_FILES <- int_or_raise (if Py.truthy n then n else "50") ;;
       let SPECIFIC_DIRS := ["1_CancerGov_QA"] in
       print ("Processing " ++ Py.str_int MAX_FILES ++ " files from "
              ++ "1_CancerGov_QA") ;;
       ret (Some MAX_FILES, Some SPECIFIC_DIRS)
     else
       print (LF ++ "=== FULL MODE ===") ;;
       print "Processing ALL files from ALL directories" ;;
       ret (None, None)) ;;
  existing_count <- collection_count ;;
  proceed <-
    (if 0 <? existing_count then
       print (LF ++ "Collection already has " ++ Py.str existing_count
              ++ " documents") ;;
       reply <- input "Do you want to overwrite existing data? (y/n): " ;;
       let overwrite := String.eqb (Py.lower reply) "y" in
       if overwrite then
         print "Deleting existing collection..." ;;
         delete_collection collection_name ;;
         create_collection collection_name ;;
         ret true
       else
         print "Keeping existing data. Exiting." ;;
         ret false
     else ret true) ;;
  if proceed : bool then
    let directory_path := "./MedQuAD/" in
    documents <- load_xml_documents_from_directory directory_path
                   (fst config) (snd config) ;;
    match documents with
    | _ :: _ =>
        add_documents_to_chroma_batch documents 50 ;;
        seconds <- elapsed ;;
        print (LF ++ "=== PROCESSING COMPLETE ===") ;;
        print ("Total time: " ++ seconds ++ " seconds") ;;
        stored <- collection_count ;;
        print ("Total documents stored: " ++ Py.str stored) ;;
        print (LF ++ "You can now use query_medical_qa.py to ask questions!")
    | [] => print "No documents found to process."
    end
  else ret tt.

End ProcessMedquad.

(* ===================================================================== *)
(** * BeautifulSoup, as far as the scraper uses it *)
(* ===================================================================== *)

Module Soup.

(** The nodes below a node, itself first, in document order. *)
Fixpoint self_and_descendants (n : Node) : list Node :=
  match n with
  | Text _ | Special _ _ => [n]
  | Tag _ _ cs => n :: flat_map self_and_descendants cs
  end.

(** [tag.descendants], and [soup.descendants] for a whole page. *)
Definition descendants (contents : list Node) : list Node :=
  flat_map self_and_descendants contents.

Definition contents_of (n : Node) : list Node :=
  match n with Text _ | Special _ _ => [] | Tag _ _ cs => cs end.

Definition attrs_of (n : Node) : list (string * string) :=
  match n with Text _ | Special _ _ => [] | Tag _ a _ => a end.

Definition name_of (n : Node) : string :=
  match n with Text _ | Special _ _ => "" | Tag t _ _ => t end.

Definition is_tag (name : string) (n : Node) : bool :=
  match n with Text _ | Special _ _ => false | Tag t _ _ => String.eqb t name end.

(** [x.find(name)]: the first tag of that name below [x]. *)
Definition find (contents : list Node) (name : string) : option Node :=
  List.find (is_tag name) (descendants contents).

(** [x.find(name, {key: value})] *)
Definition find_with_attr (contents : list Node) (name key value : string)
  : option Node :=
  List.find
    (fun n => is_tag name n
              && match dict_get (attrs_of n) key with
                 | Some v => String.eqb v value
                 | None => false
                 end)
    (descendants contents).

(** [x.find_all('a', href=True)] *)
Definition find_all_a_href (contents : list Node) : list Node :=
  filter (fun n => is_tag "a" n && contains (attrs_of n) "href")
         (descendants contents).

(** The builder's [string_containers]: the tags whose strings the parser
    reads into a class of their own. *)
Definition string_container (name : string) : option string_class :=
  if String.eqb name "rt" then Some RubyTextString
  else if String.eqb name "rp" then Some RubyParenthesisString
  else if String.eqb name "style" then Some Stylesheet
  else if String.eqb name "script" then Some Script
  else if String.eqb name "template" then Some TemplateString
  else None.

(** Whether a string is of one of the [interesting_string_types] of the
    tag called [name]: for a string container its own class of string,
    for any other tag [NavigableString] and [CData].  The test is on the
    exact class, so a comment, or the text of a script or a style sheet,
    is of no interest to the tag around it. *)
Definition interesting (name : string) (n : Node) : bool :=
  match string_container name, n with
  | None, Text _ => true
  | None, Special CData _ => true
  | Some Script, Special Script _ => true
  | Some Stylesheet, Special Stylesheet _ => true
  | Some TemplateString, Special TemplateString _ => true
  | Some RubyTextString, Special RubyTextString _ => true
  | Some RubyParenthesisString, Special RubyParenthesisString _ => true
  | _, _ => false
  end.

(** The strings below a node, of every class, in document order. *)
Fixpoint strings (n : Node) : list Node :=
  match n with
  | Text _ | Special _ _ => [n]
  | Tag _ _ cs => flat_map strings cs
  end.

Definition string_value (n : Node) : string :=
  match n with Text s | Special _ s => s | Tag _ _ _ => "" end.

(** [tag.get_text(separator=sep, strip=True)]: the strings below the tag
    that are of interest to it, each stripped, the empty ones dropped,
    joined by [sep]. *)
Definition get_text (n : Node) (sep : string) : string :=
  Py.join sep
    (filter Py.truthy
       (map Py.strip
          (map string_value
             (filter (interesting (name_of n))
                (flat_map strings (contents_of n)))))).

End Soup.

(* ===================================================================== *)
(** * scrape_medlineplus.py *)
(* ===================================================================== *)

Module ScrapeMedlineplus.

Definition BASE_URL : string := "https://medlineplus.gov".
Definition ENCYCLOPEDIA_URL : string :=
  "https://medlineplus.gov/encyclopedia.html".

(** [requests.get(url, timeout=10)], [raise_for_status()] and the parse
    of the body. *)
Definition get_soup (url : string) : Run (list Node) :=
  fun W t =>
    match http_get W url with
    | inl soup => (Ok soup, t)
    | inr e => (Raise e, t)
    end.

Definition startswith (s p : string) : bool := String.prefix p s.

Definition drop (n : nat) (s : string) : string :=
  substring n (String.length s - n) s.

Definition is_upper_or_digit (c : ascii) : bool :=
  let n := nat_of_ascii c in
  ((65 <=? n) && (n <=? 90)) || ((48 <=? n) && (n <=? 57)).

(** [re.match(r"^/?ency/encyclopedia_[A-Z0-9]\.htm$", href)]; the dollar
    also matches before one final line feed. *)
Definition index_href_match (href : string) : bool :=
  let h := if startswith href "/" then drop 1 href else href in
  startswith h "ency/encyclopedia_"
  && match drop 18 h with
     | String c rest =>
         is_upper_or_digit c
         && (String.eqb rest ".htm" || String.eqb rest (".htm" ++ LF))
     | EmptyString => false
     end.

Definition href_of (link : Node) : string :=
  match dict_get (Soup.attrs_of link) "href" with
  | Some h => h
  | None => ""
  end.

Definition url_join (base href : string) : Run string :=
  fun W t => (Ok (urljoin W base href), t).

Definition get_index_links : Run (list string) :=
  print "Fetching A-Z,0-9 index links..." ;;
  try_except
    (soup <- get_soup ENCYCLOPEDIA_URL ;;
     index_links <-
       for_each (Soup.find_all_a_href soup) []
         (fun link index_links =>
            let href := href_of link in
            if index_href_match href then
              full_url <- url_join BASE_URL href ;;
              ret (index_links ++ [full_url])
            else ret index_links) ;;
     print ("Found " ++ Py.str (length index_links) ++ " index pages.") ;;
     ret index_links)
    "Exception"
    (fun e => print ("Error fetching index links: " ++ exn_msg e) ;; ret []).

(** The dictionary [{'url': ..., 'anchor_title': ...}]. *)
Record article_link : Type := { link_url : string; anchor_title : string }.

Definition get_article_links_from_index (index_url : string)
  : Run (list article_link) :=
  try_except
    (soup <- get_soup index_url ;;
     match Soup.find_with_attr soup "ul" "id" "index" with
     | None =>
         print ("No <ul id='index'> found in " ++ index_url) ;;
         ret []
     | Some index_ul =>
         for_each (Soup.find_all_a_href (Soup.contents_of index_ul)) []
           (fun link article_links =>
              let href := href_of link in
              if startswith href "article/" && Py.endswith href ".htm" then
                full_url <- url_join index_url href ;;
                let title := Soup.get_text link "" in
                ret (article_links
                     ++ [{| link_url := full_url; anchor_title := title |}])
              else ret article_links)
     end)
    "Exception"
    (fun e =>
       print ("Error fetching articles from " ++ index_url ++ ": "
              ++ exn_msg e) ;;
       ret []).

(** The dictionary [{'title': ..., 'content': ..., 'url': ...}]. *)
Record article : Type := { title : string; content : string; url : string }.

(** The scan of [re.sub(r'\s+', ' ', s)]: a run of whitespace gives one
    space when it starts, nothing while it lasts. *)
Fixpoint sub_spaces (in_run : bool) (s : string) : string :=
  match s with
  | EmptyString => EmptyString
  | String c r =>
      if Py.isspace c
      then if in_run then sub_spaces true r
           else String " " (sub_spaces true r)
      else String c (sub_spaces false r)
  end.

(** [re.sub(r'\s+', ' ', s)] *)
Definition re_sub_spaces (s : string) : string := sub_spaces false s.

Definition scrape_article_content (url anchor_title : string)
  : Run (option article) :=
  try_except
    (soup <- get_soup url ;;
     let h1 := Soup.find soup "h1" in
     let title := match h1 with
                  | Some h => Soup.get_text h ""
                  | None => anchor_title
                  end in
     match Soup.find_with_attr soup "div" "id" "ency_content" with
     | None => ret None
     | Some content_div =>
         let content_text := Soup.get_text content_div " " in
         let content_text := Py.strip (re_sub_spaces content_text) in
         if Py.len content_text <? 100 then ret None
         else ret (Some {| title := title;
                           content := content_text;
                           url := url |})
     end)
    "Exception"
    (fun e => print ("Error scraping " ++ url ++ ": " ++ exn_msg e) ;;
              ret None).

(** The dictionary [add_medlineplus_to_chroma] builds per article. *)
Record document : Type := {
  id : string;
  text : string;
  doc_title : string;
  doc_content : string;
  source : string;
  doc_url : string
}.

(** The body of [for i, article in enumerate(articles)]; [None] is the
    only falsy value an entry can be. *)
Definition append_document (documents : list document)
  (ia : nat * option article) : list document :=
  match ia with
  | (i, Some article) =>
      let doc_id := ("medlineplus_" ++ Py.str (i + 1))%string in
      let doc_text := ("Title: " ++ title article ++ LF ++ "Content: "
                       ++ content article)%string in
      documents ++ [{| id := doc_id;
                       text := doc_text;
                       doc_title := title article;
                       doc_content := content article;
                       source := "MedlinePlus Encyclopedia";
                       doc_url := url article |}]
  | (_, None) => documents
  end.

Definition metadata_of (doc : document) : metadata :=
  [("title", doc_title doc); ("content", doc_content doc);
   ("source", source doc); ("url", doc_url doc)].

(** The body of [for i in range(0, total_docs, batch_size)]. *)
Definition add_batch (documents : list document) (batch_size : nat)
  (i : nat) (added_docs : nat) : Run nat :=
  let batch := Py.slice i (i + batch_size) documents in
  let ids := map id batch in
  let texts := map text batch in
  let metadatas := map metadata_of batch in
  collection_add texts metadatas ids ;;
  let added_docs := added_docs + length batch in
  print ("Added batch " ++ Py.str (i / batch_size + 1) ++ ": "
         ++ Py.str (length batch) ++ " articles (Total: "
         ++ Py.str added_docs ++ "/" ++ Py.str (length documents) ++ ")") ;;
  ret added_docs.

Definition documents_of (articles : list (option article)) : list document :=
  fold_left append_document (enumerate 0 articles) [].

Definition add_medlineplus_to_chroma (articles : list (option article))
  (batch_size : nat) : Run unit :=
  print "Adding MedlinePlus articles to ChromaDB..." ;;
  let documents := documents_of articles in
  let total_docs := length documents in
  starts <- range total_docs batch_size ;;
  added_docs <- for_each starts 0 (add_batch documents batch_size) ;;
  print ("Successfully added " ++ Py.str added_docs
         ++ " MedlinePlus articles to ChromaDB").

(** The loop of [main] that scrapes the chosen links. *)
Definition scrape_all (links : list article_link) : Run (list article) :=
  for_each (enumerate 0 links) []
    (fun il articles =>
       let (i, link_info) := il in
       print ("Scraping " ++ Py.str (i + 1) ++ "/" ++ Py.str (length links)
              ++ ": " ++ anchor_title link_info) ;;
       scraped <- scrape_article_content (link_url link_info)
                    (anchor_title link_info) ;;
       match scraped with
       | Some a => ret (articles ++ [a])
       | None => ret articles
       end).

Definition main : Run unit :=
  print "=== MedlinePlus Encyclopedia Scraper (A-Z Index Version) ===" ;;
  print "This will scrape medical articles from MedlinePlus and add them to your knowledge base." ;;
  index_links <- get_index_links ;;
  match index_links with
  | [] => print "No index pages found. Exiting."
  | _ :: _ =>
      all_article_links <-
        for_each index_links []
          (fun idx_url all_article_links =>
             print ("Fetching articles from " ++ idx_url) ;;
             links <- get_article_links_from_index idx_url ;;
             ret (all_article_links ++ links)) ;;
      print ("Total articles found: " ++ Py.str (length all_article_links)) ;;
      reply <- input "Number of articles to scrape (default: 100, 'all' for all): " ;;
      let max_articles := Py.strip reply in
      max_articles <-
        (if String.eqb (Py.lower max_articles) "all"
         then ret (Z.of_nat (length all_article_links))
         else if Py.isdigit max_articles
              then int_or_raise max_articles
              else ret 100%Z) ;;
      let all_article_links := Py.slice_to max_articles all_article_links in
      print ("Will scrape " ++ Py.str (length all_article_links)
             ++ " articles") ;;
      articles <- scrape_all all_article_links ;;
      print ("Successfully scraped " ++ Py.str (length articles)
             ++ " articles") ;;
      match articles with
      | _ :: _ =>
          add_medlineplus_to_chroma (map Some articles) 50 ;;
          total <- collection_count ;;
          print (LF ++ "Total documents in collection: " ++ Py.str total) ;;
          print "MedlinePlus articles have been added to your knowledge base!"
      | [] => print "No articles were successfully scraped."
      end
  end.

End ScrapeMedlineplus.

(* ===================================================================== *)
(** * query_medical_qa.py *)
(* ===================================================================== *)

Module QueryMedicalQa.

(** The dictionary [query_medical_qa] returns. *)
Record query_answer : Type := {
  answer : string;
  sources : list metadata;
  distances : list float
}.

(** The f-string of the prompt. *)
Definition prompt_of (context question : string) : string :=
  "You are a medical assistant. Based on the following medical information, answer the user's question. "
  ++ LF ++
  "    If the information provided doesn't contain the answer, say so clearly."
  ++ LF ++ LF ++
  "    Medical Information:" ++ LF ++
  "    " ++ context ++ LF ++ LF ++
  "    User Question: " ++ question ++ LF ++ LF ++
  "    Please provide a clear, accurate, and helpful answer based on the medical information above.".

Definition query_medical_qa (question : string) (top_k : nat)
  : Run query_answer :=
  print ("==== Querying: " ++ question ++ " ====") ;;
  results <- collection_query [question] top_k ;;
  docs <- first_item (qr_documents results) ;;
  let context := Py.join (LF ++ LF) docs in
  let prompt := prompt_of context question in
  response_text <- generate_content "gemini-2.0-flash-exp" prompt ;;
  metas <- first_item (qr_metadatas results) ;;
  dists <- first_item (qr_distances results) ;;
  ret {| answer := response_text; sources := metas; distances := dists |}.

Definition show_collection_info : Run bool :=
  count <- collection_count ;;
  print ("Knowledge base contains " ++ Py.str count ++ " medical Q&A pairs") ;;
  if count =? 0 then
    print (LF ++ "⚠️  No data found! Please run process_medquad_data.py first.") ;;
    ret false
  else ret true.

(** The body of [for i, source in enumerate(result['sources'], 1)]. *)
Definition show_source (entry : nat * metadata) (_ : unit) : Run unit :=
  let (i, source) := entry in
  if contains source "source_file" then
    source_file <- getitem source "source_file" ;;
    print ("  " ++ Py.str i ++ ". " ++ source_file) ;;
    question <- getitem source "question" ;;
    print ("     Q: " ++ Py.prefix 100 question ++ "...")
  else if contains source "title" then
    title <- getitem source "title" ;;
    print ("  " ++ Py.str i ++ ". " ++ title) ;;
    src <- getitem source "source" ;;
    print ("     Source: " ++ src) ;;
    if contains source "url" then
      url <- getitem source "url" ;;
      print ("     URL: " ++ url)
    else ret tt
  else ret tt.

Definition is_quit (question : string) : bool :=
  in_list (Py.lower question) ["quit"; "exit"; "q"].

(** [interactive_query]: the [while True] loop runs at most [fuel]
    rounds here; [None] is a loop that has not ended by then. *)
Fixpoint interactive_loop (fuel : nat) : Run (option unit) :=
  match fuel with
  | 0 => ret None
  | S fuel' =>
      reply <- input (LF ++ "🤔 Your question: ") ;;
      let question := Py.strip reply in
      if is_quit question then print "Goodbye!" ;; ret (Some tt)
      else if negb (Py.truthy question) then interactive_loop fuel'
      else
        try_except
          (result <- query_medical_qa question 5 ;;
           print (LF ++ "💡 Answer: " ++ answer result) ;;
           print ("📚 Sources: " ++ Py.str (length (sources result))
                  ++ " relevant documents found") ;;
           match sources result with
           | _ :: _ =>
               print (LF ++ "📖 Source documents:") ;;
               for_each (enumerate 1 (sources result)) tt show_source
           | [] => ret tt
           end)
          "Exception"
          (fun e => print ("❌ Error: " ++ exn_msg e)) ;;
        interactive_loop fuel'
  end.

Definition interactive_query (fuel : nat) : Run (option unit) :=
  print (LF ++ "=== Medical QA System ===") ;;
  print "Ask medical questions and get answers based on the MedQuAD dataset." ;;
  print "Type 'quit' to exit." ;;
  interactive_loop fuel.

Definition main (fuel : nat) : Run (option unit) :=
  print "=== Medical QA Query System ===" ;;
  has_data <- show_collection_info ;;
  if negb has_data then ret (Some tt)
  else
    print (LF ++ "Options:") ;;
    print "1. Interactive query mode" ;;
    print "2. Single question" ;;
    print "3. Exit" ;;
    reply <- input (LF ++ "Choose an option (1-3): ") ;;
    let choice := Py.strip reply in
    if String.eqb choice "1" then interactive_query fuel
    else if String.eqb choice "2" then
      reply <- input "Enter your medical question: " ;;
      let question := Py.strip reply in
      (if Py.truthy question then
         result <- query_medical_qa question 5 ;;
         print (LF ++ "💡 Answer: " ++ answer result) ;;
         print ("📚 Sources: " ++ Py.str (length (sources result))
                ++ " relevant documents found")
       else ret tt) ;;
      ret (Some tt)
    else if String.eqb choice "3" then print "Goodbye!" ;; ret (Some tt)
    else print "Invalid choice. Exiting." ;; ret (Some tt).

End QueryMedicalQa.

(* ===================================================================== *)
(** * Vocabulary of the properties *)
(* ===================================================================== *)

(** The result and the trace of a run started with an empty trace. *)
Definition outcome {A} (m : Run A) (W : World) : result A := fst (m W []).
Definition trace {A} (m : Run A) (W : World) : list event := snd (m W []).

(** The [collection.add] calls of a trace, in order. *)
Definition is_add (e : event) : bool :=
  match e with Add _ _ _ _ => true | _ => false end.

Definition adds (t : list event) : list event := filter is_add t.

(** The calls to the store in a trace, in order. *)
Definition is_store_call (e : event) : bool :=
  match e with
  | Count _ | Add _ _ _ _ | DeleteCollection _ | CreateCollection _
  | Query _ _ _ => true
  | _ => false
  end.

Definition store_calls (t : list event) : list event :=
  filter is_store_call t.

Definition is_generate (e : event) : bool :=
  match e with GenerateContent _ _ _ => true | _ => false end.

Definition is_query (e : event) : bool :=
  match e with Query _ _ _ => true | _ => false end.

(** The text of an element, trimmed; absent text counts as empty. *)
Definition trimmed_text (e : Element) : string :=
  match ET.text e with
  | Some s => Py.strip s
  | None => ""
  end.

(** A QA-pair element with a question and an answer sub-element whose
    trimmed texts [q] and [a] are both non-empty. *)
Definition has_qa (e : Element) (q a : string) : Prop :=
  ET.tag e = "QAPair" /\
  exists qe ae,
    ET.find e "Question" = Some qe /\ ET.find e "Answer" = Some ae /\
    q = trimmed_text qe /\ a = trimmed_text ae /\ q <> "" /\ a <> "".

Definition complete_pair (e : Element) : bool :=
  String.eqb (ET.tag e) "QAPair"
  && match ET.find e "Question", ET.find e "Answer" with
     | Some qe, Some ae =>
         Py.truthy (trimmed_text qe) && Py.truthy (trimmed_text ae)
     | _, _ => false
     end.

(** The elements of a document: the root and everything below it. *)
Definition elements (root : Element) : list Element := ET.iter root.

(** The elements strictly below the root. *)
Definition elements_below (root : Element) : list Element :=
  flat_map ET.iter (ET.children root).

(** The pairs [extract_qa_from_xml] returns for a parsed root. *)
Definition qa_pairs_of (root : Element) : list ProcessMedquad.qa :=
  fold_left ProcessMedquad.append_qa (ET.findall_descendants root "QAPair") [].

(** The documents one file contributes to a load. *)
Definition file_documents (W : World) (f : xml_file)
  : list ProcessMedquad.document :=
  match read f with
  | Content x =>
      match ET_fromstring W x with
      | inl root =>
          fst (fold_left (ProcessMedquad.append_document f)
                 (enumerate 0 (qa_pairs_of root)) ([], 0))
      | inr _ => []
      end
  | ReadError _ => []
  end.

(** The files a load finds below [directory_path]. *)
Definition found_files (W : World) (directory_path : string)
  (specific_dirs : option (list string)) : list xml_file :=
  walk_xml_files (ProcessMedquad.keep_dir specific_dirs) []
    (os_walk_tree W directory_path).

(** A world with an empty store that accepts everything, an operator
    who only presses return, and one XML document on every path. *)
Definition plain_world (tree : Dir) (parse : string -> Element + string)
  : World := {|
  count_reply := fun _ => 0;
  add_reply := fun _ _ _ _ => None;
  query_reply := fun _ _ _ =>
    inl {| qr_documents := [[]]; qr_metadatas := [[]]; qr_distances := [[]] |};
  generate_reply := fun _ _ _ => inl "I do not know.";
  input_reply := fun _ _ => "";
  elapsed_reply := fun _ => "0.00";
  os_walk_tree := fun _ => tree;
  ET_fromstring := parse;
  http_get := fun _ => inr (Exception "ConnectionError" "unreachable");
  urljoin := fun base href => (base ++ "/" ++ href)%string
|}.

(** The document of the pair at index [i] of file [f]. *)
Definition document_of (f : xml_file) (iq : nat * ProcessMedquad.qa)
  : ProcessMedquad.document :=
  {| ProcessMedquad.id :=
       (relpath f ++ "_qa_" ++ Py.str (fst iq + 1))%string;
     ProcessMedquad.text :=
       ("Question: " ++ ProcessMedquad.question (snd iq) ++ LF
        ++ "Answer: " ++ ProcessMedquad.answer (snd iq))%string;
     ProcessMedquad.doc_question := ProcessMedquad.question (snd iq);
     ProcessMedquad.doc_answer := ProcessMedquad.answer (snd iq);
     ProcessMedquad.source_file := relpath f |}.

(** The pair a QA-pair element gives, if it gives one. *)
Definition qa_of (e : Element) : option ProcessMedquad.qa :=
  match ET.find e "Question", ET.find e "Answer" with
  | Some qe, Some ae =>
      if Py.truthy (trimmed_text qe) && Py.truthy (trimmed_text ae)
      then Some {| ProcessMedquad.question := trimmed_text qe;
                   ProcessMedquad.answer := trimmed_text ae |}
      else None
  | _, _ => None
  end.

(** A run only ever appends to the trace, and only events of the kind
    [P]. *)
Definition emits {A} (P : event -> Prop) (m : Run A) : Prop :=
  forall W t, exists d, snd (m W t) = t ++ d /\ Forall P d.

Definition add_or_print (e : event) : Prop :=
  match e with
  | Add _ _ _ _ | Print _ => True
  | _ => False
  end.

Definition add_or_count (e : event) : Prop :=
  match e with
  | Add _ _ _ _ | Count _ => True
  | _ => False
  end.


(** The progress line of [process_file], when it is due. *)
Definition progress_line (n_files : nat) (f : xml_file) (processed : nat)
  : list event :=
  if processed mod 10 =? 0
  then [Print ("Processing file " ++ Py.str processed ++ "/"
               ++ Py.str n_files ++ ": " ++ basename f)]
  else [].

(** What a file prints besides the progress line. *)
Definition file_errors (W : World) (directory_path : string) (f : xml_file)
  : list event :=
  match read f with
  | Content x =>
      match ET_fromstring W x with
      | inl _ => []
      | inr msg => [Print ("Error parsing XML: " ++ msg)]
      end
  | ReadError e =>
      [Print ("Error processing " ++ file_path directory_path f ++ ": "
              ++ exn_msg e)]
  end.


(** What the loop over the files prints, [processed] files in. *)
Fixpoint load_events (W : World) (directory_path : string) (n_files : nat)
  (files : list xml_file) (processed : nat) : list event :=
  match files with
  | [] => []
  | f :: rest =>
      progress_line n_files f (processed + 1)
      ++ file_errors W directory_path f
      ++ load_events W directory_path n_files rest (processed + 1)
  end.

(** The line that announces a file limit. *)
Definition limit_line (max_files : option Z) : list event :=
  match max_files with
  | Some z =>
      if negb (z =? 0)%Z
      then [Print ("Processing first " ++ Py.str_int z
                   ++ " files for testing")]
      else []
  | None => []
  end.

(** The documents a load returns. *)
Definition loaded_documents (W : World) (directory_path : string)
  (max_files : option Z) (specific_dirs : option (list string))
  : list ProcessMedquad.document :=
  flat_map (file_documents W)
    (ProcessMedquad.limit_files max_files
       (found_files W directory_path specific_dirs)).

(** Everything a load prints. *)
Definition load_trace (W : World) (directory_path : string)
  (max_files : option Z) (specific_dirs : option (list string))
  : list event :=
  let found := found_files W directory_path specific_dirs in
  let files := ProcessMedquad.limit_files max_files found in
  [Print "==== Loading XML documents from directory and subdirectories ====";
   Print ("Found " ++ Py.str (length found) ++ " XML files")]
  ++ limit_line max_files
  ++ load_events W directory_path (length files) files 0
  ++ [Print ("Processed " ++ Py.str (length files) ++ " XML files");
      Print ("Extracted "
             ++ Py.str (length (loaded_documents W directory_path max_files
                                  specific_dirs))
             ++ " QA pairs")].

(** The text of the document of a pair with question [q] and answer [a]. *)
Definition qa_text (q a : string) : string :=
  "Question: " ++ q ++ LF ++ "Answer: " ++ a.

(** A document [d] carries the pair of the element [e]. *)
Definition document_for (e : Element) (d : ProcessMedquad.document) : Prop :=
  exists q a, has_qa e q a /\ ProcessMedquad.text d = qa_text q a.

(** Claim C1 as the specification words it: one document for each
    complete QA-pair element of the parsed input. *)
Definition one_document_per_pair_of_the_input : Prop :=
  forall W directory_path n_files f st t x root,
    read f = Content x ->
    ET_fromstring W x = inl root ->
    exists st' t' docs,
      ProcessMedquad.process_file directory_path n_files f st W t
      = (Ok st', t') /\
      ProcessMedquad.documents st' = ProcessMedquad.documents st ++ docs /\
      Forall2 document_for (filter complete_pair (elements root)) docs.

(** An input whose root is itself a complete QA-pair element. *)
Definition root_pair : Element :=
  Elem "QAPair" None
    [Elem "Question" (Some "What is asthma?") [];
     Elem "Answer" (Some "A lung disease.") []].

(** The document of the MedQuAD layout: pairs below the root. *)
Definition medquad_root : Element :=
  Elem "Document" None
    [Elem "Focus" (Some "Asthma") [];
     Elem "QAPairs" None
       [Elem "QAPair" None
          [Elem "Question" (Some " What is asthma? ") [];
           Elem "Answer" (Some "A lung disease.") []];
        Elem "QAPair" None
          [Elem "Question" (Some "   ") [];
           Elem "Answer" (Some "Nothing asked.") []];
        Elem "QAPair" None
          [Elem "Question" (Some "No answer?") []];
        Elem "QAPair" None
          [Elem "Answer" (Some "Inhalers.") [];
           Elem "Question" (Some "How is it treated?") []]]].

(** The XML texts of the two roots, a text cut short, and a parser that
    knows the three. *)
Definition root_pair_xml : string :=
  "<QAPair><Question>What is asthma?</Question><Answer>A lung disease.</Answer></QAPair>".

Definition medquad_xml : string :=
  "<Document><Focus>Asthma</Focus><QAPairs><QAPair><Question> What is asthma? </Question><Answer>A lung disease.</Answer></QAPair><QAPair><Question>   </Question><Answer>Nothing asked.</Answer></QAPair><QAPair><Question>No answer?</Question></QAPair><QAPair><Answer>Inhalers.</Answer><Question>How is it treated?</Question></QAPair></QAPairs></Document>".

Definition broken_xml : string := "<Document><QAPairs>".

Definition example_parser (x : string) : Element + string :=
  if String.eqb x medquad_xml then inl medquad_root
  else if String.eqb x root_pair_xml then inl root_pair
  else if String.eqb x broken_xml
  then inr "no element found: line 1, column 19"
  else inr "syntax error: line 1, column 0".

Definition one_file_tree (name : string) (r : file_read) : Dir :=
  MkDir [(name, r)] [].

Definition asthma_file : xml_file :=
  {| components := ["asthma.xml"]; read := Content medquad_xml |}.

Definition root_pair_file : xml_file :=
  {| components := ["asthma.xml"]; read := Content root_pair_xml |}.

Definition empty_load_state : ProcessMedquad.load_state :=
  {| ProcessMedquad.documents := [];
     ProcessMedquad.total_files := 0;
     ProcessMedquad.total_qa_pairs := 0;
     ProcessMedquad.processed_files := 0 |}.

(** The words of a text: its maximal runs of characters that are not
    whitespace, in order. *)
Fixpoint words (s : string) : list string :=
  match s with
  | EmptyString => []
  | String c r =>
      if Py.isspace c then words r
      else if match r with
              | String c' _ => negb (Py.isspace c')
              | EmptyString => false
              end
           then match words r with
                | w :: ws => String c w :: ws
                | [] => [String c EmptyString]
                end
           else String c EmptyString :: words r
  end.

(** A text with every run of whitespace collapsed to one space and none
    at either end: its words, one space between neighbours. *)
Definition collapsed (s : string) : string := Py.join " " (words s).

Fixpoint no_space (s : string) : bool :=
  match s with
  | EmptyString => true
  | String c r => negb (Py.isspace c) && no_space r
  end.

(** The title the scraper gives a page: the text of its first [h1], or
    the anchor text when the page has none. *)
Definition heading (soup : list Node) (anchor_title : string) : string :=
  match Soup.find soup "h1" with
  | Some h1 => Soup.get_text h1 ""
  | None => anchor_title
  end.

(** The document text of an article. *)
Definition article_text (a : ScrapeMedlineplus.article) : string :=
  "Title: " ++ ScrapeMedlineplus.title a ++ LF ++ "Content: "
  ++ ScrapeMedlineplus.content a.

(** The document of the article at index [i]. *)
Definition article_document (i : nat) (a : ScrapeMedlineplus.article)
  : ScrapeMedlineplus.document :=
  {| ScrapeMedlineplus.id := ("medlineplus_" ++ Py.str (i + 1))%string;
     ScrapeMedlineplus.text := article_text a;
     ScrapeMedlineplus.doc_title := ScrapeMedlineplus.title a;
     ScrapeMedlineplus.doc_content := ScrapeMedlineplus.content a;
     ScrapeMedlineplus.source := "MedlinePlus Encyclopedia";
     ScrapeMedlineplus.doc_url := ScrapeMedlineplus.url a |}.

(** What scraping one page gives, and what it prints. *)
Definition scraped (W : World) (url anchor_title : string)
  : option ScrapeMedlineplus.article :=
  match http_get W url with
  | inl soup =>
      match Soup.find_with_attr soup "div" "id" "ency_content" with
      | Some content_div =>
          let content := collapsed (Soup.get_text content_div " ") in
          if Py.len content <? 100 then None
          else Some {| ScrapeMedlineplus.title := heading soup anchor_title;
                       ScrapeMedlineplus.content := content;
                       ScrapeMedlineplus.url := url |}
      | None => None
      end
  | inr _ => None
  end.

Definition scrape_error (W : World) (url : string) : list event :=
  match http_get W url with
  | inl _ => []
  | inr e => [Print ("Error scraping " ++ url ++ ": " ++ exn_msg e)]
  end.

(** A fetched article page: a heading and a content container whose
    text is laid out over several lines. *)
Definition asthma_page : list Node :=
  [Tag "html" []
     [Tag "body" []
        [Tag "h1" [] [Text " Asthma "];
         Tag "div" [("id", "ency_content")]
           [Tag "p" []
              [Text ("  Asthma is a chronic disease that   causes the airways"
                     ++ LF ++ "   of the lungs to swell and narrow. ")];
            Tag "p" []
              [Text ("It leads to wheezing, shortness of breath,"
                     ++ LF ++ LF ++ " chest tightness, and coughing.  ")]]]]].

(** A fetched page whose content container shows one short sentence and
    holds, besides, a comment, a script and a style sheet. *)
Definition stub_page : list Node :=
  [Tag "html" []
     [Tag "body" []
        [Tag "h1" [] [Special Comment "title"; Text "Asthma"];
         Tag "div" [("id", "ency_content")]
           [Special Comment
              (" The summary of this article is being reviewed by the editors"
               ++ " and will be published again once the review is complete. ");
            Tag "script" []
              [Special Script
                 ("window.dataLayer = window.dataLayer || [];"
                  ++ " function gtag(){ dataLayer.push(arguments); }"
                  ++ " gtag('js', new Date()); gtag('config', 'ency');")];
            Tag "style" []
              [Special Stylesheet
                 (".summary { margin: 0 auto; padding: 0 12px; }"
                  ++ " .summary p { line-height: 1.4; color: #333333; }"
                  ++ " .summary h2 { font-size: 1.2em; }")];
            Tag "p" [] [Text " Asthma is a lung disease. "]]]]].

Definition web_world (page : string -> list Node + exn) : World := {|
  count_reply := fun _ => 0;
  add_reply := fun _ _ _ _ => None;
  query_reply := fun _ _ _ =>
    inl {| qr_documents := [[]]; qr_metadatas := [[]]; qr_distances := [[]] |};
  generate_reply := fun _ _ _ => inl "I do not know.";
  input_reply := fun _ _ => "";
  elapsed_reply := fun _ => "0.00";
  os_walk_tree := fun _ => MkDir [] [];
  ET_fromstring := fun _ => inr "no element found: line 1, column 0";
  http_get := page;
  urljoin := fun base href => (base ++ "/" ++ href)%string
|}.

(** The pairs extracted from one file. *)
Definition file_pairs (W : World) (f : xml_file) : list ProcessMedquad.qa :=
  match read f with
  | Content x =>
      match ET_fromstring W x with
      | inl root => qa_pairs_of root
      | inr _ => []
      end
  | ReadError _ => []
  end.

(** The ids [path_qa_1 .. path_qa_n] of the [n] pairs of a file. *)
Definition qa_ids (f : xml_file) (n : nat) : list string :=
  map (fun k => (relpath f ++ "_qa_" ++ Py.str k)%string) (seq 1 n).

(** The ids [medlineplus_1 .. medlineplus_n]. *)
Definition article_ids (n : nat) : list string :=
  map (fun k => ("medlineplus_" ++ Py.str k)%string) (seq 1 n).

(** The articles of the links that scrape, in the order of the links. *)
Definition scraped_articles (W : World)
  (links : list ScrapeMedlineplus.article_link)
  : list ScrapeMedlineplus.article :=
  flat_map (fun l =>
              match scraped W (ScrapeMedlineplus.link_url l)
                      (ScrapeMedlineplus.anchor_title l) with
              | Some a => [a]
              | None => []
              end) links.

(** What scraping the links prints, the link at index [k] first. *)
Fixpoint scrape_events (W : World) (n_links : nat)
  (links : list ScrapeMedlineplus.article_link) (k : nat) : list event :=
  match links with
  | [] => []
  | l :: rest =>
      Print ("Scraping " ++ Py.str (k + 1) ++ "/" ++ Py.str n_links ++ ": "
             ++ ScrapeMedlineplus.anchor_title l)
      :: scrape_error W (ScrapeMedlineplus.link_url l)
      ++ scrape_events W n_links rest (S k)
  end.

(** Two worlds with the same sources: the same directory trees, the same
    parses and the same pages. *)
Definition same_sources (W1 W2 : World) : Prop :=
  (forall p, os_walk_tree W1 p = os_walk_tree W2 p) /\
  (forall x, ET_fromstring W1 x = ET_fromstring W2 x) /\
  (forall u, http_get W1 u = http_get W2 u).

(** The batches of a sequence: the slices [l[i : i + b]] at the starts
    [0, b, 2b, ...] below [len(l)]. *)
Definition batches {D} (b : nat) (l : list D) : list (list D) :=
  map (fun i => Py.slice i (i + b) l) (Py.range_values (length l) b).

(** How a batch is handed to the store: the texts, the metadata and the
    ids of its documents, and the store's verdict. *)
Definition add_call {D} (text_of : D -> string) (meta_of : D -> metadata)
  (id_of : D -> string) (verdict : option exn) (batch : list D) : event :=
  Add (map text_of batch) (map meta_of batch) (map id_of batch) verdict.

Definition qa_add_call := add_call ProcessMedquad.text
  ProcessMedquad.metadata_of ProcessMedquad.id.

Definition article_add_call := add_call ScrapeMedlineplus.text
  ScrapeMedlineplus.metadata_of ScrapeMedlineplus.id.

(** The loop body both ingestors share, up to the documents' fields and
    the wording of the progress line. *)
Definition batch_body {D} (text_of : D -> string) (meta_of : D -> metadata)
  (id_of : D -> string) (line : nat -> nat -> nat -> string)
  (documents : list D) (batch_size : nat) (i : nat) (added_docs : nat)
  : Run nat :=
  let batch := Py.slice i (i + batch_size) documents in
  collection_add (map text_of batch) (map meta_of batch) (map id_of batch) ;;
  print (line i (length batch) (added_docs + length batch)) ;;
  ret (added_docs + length batch).

(** The store of a world accepts every [add]. *)
Definition accepts_all (W : World) : Prop :=
  forall t documents metadatas ids, add_reply W t documents metadatas ids = None.

(** All the batches but the last. *)
Definition all_but_last {A} (l : list A) : list A := removelast l.


(** The progress lines of the two ingestors. *)
Definition qa_line (total batch_size i n added : nat) : string :=
  "Added batch " ++ Py.str (i / batch_size + 1) ++ ": " ++ Py.str n
  ++ " documents (Total: " ++ Py.str added ++ "/" ++ Py.str total ++ ")".

Definition article_line (total batch_size i n added : nat) : string :=
  "Added batch " ++ Py.str (i / batch_size + 1) ++ ": " ++ Py.str n
  ++ " articles (Total: " ++ Py.str added ++ "/" ++ Py.str total ++ ")".

(** The shape both ingestors share: an opening line, the loop over the
    batch starts, a closing line. *)
Definition ingest {D} (text_of : D -> string) (meta_of : D -> metadata)
  (id_of : D -> string) (line : nat -> nat -> nat -> string)
  (opening : string) (closing : nat -> string)
  (documents : list D) (batch_size : nat) : Run unit :=
  print opening ;;
  starts <- range (length documents) batch_size ;;
  added_docs <- for_each starts 0
                  (batch_body text_of meta_of id_of line documents batch_size) ;;
  print (closing added_docs).

(** The two ways an ingestion ends, from the trace [t]: every batch was
    submitted and accepted; or the store rejected one batch with [e],
    the run raises [e], the rejected call is the last event of the trace
    and the batches after it were never submitted. *)
Definition all_submitted {D} (to_call : option exn -> list D -> event)
  (bs : list (list D)) (t : list event) (r : result unit * list event)
  : Prop :=
  fst r = Ok tt /\ adds (snd r) = adds t ++ map (to_call None) bs.

Definition stopped_at_rejection {D} (W : World)
  (to_call : option exn -> list D -> event)
  (bs : list (list D)) (t : list event) (r : result unit * list event)
  : Prop :=
  exists pre c post e t0,
    bs = pre ++ c :: post /\
    r = (Raise e, t0 ++ [to_call (Some e) c]) /\
    (exists documents metadatas ids,
        to_call (Some e) c = Add documents metadatas ids (Some e) /\
        add_reply W t0 documents metadatas ids = Some e) /\
    adds t0 = adds t ++ map (to_call None) pre.

(** Claim C3 as the specification words it: for every sequence of
    documents and every batch size of at least 1, whatever the store
    answers, the [add] calls of the ingestion are the batches of the
    sequence, one call per batch, in order. *)
Definition every_batch_is_submitted_in_order : Prop :=
  forall W documents batch_size,
    1 <= batch_size ->
    exists verdicts,
      length verdicts = length (batches batch_size documents) /\
      adds (trace (ProcessMedquad.add_documents_to_chroma_batch documents
                     batch_size) W)
      = map (fun vc => qa_add_call (fst vc) (snd vc))
          (combine verdicts (batches batch_size documents)).

(** Claim C4 as the specification words it: whatever the store answers,
    every batch of the sequence is submitted. *)
Definition every_batch_is_attempted : Prop :=
  forall W documents batch_size,
    1 <= batch_size ->
    forall c, In c (batches batch_size documents) ->
      exists verdict,
        In (qa_add_call verdict c)
           (trace (ProcessMedquad.add_documents_to_chroma_batch documents
                     batch_size) W).

(** A store that rejects the batch with the ids [bad] and accepts every
    other. *)
Definition rejecting_world (bad : list string) : World := {|
  count_reply := fun _ => 0;
  add_reply := fun _ _ _ ids =>
    if list_eq_dec string_dec ids bad
    then Some (Exception "InternalError" "disk full")
    else None;
  query_reply := fun _ _ _ =>
    inl {| qr_documents := [[]]; qr_metadatas := [[]]; qr_distances := [[]] |};
  generate_reply := fun _ _ _ => inl "I do not know.";
  input_reply := fun _ _ => "";
  elapsed_reply := fun _ => "0.00";
  os_walk_tree := fun _ => MkDir [] [];
  ET_fromstring := fun _ => inr "no element found: line 1, column 0";
  http_get := fun _ => inr (Exception "ConnectionError" "unreachable");
  urljoin := fun base href => (base ++ "/" ++ href)%string
|}.

Definition qa_document (path : string) (k : nat) (q a : string)
  : ProcessMedquad.document :=
  {| ProcessMedquad.id := (path ++ "_qa_" ++ Py.str k)%string;
     ProcessMedquad.text := qa_text q a;
     ProcessMedquad.doc_question := q;
     ProcessMedquad.doc_answer := a;
     ProcessMedquad.source_file := path |}.

Definition three_documents : list ProcessMedquad.document :=
  [qa_document "asthma.xml" 1 "What is asthma?" "A lung disease.";
   qa_document "asthma.xml" 2 "How is it treated?" "Inhalers.";
   qa_document "flu.xml" 1 "What is flu?" "A viral infection."].

Definition printed (e : event) : Prop :=
  match e with Print _ => True | _ => False end.

Definition overwrite_prompt : string :=
  "Do you want to overwrite existing data? (y/n): ".

(** The four ways a guarded write run can treat the store: it never
    reaches it; it counts zero documents and ingests; it counts some
    and, on any answer but yes, leaves; it counts some and, on yes,
    deletes the collection, creates it anew and ingests. *)
Inductive guarded_write_run (t : list event) : Prop :=
| run_without_store_call :
    store_calls t = [] -> guarded_write_run t
| run_into_empty_collection (rest : list event) :
    store_calls t = Count 0 :: rest ->
    Forall add_or_count rest ->
    guarded_write_run t
| run_aborted (n : nat) (reply : string) :
    0 < n ->
    store_calls t = [Count n] ->
    In (Input overwrite_prompt reply) t ->
    Py.lower reply <> "y" ->
    guarded_write_run t
| run_replacing (n : nat) (reply : string) (rest : list event) :
    0 < n ->
    store_calls t
    = Count n :: DeleteCollection collection_name
      :: CreateCollection collection_name :: rest ->
    Forall add_or_count rest ->
    In (Input overwrite_prompt reply) t ->
    Py.lower reply = "y" ->
    guarded_write_run t.

(** Claim C9 as the specification words it: both write runs are
    guarded. *)
Definition every_write_run_is_guarded : Prop :=
  forall W,
    guarded_write_run (trace ProcessMedquad.main W) /\
    guarded_write_run (trace ScrapeMedlineplus.main W).

(** What the scraper's write run does to the store: it submits its
    batches to the collection as it finds it and only then, if at all,
    asks for the count. *)
Definition appends_then_counts (t : list event) : Prop :=
  exists submitted counted,
    store_calls t = submitted ++ counted /\
    Forall (fun e => is_add e = true) submitted /\
    (counted = [] \/ exists n, counted = [Count n]).

(** A small encyclopedia: the front page links one index page, which
    links one article. *)
Definition encyclopedia_page : list Node :=
  [Tag "html" []
     [Tag "body" []
        [Tag "a" [("href", "ency/encyclopedia_A.htm")] [Text "A"]]]].

Definition index_page : list Node :=
  [Tag "html" []
     [Tag "body" []
        [Tag "ul" [("id", "index")]
           [Tag "li" []
              [Tag "a" [("href", "article/000141.htm")] [Text "Asthma"]]]]]].

Definition small_web (u : string) : list Node + exn :=
  if String.eqb u ScrapeMedlineplus.ENCYCLOPEDIA_URL
  then inl encyclopedia_page
  else if String.eqb u "https://medlineplus.gov/ency/encyclopedia_A.htm"
  then inl index_page
  else if String.eqb u "https://medlineplus.gov/ency/article/000141.htm"
  then inl asthma_page
  else inr (Exception "HTTPError" "404 Client Error: Not Found").

(** A world whose collection already holds seven documents. *)
Definition populated_world : World := {|
  count_reply := fun _ => 7;
  add_reply := fun _ _ _ _ => None;
  query_reply := fun _ _ _ =>
    inl {| qr_documents := [[]]; qr_metadatas := [[]]; qr_distances := [[]] |};
  generate_reply := fun _ _ _ => inl "I do not know.";
  input_reply := fun _ _ => "";
  elapsed_reply := fun _ => "0.00";
  os_walk_tree := fun _ => MkDir [] [];
  ET_fromstring := fun _ => inr "no element found: line 1, column 0";
  http_get := small_web;
  urljoin := fun base href =>
    if String.eqb base ScrapeMedlineplus.BASE_URL
    then ("https://medlineplus.gov/" ++ href)%string
    else ("https://medlineplus.gov/ency/" ++ href)%string
|}.

Definition model_id : string := "gemini-2.0-flash-exp".

(** The line [query_medical_qa] prints first. *)
Definition querying_line (question : string) : event :=
  Print ("==== Querying: " ++ question ++ " ====").

(** The grounding context: the retrieved texts, a blank line between
    neighbours, in the order of the store's reply. *)
Definition context_of (docs : list string) : string :=
  Py.join (LF ++ LF) docs.

(** The fixed prompt template, as the specification has it: the framing
    of the model as a medical assistant that answers from the
    information given and says so when the answer is not there, then
    the block of medical information; the heading of the user's
    question; and the closing request. *)
Definition template_opening : string :=
  "You are a medical assistant. Based on the following medical information, answer the user's question. "
  ++ LF
  ++ "    If the information provided doesn't contain the answer, say so clearly."
  ++ LF ++ LF
  ++ "    Medical Information:" ++ LF
  ++ "    ".

Definition template_question : string :=
  LF ++ LF ++ "    User Question: ".

Definition template_closing : string :=
  LF ++ LF
  ++ "    Please provide a clear, accurate, and helpful answer based on the medical information above.".

(** The prompt the specification asks for: the template around the
    context and around the question. *)
Definition prompt_for (docs : list string) (question : string) : string :=
  template_opening ++ context_of docs ++ template_question ++ question
  ++ template_closing.

(** Claim C5 as the specification words it: a query against a
    collection with zero documents raises [EmptyCollectionError] and
    calls the generative model not once. *)
Definition empty_collection_is_refused : Prop :=
  forall W question top_k,
    (forall t, count_reply W t = 0) ->
    (exists msg,
        outcome (QueryMedicalQa.query_medical_qa question top_k) W
        = Raise (Exception "EmptyCollectionError" msg)) /\
    filter is_generate
      (trace (QueryMedicalQa.query_medical_qa question top_k) W) = [].

(** A world whose store answers a query with two documents. *)
Definition answering_world : World := {|
  count_reply := fun _ => 2;
  add_reply := fun _ _ _ _ => None;
  query_reply := fun _ _ _ =>
    inl {| qr_documents :=
             [[qa_text "What is asthma?" "A lung disease.";
               qa_text "What is flu?" "A viral infection."]];
           qr_metadatas :=
             [[ [("question", "What is asthma?"); ("answer", "A lung disease.");
                 ("source_file", "asthma.xml")];
                [("question", "What is flu?"); ("answer", "A viral infection.");
                 ("source_file", "flu.xml")] ]];
           qr_distances := [[0.25%float; 0.5%float]] |};
  generate_reply := fun _ _ _ => inl "Asthma is a lung disease.";
  input_reply := fun _ _ => "";
  elapsed_reply := fun _ => "0.00";
  os_walk_tree := fun _ => MkDir [] [];
  ET_fromstring := fun _ => inr "no element found: line 1, column 0";
  http_get := fun _ => inr (Exception "ConnectionError" "unreachable");
  urljoin := fun base href => (base ++ "/" ++ href)%string
|}.

Definition query_banner : event := Print "=== Medical QA Query System ===".

(** What the entry point of the query script prints and asks when the
    collection is empty. *)
Definition empty_collection_notice : list event :=
  [query_banner;
   Count 0;
   Print "Knowledge base contains 0 medical Q&A pairs";
   Print (LF ++ "⚠️  No data found! Please run process_medquad_data.py first.")].

(** Two files around a file that does not parse. *)
Definition tree_with_bad_file : Dir :=
  MkDir [("asthma.xml", Content medquad_xml);
         ("broken.xml", Content broken_xml);
         ("lungs.xml", Content medquad_xml)] [].

Definition example_world (tree : Dir) : World :=
  plain_world tree example_parser.

(* ===================================================================== *)
(** * Vocabulary of the further properties *)
(* ===================================================================== *)

(** Two files around a file that cannot be read. *)
Definition unreadable : exn :=
  Exception "UnicodeDecodeError"
    "'utf-8' codec can't decode byte 0xff in position 0: invalid start byte".

Definition tree_with_unreadable_file : Dir :=
  MkDir [("asthma.xml", Content medquad_xml);
         ("binary.xml", ReadError unreadable);
         ("lungs.xml", Content medquad_xml)] [].

(** What a batch loop over accepted batches leaves in the trace: per
    batch the call and the progress line, which carries the running
    total [min((k + 1) * b, n)]. *)
Definition batch_events {D} (to_call : list D -> event)
  (line : nat -> nat -> nat -> string) (documents : list D)
  (batch_size : nat) (k : nat) : list event :=
  let batch := firstn batch_size (skipn (k * batch_size) documents) in
  [to_call batch;
   Print (line (k * batch_size) (length batch)
            (Nat.min ((k + 1) * batch_size) (length documents)))].

(** The progress line of the structured-QA ingestor for batch number
    [k + 1] of [n] documents. *)
Definition qa_progress (n batch_len k batch_size : nat) : string :=
  "Added batch " ++ Py.str (k + 1) ++ ": " ++ Py.str batch_len
  ++ " documents (Total: " ++ Py.str (Nat.min ((k + 1) * batch_size) n)
  ++ "/" ++ Py.str n ++ ")".

Definition zero_step : exn :=
  Exception "ValueError" "range() arg 3 must not be zero".

Definition article_progress (n batch_len k batch_size : nat) : string :=
  "Added batch " ++ Py.str (k + 1) ++ ": " ++ Py.str batch_len
  ++ " articles (Total: " ++ Py.str (Nat.min ((k + 1) * batch_size) n)
  ++ "/" ++ Py.str n ++ ")".

(** The call and the progress line of batch number [k + 1]. *)
Definition reported_batch {D} (to_call : option exn -> list D -> event)
  (progress : nat -> nat -> nat -> nat -> string) (documents : list D)
  (batch_size : nat) (k : nat) : list event :=
  let batch := firstn batch_size (skipn (k * batch_size) documents) in
  [to_call None batch;
   Print (progress (length documents) (length batch) k batch_size)].

(** The character [c] occurs in [s]. *)
Fixpoint has_char (c : ascii) (s : string) : bool :=
  match s with
  | EmptyString => false
  | String a r => Ascii.eqb a c || has_char c r
  end.

(** A file lies in a directory at a path whose directory names all pass
    [keep]. *)
Inductive file_at (keep : string -> bool)
  : Dir -> list string -> file_read -> Prop :=
| file_here files dirs name r :
    In (name, r) files ->
    file_at keep (MkDir files dirs) [name] r
| file_below files dirs name sub path r :
    In (name, sub) dirs ->
    keep name = true ->
    file_at keep sub path r ->
    file_at keep (MkDir files dirs) (name :: path) r.

(** Induction on a directory with the sub-directories at hand. *)
Fixpoint Dir_induction (P : Dir -> Prop)
  (step : forall files dirs,
      Forall (fun nd => P (snd nd)) dirs -> P (MkDir files dirs))
  (d : Dir) : P d :=
  match d with
  | MkDir files dirs =>
      step files dirs
        ((fix all (ds : list (string * Dir))
            : Forall (fun nd => P (snd nd)) ds :=
            match ds with
            | [] => Forall_nil _
            | nd :: rest =>
                Forall_cons nd (Dir_induction P step (snd nd)) (all rest)
            end) dirs)
  end.

(** A tree with files at the top, in a kept directory, in a directory
    below it and in another directory. *)
Definition medquad_tree : Dir :=
  MkDir [("top.xml", Content medquad_xml); ("README.md", Content "notes")]
    [("1_CancerGov_QA",
      MkDir [("0000001.xml", Content medquad_xml)]
        [("old", MkDir [("0000002.xml", Content medquad_xml)] [])]);
     ("2_GARD_QA", MkDir [("0000003.xml", Content medquad_xml)] [])].

(** The line the scraper prints for a page it cannot fetch. *)
Definition scrape_error_line (url : string) (e : exn) : event :=
  Print ("Error scraping " ++ url ++ ": " ++ exn_msg e).

Definition asthma_link : ScrapeMedlineplus.article_link :=
  {| ScrapeMedlineplus.link_url :=
       "https://medlineplus.gov/ency/article/000141.htm";
     ScrapeMedlineplus.anchor_title := "Asthma" |}.

Definition missing_link : ScrapeMedlineplus.article_link :=
  {| ScrapeMedlineplus.link_url :=
       "https://medlineplus.gov/ency/article/999999.htm";
     ScrapeMedlineplus.anchor_title := "Missing" |}.

Definition not_found : exn :=
  Exception "HTTPError" "404 Client Error: Not Found".

(** The article of [asthma_page]. *)
Definition asthma_article : ScrapeMedlineplus.article :=
  {| ScrapeMedlineplus.title := "Asthma";
     ScrapeMedlineplus.content :=
       "Asthma is a chronic disease that causes the airways of the lungs to swell and narrow. It leads to wheezing, shortness of breath, chest tightness, and coughing.";
     ScrapeMedlineplus.url :=
       "https://medlineplus.gov/ency/article/000141.htm" |}.

(** An anchor's [href] opens an article page. *)
Definition is_article_href (href : string) : bool :=
  ScrapeMedlineplus.startswith href "article/" && Py.endswith href ".htm".

(** The link an anchor of an index page gives. *)
Definition article_link_of (W : World) (index_url : string) (a : Node)
  : ScrapeMedlineplus.article_link :=
  {| ScrapeMedlineplus.link_url :=
       urljoin W index_url (ScrapeMedlineplus.href_of a);
     ScrapeMedlineplus.anchor_title := Soup.get_text a "" |}.

(** The article links of an index page: the anchors inside the list
    with id [index] whose [href] opens an article, in page order. *)
Definition article_links (W : World) (index_url : string)
  : list ScrapeMedlineplus.article_link :=
  match http_get W index_url with
  | inl soup =>
      match Soup.find_with_attr soup "ul" "id" "index" with
      | Some index_ul =>
          map (article_link_of W index_url)
            (filter (fun a => is_article_href (ScrapeMedlineplus.href_of a))
               (Soup.find_all_a_href (Soup.contents_of index_ul)))
      | None => []
      end
  | inr _ => []
  end.

(** What the search for article links prints: nothing, unless the page
    cannot be fetched or has no such list. *)
Definition article_links_notes (W : World) (index_url : string)
  : list event :=
  match http_get W index_url with
  | inl soup =>
      match Soup.find_with_attr soup "ul" "id" "index" with
      | Some _ => []
      | None => [Print ("No <ul id='index'> found in " ++ index_url)]
      end
  | inr e =>
      [Print ("Error fetching articles from " ++ index_url ++ ": "
              ++ exn_msg e)]
  end.

(** The index pages the front page links. *)
Definition index_links (W : World) : list string :=
  match http_get W ScrapeMedlineplus.ENCYCLOPEDIA_URL with
  | inl soup =>
      map (fun a => urljoin W ScrapeMedlineplus.BASE_URL
                      (ScrapeMedlineplus.href_of a))
        (filter (fun a => ScrapeMedlineplus.index_href_match
                            (ScrapeMedlineplus.href_of a))
           (Soup.find_all_a_href soup))
  | inr _ => []
  end.

Definition index_links_notes (W : World) : list event :=
  Print "Fetching A-Z,0-9 index links..."
  :: match http_get W ScrapeMedlineplus.ENCYCLOPEDIA_URL with
     | inl _ =>
         [Print ("Found " ++ Py.str (length (index_links W))
                 ++ " index pages.")]
     | inr e => [Print ("Error fetching index links: " ++ exn_msg e)]
     end.

Definition scraper_banner : list event :=
  [Print "=== MedlinePlus Encyclopedia Scraper (A-Z Index Version) ===";
   Print "This will scrape medical articles from MedlinePlus and add them to your knowledge base."].

(** The four shapes of an index page's [href], for a letter or digit
    [c]: with or without a leading slash, with or without one final
    line feed. *)
Definition index_href (slash : bool) (c : ascii) (newline : bool) : string :=
  (if slash then "/" else "") ++ "ency/encyclopedia_"
  ++ String c (".htm" ++ (if newline then LF else "")).

Definition index_error : exn :=
  Exception "IndexError" "list index out of range".

Definition question_prompt : string := LF ++ "🤔 Your question: ".

(** The lines the query script prints for a stored structured-QA
    document and for a stored article, as source number [i]. *)
Definition qa_source_lines (i : nat) (doc : ProcessMedquad.document)
  : list event :=
  [Print ("  " ++ Py.str i ++ ". " ++ ProcessMedquad.source_file doc);
   Print ("     Q: " ++ Py.prefix 100 (ProcessMedquad.doc_question doc)
          ++ "...")].

Definition article_source_lines (i : nat) (doc : ScrapeMedlineplus.document)
  : list event :=
  [Print ("  " ++ Py.str i ++ ". " ++ ScrapeMedlineplus.doc_title doc);
   Print ("     Source: " ++ ScrapeMedlineplus.source doc);
   Print ("     URL: " ++ ScrapeMedlineplus.doc_url doc)].

(** A store that fails every query. *)
Definition failing_store_world : World := {|
  count_reply := fun _ => 2;
  add_reply := fun _ _ _ _ => None;
  query_reply := fun _ _ _ =>
    inr (Exception "RuntimeError" "index not loaded");
  generate_reply := fun _ _ _ => inl "I do not know.";
  input_reply := fun _ _ => "What is asthma?";
  elapsed_reply := fun _ => "0.00";
  os_walk_tree := fun _ => MkDir [] [];
  ET_fromstring := fun _ => inr "no element found: line 1, column 0";
  http_get := fun _ => inr (Exception "ConnectionError" "unreachable");
  urljoin := fun base href => (base ++ "/" ++ href)%string
|}.

Definition choice_prompt : string := LF ++ "Choose an option (1-3): ".

Definition single_question_prompt : string := "Enter your medical question: ".

(** What the query script's entry point prints before it asks for a
    choice, for a collection of [n] documents. *)
Definition menu (n : nat) : list event :=
  [query_banner;
   Count n;
   Print ("Knowledge base contains " ++ Py.str n ++ " medical Q&A pairs");
   Print (LF ++ "Options:");
   Print "1. Interactive query mode";
   Print "2. Single question";
   Print "3. Exit"].

(** An operator who chooses the single question and asks it. *)
Definition single_question_world : World := {|
  count_reply := fun _ => 2;
  add_reply := fun _ _ _ _ => None;
  query_reply := fun _ _ _ =>
    inr (Exception "RuntimeError" "index not loaded");
  generate_reply := fun _ _ _ => inl "I do not know.";
  input_reply := fun _ prompt =>
    if String.eqb prompt choice_prompt then " 2 " else "What is asthma?";
  elapsed_reply := fun _ => "0.00";
  os_walk_tree := fun _ => MkDir [] [];
  ET_fromstring := fun _ => inr "no element found: line 1, column 0";
  http_get := fun _ => inr (Exception "ConnectionError" "unreachable");
  urljoin := fun base href => (base ++ "/" ++ href)%string
|}.

(** The load finds no document, whatever the limits. *)
Definition nothing_to_load (W : World) : Prop :=
  forall max_files specific_dirs,
    loaded_documents W "./MedQuAD/" max_files specific_dirs = [].

(** The operator was asked whether to overwrite the collection and
    answered yes. *)
Definition overwrite_confirmed (t : list event) : Prop :=
  exists reply, In (Input overwrite_prompt reply) t /\ Py.lower reply = "y".

(** The operator was never asked whether to overwrite the collection. *)
Definition overwrite_not_asked (t : list event) : Prop :=
  forall reply, ~ In (Input overwrite_prompt reply) t.

(** What a write run that loads no document does to the store: it adds
    nothing; and once the operator has confirmed the overwrite, the
    collection of [n] documents has been deleted and created anew, the
    count, the deletion and the creation being the run's only calls. *)
Definition emptied_on_confirmation (t : list event) : Prop :=
  adds t = [] /\
  (overwrite_confirmed t ->
   exists n,
     0 < n /\
     store_calls t
     = [Count n; DeleteCollection collection_name;
        CreateCollection collection_name]).

(** A collection of seven documents, an empty source directory and an
    operator who confirms the overwrite. *)
Definition overwriting_world : World := {|
  count_reply := fun _ => 7;
  add_reply := fun _ _ _ _ => None;
  query_reply := fun _ _ _ =>
    inl {| qr_documents := [[]]; qr_metadatas := [[]]; qr_distances := [[]] |};
  generate_reply := fun _ _ _ => inl "I do not know.";
  input_reply := fun _ prompt =>
    if String.eqb prompt overwrite_prompt then "Y" else "";
  elapsed_reply := fun _ => "0.00";
  os_walk_tree := fun _ => MkDir [] [];
  ET_fromstring := fun _ => inr "no element found: line 1, column 0";
  http_get := fun _ => inr (Exception "ConnectionError" "unreachable");
  urljoin := fun base href => (base ++ "/" ++ href)%string
|}.

Definition mode_prompt : string := "Run in test mode? (y/n, default: y): ".

Definition files_prompt : string :=
  "Number of files to process (default: 50): ".

Definition processor_banner : list event :=
  [Print "=== MedQuAD Data Processor ===";
   Print "This script will process all XML files and store them in ChromaDB.";
   Print "You only need to run this once to create your knowledge base."].

(** An operator who answers the number of files with a word. *)
Definition wordy_world : World := {|
  count_reply := fun _ => 7;
  add_reply := fun _ _ _ _ => None;
  query_reply := fun _ _ _ =>
    inl {| qr_documents := [[]]; qr_metadatas := [[]]; qr_distances := [[]] |};
  generate_reply := fun _ _ _ => inl "I do not know.";
  input_reply := fun _ prompt =>
    if String.eqb prompt files_prompt then "ten" else "y";
  elapsed_reply := fun _ => "0.00";
  os_walk_tree := fun _ => MkDir [] [];
  ET_fromstring := fun _ => inr "no element found: line 1, column 0";
  http_get := fun _ => inr (Exception "ConnectionError" "unreachable");
  urljoin := fun base href => (base ++ "/" ++ href)%string
|}.

(** An event that leaves the collection as it is. *)
Definition read_only (e : event) : Prop :=
  match e with
  | Add _ _ _ _ | DeleteCollection _ | CreateCollection _ => False
  | _ => True
  end.

(* ===================================================================== *)
(** * Runs: how the monad computes *)
(* ===================================================================== *)

Section RunLaws.
Context {A B : Type}.

Lemma bind_ok (m : Run A) (k : A -> Run B) W t a t' :
  m W t = (Ok a, t') -> bind m k W t = k a W t'.
Proof. intros H. unfold bind. now rewrite H. Qed.

Lemma bind_raise (m : Run A) (k : A -> Run B) W t e t' :
  m W t = (Raise e, t') -> bind m k W t = (Raise e, t').
Proof. intros H. unfold bind. now rewrite H. Qed.

Lemma bind_print (line : string) (k : unit -> Run B) W t :
  bind (print line) k W t = k tt W (t ++ [Print line]).
Proof. reflexivity. Qed.

Lemma bind_ret (a : A) (k : A -> Run B) W t :
  bind (ret a) k W t = k a W t.
Proof. reflexivity. Qed.
End RunLaws.

Section Emits.
Variable P : event -> Prop.

Lemma emits_ret {A} (a : A) : emits P (ret a).
Proof. intros W t. exists []. cbn. now rewrite app_nil_r. Qed.

Lemma emits_raise {A} (e : exn) : emits P (@raise A e).
Proof. intros W t. exists []. cbn. now rewrite app_nil_r. Qed.

Lemma emits_print line : P (Print line) -> emits P (print line).
Proof. intros H W t. exists [Print line]. now repeat constructor. Qed.

Lemma emits_bind {A B} (m : Run A) (k : A -> Run B) :
  emits P m -> (forall a, emits P (k a)) -> emits P (bind m k).
Proof.
  intros Hm Hk W t. unfold bind.
  destruct (Hm W t) as (d & Hd & HP).
  destruct (m W t) as [[a|e] t']; cbn in Hd; subst t'.
  - destruct (Hk a W (t ++ d)) as (d' & Hd' & HP').
    exists (d ++ d'). rewrite Hd', app_assoc. split; [reflexivity|].
    now apply Forall_app.
  - now exists d.
Qed.

Lemma emits_try {A} (m : Run A) cls (h : exn -> Run A) :
  emits P m -> (forall e, emits P (h e)) -> emits P (try_except m cls h).
Proof.
  intros Hm Hh W t. unfold try_except.
  destruct (Hm W t) as (d & Hd & HP).
  destruct (m W t) as [[a|e] t']; cbn in Hd; subst t'.
  - now exists d.
  - destruct (catches cls e).
    + destruct (Hh e W (t ++ d)) as (d' & Hd' & HP').
      exists (d ++ d'). rewrite Hd', app_assoc. split; [reflexivity|].
      now apply Forall_app.
    + now exists d.
Qed.

Lemma emits_for_each {A S} (l : list A) (body : A -> S -> Run S) :
  (forall x s, emits P (body x s)) -> forall s, emits P (for_each l s body).
Proof.
  intros Hb. induction l as [|x l IH]; intros s; cbn.
  - apply emits_ret.
  - apply emits_bind; [apply Hb | intros s'; apply IH].
Qed.

Lemma emits_add ds ms ids :
  (forall v, P (Add ds ms ids v)) -> emits P (collection_add ds ms ids).
Proof.
  intros H W t. unfold collection_add. cbn.
  eexists. split; [reflexivity|]. now repeat constructor.
Qed.
End Emits.

(* ===================================================================== *)
(** * Loading the XML files *)
(* ===================================================================== *)

Lemma strip_empty : Py.strip "" = "".
Proof. reflexivity. Qed.

Lemma stripped_text_trimmed e :
  ProcessMedquad.stripped_text e = trimmed_text e.
Proof.
  unfold ProcessMedquad.stripped_text, trimmed_text.
  destruct (ET.text e) as [s|]; [|reflexivity].
  destruct s; reflexivity.
Qed.

Lemma append_qa_qa_of acc e :
  ProcessMedquad.append_qa acc e
  = acc ++ match qa_of e with Some p => [p] | None => [] end.
Proof.
  unfold ProcessMedquad.append_qa, qa_of.
  destruct (ET.find e "Question") as [qe|]; [|now rewrite app_nil_r].
  destruct (ET.find e "Answer") as [ae|]; [|now rewrite app_nil_r].
  rewrite !stripped_text_trimmed.
  destruct (Py.truthy (trimmed_text qe) && Py.truthy (trimmed_text ae));
    [reflexivity | now rewrite app_nil_r].
Qed.

Lemma fold_append_qa l : forall acc,
  fold_left ProcessMedquad.append_qa l acc
  = acc ++ flat_map (fun e => match qa_of e with
                              | Some p => [p] | None => [] end) l.
Proof.
  induction l as [|e l IH]; intros acc; simpl.
  - now rewrite app_nil_r.
  - rewrite IH, append_qa_qa_of, <- app_assoc. reflexivity.
Qed.

Lemma fold_append_document f l : forall acc n,
  fold_left (ProcessMedquad.append_document f) l (acc, n)
  = (acc ++ map (document_of f) l, n + length l).
Proof.
  induction l as [|[i q] l IH]; intros acc n; simpl.
  - now rewrite app_nil_r, Nat.add_0_r.
  - rewrite IH, <- app_assoc. simpl. f_equal. lia.
Qed.

Lemma file_documents_eq W f :
  file_documents W f
  = match read f with
    | Content x =>
        match ET_fromstring W x with
        | inl root => map (document_of f) (enumerate 0 (qa_pairs_of root))
        | inr _ => []
        end
    | ReadError _ => []
    end.
Proof.
  unfold file_documents.
  destruct (read f); [|reflexivity].
  destruct (ET_fromstring W s); [|reflexivity].
  now rewrite fold_append_document.
Qed.

Lemma extract_qa_from_xml_run W t x :
  ProcessMedquad.extract_qa_from_xml x W t
  = match ET_fromstring W x with
    | inl root => (Ok (qa_pairs_of root), t)
    | inr msg => (Ok [], t ++ [Print ("Error parsing XML: " ++ msg)])
    end.
Proof.
  unfold ProcessMedquad.extract_qa_from_xml, try_except, bind,
    ProcessMedquad.fromstring.
  destruct (ET_fromstring W x); reflexivity.
Qed.

Lemma process_file_run W t directory_path n_files f st :
  ProcessMedquad.process_file directory_path n_files f st W t
  = (Ok {| ProcessMedquad.documents :=
             ProcessMedquad.documents st ++ file_documents W f;
           ProcessMedquad.total_files := ProcessMedquad.total_files st + 1;
           ProcessMedquad.total_qa_pairs :=
             ProcessMedquad.total_qa_pairs st + length (file_documents W f);
           ProcessMedquad.processed_files :=
             ProcessMedquad.processed_files st + 1 |},
     t ++ progress_line n_files f (ProcessMedquad.processed_files st + 1)
       ++ file_errors W directory_path f).
Proof.
  rewrite file_documents_eq.
  unfold ProcessMedquad.process_file, progress_line, file_errors.
  cbn [ProcessMedquad.processed_files ProcessMedquad.documents
       ProcessMedquad.total_files ProcessMedquad.total_qa_pairs].
  set (p := ProcessMedquad.processed_files st + 1).
  assert (Hpre : forall (k : unit -> Run ProcessMedquad.load_state),
             bind (if p mod 10 =? 0
                   then print ("Processing file " ++ Py.str p ++ "/"
                               ++ Py.str n_files ++ ": " ++ basename f)
                   else ret tt) k W t
             = k tt W (t ++ (if p mod 10 =? 0
                             then [Print ("Processing file " ++ Py.str p ++ "/"
                                     ++ Py.str n_files ++ ": " ++ basename f)]
                             else []))).
  { intros k. destruct (p mod 10 =? 0); [reflexivity|].
    now rewrite app_nil_r. }
  rewrite Hpre. clear Hpre.
  set (t1 := t ++ _).
  unfold try_except, bind, ProcessMedquad.open_read.
  destruct (read f) as [x|e].
  - unfold ret at 1. rewrite extract_qa_from_xml_run.
    destruct (ET_fromstring W x) as [root|msg].
    + rewrite fold_append_document. unfold ret. cbn [fst snd].
      subst t1. rewrite length_map, app_nil_r. reflexivity.
    + cbn. subst t1. rewrite app_nil_r, Nat.add_0_r, <- app_assoc.
      reflexivity.
  - unfold raise. cbn. subst t1.
    rewrite app_nil_r, Nat.add_0_r, <- app_assoc. reflexivity.
Qed.

Lemma load_loop_run W directory_path n_files files : forall st t,
  for_each files st (ProcessMedquad.process_file directory_path n_files) W t
  = (Ok {| ProcessMedquad.documents :=
             ProcessMedquad.documents st ++ flat_map (file_documents W) files;
           ProcessMedquad.total_files :=
             ProcessMedquad.total_files st + length files;
           ProcessMedquad.total_qa_pairs :=
             ProcessMedquad.total_qa_pairs st
             + length (flat_map (file_documents W) files);
           ProcessMedquad.processed_files :=
             ProcessMedquad.processed_files st + length files |},
     t ++ load_events W directory_path n_files files
            (ProcessMedquad.processed_files st)).
Proof.
  induction files as [|f files IH]; intros st t.
  - cbn. rewrite !app_nil_r, !Nat.add_0_r. now destruct st.
  - cbn [for_each]. erewrite bind_ok by apply process_file_run.
    rewrite IH. cbn [ProcessMedquad.documents ProcessMedquad.total_files
      ProcessMedquad.total_qa_pairs ProcessMedquad.processed_files
      flat_map load_events length].
    rewrite !length_app, <- !app_assoc.
    f_equal. f_equal. f_equal; lia.
Qed.

(** A load always returns: the documents of the files it goes through,
    file by file, and what it printed. *)
Lemma load_xml_documents_from_directory_run W t directory_path max_files
  specific_dirs :
  ProcessMedquad.load_xml_documents_from_directory directory_path max_files
    specific_dirs W t
  = (Ok (loaded_documents W directory_path max_files specific_dirs),
     t ++ load_trace W directory_path max_files specific_dirs).
Proof.
  unfold ProcessMedquad.load_xml_documents_from_directory, load_trace,
    loaded_documents.
  fold (found_files W directory_path specific_dirs).
  set (found := found_files W directory_path specific_dirs).
  rewrite bind_print.
  unfold bind at 1. fold found.
  rewrite bind_print.
  assert (Hlim :
    forall (k : list xml_file -> Run (list ProcessMedquad.document)) t0,
      bind (match max_files with
            | Some z =>
                if negb (z =? 0)%Z
                then bind (print ("Processing first " ++ Py.str_int z
                                  ++ " files for testing"))
                       (fun _ => ret (Py.slice_to z found))
                else ret found
            | None => ret found
            end) k W t0
      = k (ProcessMedquad.limit_files max_files found) W
          (t0 ++ limit_line max_files)).
  { intros k t0. unfold ProcessMedquad.limit_files, limit_line.
    destruct max_files as [z|]; [|now rewrite app_nil_r].
    destruct (negb (z =? 0)%Z); [reflexivity | now rewrite app_nil_r]. }
  rewrite Hlim. clear Hlim.
  set (files := ProcessMedquad.limit_files max_files found).
  erewrite bind_ok by apply load_loop_run.
  cbn [ProcessMedquad.documents ProcessMedquad.total_files
       ProcessMedquad.total_qa_pairs ProcessMedquad.processed_files].
  rewrite !bind_print. unfold ret. cbn [app Nat.add].
  rewrite <- !app_assoc. reflexivity.
Qed.

(* ===================================================================== *)
(** * C1: one document per complete QA pair *)
(* ===================================================================== *)

Lemma truthy_nonempty s : Py.truthy s = true <-> s <> "".
Proof. destruct s; cbn; split; congruence. Qed.

Lemma complete_pair_has_qa e :
  complete_pair e = true <-> exists q a, has_qa e q a.
Proof.
  unfold complete_pair, has_qa. split.
  - intros H. apply andb_true_iff in H as [Ht H].
    apply String.eqb_eq in Ht.
    destruct (ET.find e "Question") as [qe|]; [|discriminate].
    destruct (ET.find e "Answer") as [ae|]; [|discriminate].
    apply andb_true_iff in H as [Hq Ha].
    exists (trimmed_text qe), (trimmed_text ae). split; [exact Ht|].
    exists qe, ae. repeat split; now try apply truthy_nonempty.
  - intros (q & a & Ht & qe & ae & Hq & Ha & -> & -> & Hnq & Hna).
    rewrite Ht, Hq, Ha. cbn.
    apply andb_true_iff. split; now apply truthy_nonempty.
Qed.

Lemma qa_of_complete e :
  String.eqb (ET.tag e) "QAPair" = true ->
  match qa_of e with
  | Some p =>
      complete_pair e = true /\
      has_qa e (ProcessMedquad.question p) (ProcessMedquad.answer p)
  | None => complete_pair e = false
  end.
Proof.
  intros Ht. unfold qa_of, complete_pair, has_qa. rewrite Ht. cbn [andb].
  apply String.eqb_eq in Ht.
  destruct (ET.find e "Question") as [qe|]; [|reflexivity].
  destruct (ET.find e "Answer") as [ae|]; [|reflexivity].
  destruct (Py.truthy (trimmed_text qe)) eqn:Hq;
    destruct (Py.truthy (trimmed_text ae)) eqn:Ha; cbn; try reflexivity.
  split; [reflexivity|]. split; [exact Ht|].
  exists qe, ae. repeat split; now apply truthy_nonempty.
Qed.

Lemma pairs_of_elements (l : list Element) :
  Forall2 (fun e p => has_qa e (ProcessMedquad.question p)
                        (ProcessMedquad.answer p))
    (filter complete_pair l)
    (flat_map (fun e => match qa_of e with Some p => [p] | None => [] end)
       (filter (fun d => String.eqb (ET.tag d) "QAPair") l)).
Proof.
  induction l as [|e l IH]; cbn [filter flat_map]; [constructor|].
  destruct (String.eqb (ET.tag e) "QAPair") eqn:Ht.
  - pose proof (qa_of_complete e Ht) as H. cbn [flat_map].
    destruct (qa_of e) as [p|].
    + destruct H as [Hc Hq]. rewrite Hc. cbn. now constructor.
    + rewrite H. exact IH.
  - unfold complete_pair at 1. rewrite Ht. exact IH.
Qed.

Lemma qa_pairs_of_spec root :
  Forall2 (fun e p => has_qa e (ProcessMedquad.question p)
                        (ProcessMedquad.answer p))
    (filter complete_pair (elements_below root)) (qa_pairs_of root).
Proof.
  unfold qa_pairs_of, ET.findall_descendants.
  rewrite fold_append_qa. apply pairs_of_elements.
Qed.

Lemma Forall2_map_enumerate {A B C} (R : A -> B -> Prop) (R' : A -> C -> Prop)
  (g : nat * B -> C) :
  (forall e i p, R e p -> R' e (g (i, p))) ->
  forall l ps k, Forall2 R l ps ->
    Forall2 R' l (map g (combine (seq k (length ps)) ps)).
Proof.
  intros Hg l ps k H. revert k.
  induction H as [|e p l ps Hep _ IH]; intros k; cbn; constructor; auto.
Qed.

(** C1 (as amended).  For a readable file whose content parses, the
    loader returns, and adds to its documents exactly one document for
    each QA-pair element strictly below the root that has a question and
    an answer child with non-empty trimmed texts [q] and [a], in document
    order, with the text "Question: q / Answer: a" on two lines; the
    other QA-pair elements give none. *)
Theorem C1_one_document_per_complete_pair_below_root
  (W : World) (directory_path : string) (n_files : nat) (f : xml_file)
  (st : ProcessMedquad.load_state) (t : list event) (x : string)
  (root : Element) :
  read f = Content x ->
  ET_fromstring W x = inl root ->
  exists st' t' docs,
    ProcessMedquad.process_file directory_path n_files f st W t
    = (Ok st', t') /\
    ProcessMedquad.documents st' = ProcessMedquad.documents st ++ docs /\
    Forall2 document_for (filter complete_pair (elements_below root)) docs /\
    (forall e, complete_pair e = true <-> exists q a, has_qa e q a).
Proof.
  intros Hread Hparse.
  eexists _, _, (file_documents W f).
  split; [apply process_file_run|].
  split; [reflexivity|].
  split; [|apply complete_pair_has_qa].
  rewrite file_documents_eq, Hread, Hparse. unfold enumerate.
  apply Forall2_map_enumerate with (2 := qa_pairs_of_spec root).
  intros e i p Hp. exists (ProcessMedquad.question p), (ProcessMedquad.answer p).
  split; [exact Hp | reflexivity].
Qed.

Lemma C1_witness :
  exists st' t' docs,
    ProcessMedquad.process_file "./MedQuAD/" 1 asthma_file empty_load_state
      (plain_world (one_file_tree "asthma.xml" (Content medquad_xml))
         example_parser) []
    = (Ok st', t') /\
    ProcessMedquad.documents st'
    = ProcessMedquad.documents empty_load_state ++ docs /\
    Forall2 document_for
      (filter complete_pair (elements_below medquad_root)) docs /\
    (forall e, complete_pair e = true <-> exists q a, has_qa e q a).
Proof.
  apply (C1_one_document_per_complete_pair_below_root
           (plain_world (one_file_tree "asthma.xml" (Content medquad_xml))
              example_parser)
           "./MedQuAD/" 1 asthma_file empty_load_state [] medquad_xml
           medquad_root); reflexivity.
Defined.

(** The claim as worded fails on a document whose root is the QA pair:
    [findall('.//QAPair')] never yields the root. *)
Lemma C1_root_pair_counterexample : ~ one_document_per_pair_of_the_input.
Proof.
  intros H.
  destruct (H (plain_world (one_file_tree "asthma.xml" (Content root_pair_xml))
                 example_parser)
              "./MedQuAD/" 1 root_pair_file empty_load_state []
              root_pair_xml root_pair eq_refl eq_refl)
    as (st' & t' & docs & Hrun & Hdocs & Hall).
  rewrite process_file_run in Hrun. injection Hrun as <- _.
  cbn in Hdocs. subst docs. inversion Hall.
Qed.

(* ===================================================================== *)
(** * Whitespace: [re.sub] and [strip] against the words of a text *)
(* ===================================================================== *)

Example words_example :
  words ("  two   words" ++ LF ++ " ") = ["two"; "words"].
Proof. reflexivity. Qed.

Lemma lstrip_sub_spaces_true s :
  Py.lstrip (ScrapeMedlineplus.sub_spaces true s)
  = ScrapeMedlineplus.sub_spaces true s.
Proof.
  induction s as [|c r IH]; cbn; [reflexivity|].
  destruct (Py.isspace c) eqn:Hc; [exact IH|].
  cbn. now rewrite Hc.
Qed.

Lemma lstrip_sub_spaces_false s :
  Py.lstrip (ScrapeMedlineplus.sub_spaces false s)
  = ScrapeMedlineplus.sub_spaces true s.
Proof.
  destruct s as [|c r]; cbn; [reflexivity|].
  destruct (Py.isspace c) eqn:Hc; cbn.
  - apply lstrip_sub_spaces_true.
  - now rewrite Hc.
Qed.

Lemma words_nonempty_strings s :
  Forall (fun w => w <> "" /\ no_space w = true) (words s).
Proof.
  induction s as [|c r IH]; cbn; [constructor|].
  destruct (Py.isspace c) eqn:Hc; [exact IH|].
  destruct r as [|c' r'].
  - constructor; [|constructor]. split; [discriminate|]. cbn. now rewrite Hc.
  - destruct (negb (Py.isspace c')) eqn:Hc'.
    + destruct (words (String c' r')) as [|w ws].
      * constructor; [|constructor]. split; [discriminate|].
        cbn. now rewrite Hc.
      * inversion IH as [|? ? [Hw Hn] Hws]; subst.
        constructor; [|exact Hws]. split; [discriminate|].
        cbn. now rewrite Hc, Hn.
    + constructor; [|exact IH]. split; [discriminate|]. cbn. now rewrite Hc.
Qed.

Lemma collapsed_empty_iff s :
  Py.is_empty (collapsed s) = true <-> words s = [].
Proof.
  unfold collapsed. pose proof (words_nonempty_strings s) as H.
  destruct (words s) as [|w ws]; [now split|].
  inversion H as [|? ? [Hw _] _]; subst.
  split; [|discriminate]. destruct w as [|a w]; [congruence|].
  destruct ws; cbn; discriminate.
Qed.

Lemma join_cons_char sep c w ws :
  Py.join sep (String c w :: ws) = String c (Py.join sep (w :: ws)).
Proof. destruct ws; reflexivity. Qed.

Lemma words_starts_nonspace c r :
  Py.isspace c = false -> words (String c r) <> [].
Proof.
  intros Hc. cbn. rewrite Hc.
  destruct r as [|c' r']; [discriminate|].
  destruct (negb (Py.isspace c')); [|discriminate].
  destruct (words (String c' r')); discriminate.
Qed.

(** The scan, then the right strip, against the words: after a run of
    whitespace the words follow at once; otherwise a text that opens
    with whitespace yields one space before its words, if it has any. *)
Lemma rstrip_sub_spaces s :
  Py.rstrip (ScrapeMedlineplus.sub_spaces true s) = collapsed s /\
  Py.rstrip (ScrapeMedlineplus.sub_spaces false s)
  = match s with
    | String c _ =>
        if Py.isspace c
        then match words s with
             | [] => ""
             | _ :: _ => String " " (collapsed s)
             end
        else collapsed s
    | EmptyString => collapsed s
    end.
Proof.
  induction s as [|c r [IHt IHf]]; [split; reflexivity|].
  cbn [ScrapeMedlineplus.sub_spaces].
  destruct (Py.isspace c) eqn:Hc.
  - assert (Hw : words (String c r) = words r) by (cbn; now rewrite Hc).
    assert (Hcol : collapsed (String c r) = collapsed r)
      by (unfold collapsed; now rewrite Hw).
    rewrite Hw, Hcol. split; [exact IHt|].
    cbn [Py.rstrip]. rewrite IHt.
    change (Py.isspace " ") with true. cbn [andb].
    destruct (Py.is_empty (collapsed r)) eqn:He.
    + apply collapsed_empty_iff in He. now rewrite He.
    + destruct (words r) eqn:Hr; [|reflexivity].
      assert (Py.is_empty (collapsed r) = true)
        by (apply collapsed_empty_iff; exact Hr).
      congruence.
  - assert (Hgoal : Py.rstrip (String c (ScrapeMedlineplus.sub_spaces false r))
                    = collapsed (String c r)).
    { cbn [Py.rstrip]. rewrite Hc. cbn [andb]. rewrite IHf.
      unfold collapsed. cbn [words]. rewrite Hc.
      destruct r as [|c' r']; [reflexivity|].
      destruct (Py.isspace c') eqn:Hc'; cbn [negb].
      - destruct (words (String c' r')) as [|w ws] eqn:Hw; [reflexivity|].
        reflexivity.
      - pose proof (words_starts_nonspace c' r' Hc') as Hne.
        destruct (words (String c' r')) as [|w ws] eqn:Hw; [congruence|].
        now rewrite join_cons_char. }
    split; exact Hgoal.
Qed.

(** [re.sub(r'\s+', ' ', s).strip()] collapses: it is the words of [s]
    with single spaces between them. *)
Lemma strip_re_sub_collapsed s :
  Py.strip (ScrapeMedlineplus.re_sub_spaces s) = collapsed s.
Proof.
  unfold Py.strip, ScrapeMedlineplus.re_sub_spaces.
  rewrite lstrip_sub_spaces_false. apply rstrip_sub_spaces.
Qed.

(* ===================================================================== *)
(** * C6: extracting one article page *)
(* ===================================================================== *)

(** Scraping a page always returns, with the article of the page or
    none, and prints only when the page cannot be fetched. *)
Lemma scrape_article_content_run W t url anchor_title :
  ScrapeMedlineplus.scrape_article_content url anchor_title W t
  = (Ok (scraped W url anchor_title), t ++ scrape_error W url).
Proof.
  unfold ScrapeMedlineplus.scrape_article_content, scraped, scrape_error,
    try_except, bind, ScrapeMedlineplus.get_soup, heading.
  destruct (http_get W url) as [soup|e]; [|reflexivity].
  destruct (Soup.find_with_attr soup "div" "id" "ency_content") as [d|];
    [|cbn; now rewrite app_nil_r].
  rewrite strip_re_sub_collapsed.
  destruct (Py.len (collapsed (Soup.get_text d " ")) <? 100);
    cbn; now rewrite app_nil_r.
Qed.

Lemma fold_append_article_document l : forall acc,
  fold_left ScrapeMedlineplus.append_document l acc
  = acc ++ flat_map (fun ia => match snd ia with
                               | Some a => [article_document (fst ia) a]
                               | None => []
                               end) l.
Proof.
  induction l as [|[i [a|]] l IH]; intros acc; cbn [fold_left flat_map].
  - now rewrite app_nil_r.
  - rewrite IH. cbn. now rewrite <- app_assoc.
  - rewrite IH. reflexivity.
Qed.

Lemma combine_seq_map_some {A} (l : list A) : forall k,
  flat_map (fun ia : nat * option A =>
              match snd ia with Some a => [(fst ia, a)] | None => [] end)
    (combine (seq k (length (map Some l))) (map Some l))
  = combine (seq k (length l)) l.
Proof.
  induction l as [|a l IH]; intros k; cbn; [reflexivity|].
  now rewrite IH.
Qed.

(** The documents of a list of scraped articles: the article at index
    [i] gives the document numbered [i + 1]. *)
Lemma documents_of_articles (articles : list ScrapeMedlineplus.article) :
  ScrapeMedlineplus.documents_of (map Some articles)
  = map (fun ia => article_document (fst ia) (snd ia)) (enumerate 0 articles).
Proof.
  unfold ScrapeMedlineplus.documents_of, enumerate.
  rewrite fold_append_article_document. cbn [app].
  generalize 0 as k. induction articles as [|a l IH]; intros k; cbn;
    [reflexivity|].
  now rewrite IH.
Qed.

(** C6.  For a page that was fetched: without the content container, or
    with a collapsed content of fewer than 100 characters, the scraper
    returns no article; otherwise it returns exactly one, whose title is
    the text of the first heading (the anchor text when the page has
    none), whose content is the container's text with every run of
    whitespace collapsed to one space and none at the ends, and whose
    document text is "Title: title / Content: content" on two lines. *)
Theorem C6_article_extraction
  (W : World) (t : list event) (url anchor_title : string)
  (soup : list Node) :
  http_get W url = inl soup ->
  match Soup.find_with_attr soup "div" "id" "ency_content" with
  | None =>
      ScrapeMedlineplus.scrape_article_content url anchor_title W t
      = (Ok None, t)
  | Some content_div =>
      let content := collapsed (Soup.get_text content_div " ") in
      Forall (fun w => w <> "" /\ no_space w = true)
        (words (Soup.get_text content_div " ")) /\
      if Py.len content <? 100
      then ScrapeMedlineplus.scrape_article_content url anchor_title W t
           = (Ok None, t)
      else exists a,
          ScrapeMedlineplus.scrape_article_content url anchor_title W t
          = (Ok (Some a), t) /\
          ScrapeMedlineplus.title a = heading soup anchor_title /\
          ScrapeMedlineplus.content a = content /\
          map ScrapeMedlineplus.text
            (ScrapeMedlineplus.documents_of [Some a])
          = [("Title: " ++ heading soup anchor_title ++ LF ++ "Content: "
              ++ content)%string]
  end.
Proof.
  intros Hget. rewrite scrape_article_content_run.
  unfold scraped, scrape_error. rewrite Hget, app_nil_r.
  destruct (Soup.find_with_attr soup "div" "id" "ency_content") as [d|];
    [|reflexivity].
  cbn zeta. split; [apply words_nonempty_strings|].
  destruct (Py.len (collapsed (Soup.get_text d " ")) <? 100); [reflexivity|].
  eexists. split; [reflexivity|]. repeat split.
Qed.

Lemma C6_witness :
  http_get (web_world (fun _ => inl asthma_page))
    "https://medlineplus.gov/ency/article/000141.htm" = inl asthma_page /\
  exists a,
    ScrapeMedlineplus.scrape_article_content
      "https://medlineplus.gov/ency/article/000141.htm" "Asthma (anchor)"
      (web_world (fun _ => inl asthma_page)) []
    = (Ok (Some a), []) /\
    ScrapeMedlineplus.title a = "Asthma" /\
    ScrapeMedlineplus.content a
    = "Asthma is a chronic disease that causes the airways of the lungs to swell and narrow. It leads to wheezing, shortness of breath, chest tightness, and coughing.".
Proof.
  split; [reflexivity|].
  pose proof (C6_article_extraction
                (web_world (fun _ => inl asthma_page)) []
                "https://medlineplus.gov/ency/article/000141.htm"
                "Asthma (anchor)" asthma_page eq_refl) as H.
  cbn in H. destruct H as [_ (a & Hrun & Ht & Hc & _)].
  exists a. repeat split; assumption.
Defined.

(** The text of a tag leaves out what the page does not show: the
    comments, and the strings of the scripts and of the style sheets
    below it.  A container that shows one short sentence gives no
    article, however long its script; the script's own text is the
    text of the [script] tag alone. *)
Example hidden_strings_are_not_content :
  (exists content_div,
      Soup.find_with_attr stub_page "div" "id" "ency_content"
      = Some content_div /\
      Soup.get_text content_div " " = "Asthma is a lung disease.") /\
  heading stub_page "Asthma (anchor)" = "Asthma" /\
  ScrapeMedlineplus.scrape_article_content
    "https://medlineplus.gov/ency/article/000141.htm" "Asthma (anchor)"
    (web_world (fun _ => inl stub_page)) []
  = (Ok None, []) /\
  Soup.get_text (Tag "script" [] [Special Script " render(); "]) " "
  = "render();".
Proof.
  split; [|split; [|split]].
  - eexists. split; reflexivity.
  - reflexivity.
  - reflexivity.
  - reflexivity.
Qed.

(* ===================================================================== *)
(** * C2: identifiers *)
(* ===================================================================== *)

Lemma length_file_documents W f :
  length (file_documents W f) = length (file_pairs W f).
Proof.
  rewrite file_documents_eq. unfold file_pairs, enumerate.
  destruct (read f); [|reflexivity].
  destruct (ET_fromstring W s); [|reflexivity].
  now rewrite length_map, length_combine, length_seq, Nat.min_id.
Qed.

Lemma ids_of_enumerated f (ps : list ProcessMedquad.qa) : forall k,
  map ProcessMedquad.id (map (document_of f) (combine (seq k (length ps)) ps))
  = map (fun i => (relpath f ++ "_qa_" ++ Py.str i)%string)
      (seq (k + 1) (length ps)).
Proof.
  induction ps as [|p ps IH]; intros k; cbn [length seq combine map];
    [reflexivity|].
  f_equal. rewrite IH. now replace (S k + 1) with (S (k + 1)) by lia.
Qed.

Lemma ids_of_file_documents W f :
  map ProcessMedquad.id (file_documents W f)
  = qa_ids f (length (file_pairs W f)).
Proof.
  rewrite file_documents_eq. unfold file_pairs, qa_ids, enumerate.
  destruct (read f); [|reflexivity].
  destruct (ET_fromstring W s); [|reflexivity].
  apply ids_of_enumerated.
Qed.

Lemma ids_of_flat_map W files :
  map ProcessMedquad.id (flat_map (file_documents W) files)
  = flat_map (fun f => qa_ids f (length (file_pairs W f))) files.
Proof.
  induction files as [|f files IH]; cbn; [reflexivity|].
  now rewrite map_app, IH, ids_of_file_documents.
Qed.

Lemma scrape_loop_run W n_links links : forall k articles t,
  for_each (combine (seq k (length links)) links) articles
    (fun il articles =>
       let (i, link_info) := il in
       bind (print ("Scraping " ++ Py.str (i + 1) ++ "/" ++ Py.str n_links
                    ++ ": " ++ ScrapeMedlineplus.anchor_title link_info))
         (fun _ =>
            bind (ScrapeMedlineplus.scrape_article_content
                    (ScrapeMedlineplus.link_url link_info)
                    (ScrapeMedlineplus.anchor_title link_info))
              (fun scraped =>
                 match scraped with
                 | Some a => ret (articles ++ [a])
                 | None => ret articles
                 end))) W t
  = (Ok (articles ++ scraped_articles W links),
     t ++ scrape_events W n_links links k).
Proof.
  induction links as [|l links IH]; intros k articles t.
  - cbn. now rewrite !app_nil_r.
  - cbn [length seq combine for_each scraped_articles flat_map scrape_events].
    unfold bind at 1. rewrite bind_print.
    erewrite bind_ok by apply scrape_article_content_run.
    fold (scraped_articles W links).
    destruct (scraped W (ScrapeMedlineplus.link_url l)
                (ScrapeMedlineplus.anchor_title l)) as [a|];
      unfold ret at 1; rewrite IH; rewrite <- !app_assoc; reflexivity.
Qed.

(** Scraping the links always returns: the articles of the links that
    scrape, in the order of the links. *)
Lemma scrape_all_run W t links :
  ScrapeMedlineplus.scrape_all links W t
  = (Ok (scraped_articles W links),
     t ++ scrape_events W (length links) links 0).
Proof.
  unfold ScrapeMedlineplus.scrape_all, enumerate.
  now rewrite scrape_loop_run.
Qed.

Lemma ids_of_article_documents (l : list ScrapeMedlineplus.article) :
  forall k,
  map ScrapeMedlineplus.id
    (map (fun ia => article_document (fst ia) (snd ia))
       (combine (seq k (length l)) l))
  = map (fun i => ("medlineplus_" ++ Py.str i)%string) (seq (k + 1) (length l)).
Proof.
  induction l as [|a l IH]; intros k; cbn [length seq combine map];
    [reflexivity|].
  f_equal. rewrite IH. now replace (S k + 1) with (S (k + 1)) by lia.
Qed.

Lemma file_documents_same_sources W1 W2 f :
  same_sources W1 W2 -> file_documents W1 f = file_documents W2 f.
Proof.
  intros (_ & Hparse & _). unfold file_documents.
  destruct (read f); [|reflexivity]. now rewrite Hparse.
Qed.

Lemma loaded_documents_same_sources W1 W2 directory_path max_files
  specific_dirs :
  same_sources W1 W2 ->
  loaded_documents W1 directory_path max_files specific_dirs
  = loaded_documents W2 directory_path max_files specific_dirs.
Proof.
  intros Hs. unfold loaded_documents, found_files.
  destruct Hs as (Htree & Hparse & Hget). rewrite Htree.
  apply flat_map_ext. intros f.
  apply file_documents_same_sources. now repeat split.
Qed.

Lemma scraped_articles_same_sources W1 W2 links :
  same_sources W1 W2 -> scraped_articles W1 links = scraped_articles W2 links.
Proof.
  intros (_ & _ & Hget). unfold scraped_articles, scraped.
  apply flat_map_ext. intros l. now rewrite Hget.
Qed.

(** C2.  A load returns documents whose ids are, file by file,
    [path_qa_1 .. path_qa_n] for the [n] pairs extracted from the file at
    the relative path [path]; the articles scraped from a list of links
    get the ids [medlineplus_1 .. medlineplus_n] in scrape order; and two
    runs over the same sources, whatever the store, the operator and the
    history of each run, give the same ids. *)
Theorem C2_identity_assignment
  (W W' : World) (t t' : list event) (directory_path : string)
  (max_files : option Z) (specific_dirs : option (list string))
  (links : list ScrapeMedlineplus.article_link) :
  same_sources W W' ->
  (exists docs articles,
     fst (ProcessMedquad.load_xml_documents_from_directory directory_path
            max_files specific_dirs W t) = Ok docs /\
     map ProcessMedquad.id docs
     = flat_map (fun f => qa_ids f (length (file_pairs W f)))
         (ProcessMedquad.limit_files max_files
            (found_files W directory_path specific_dirs)) /\
     fst (ScrapeMedlineplus.scrape_all links W t) = Ok articles /\
     articles = scraped_articles W links /\
     map ScrapeMedlineplus.id
       (ScrapeMedlineplus.documents_of (map Some articles))
     = article_ids (length articles)) /\
  (forall docs docs',
     fst (ProcessMedquad.load_xml_documents_from_directory directory_path
            max_files specific_dirs W t) = Ok docs ->
     fst (ProcessMedquad.load_xml_documents_from_directory directory_path
            max_files specific_dirs W' t') = Ok docs' ->
     map ProcessMedquad.id docs = map ProcessMedquad.id docs') /\
  (forall articles articles',
     fst (ScrapeMedlineplus.scrape_all links W t) = Ok articles ->
     fst (ScrapeMedlineplus.scrape_all links W' t') = Ok articles' ->
     map ScrapeMedlineplus.id
       (ScrapeMedlineplus.documents_of (map Some articles))
     = map ScrapeMedlineplus.id
         (ScrapeMedlineplus.documents_of (map Some articles'))).
Proof.
  intros Hs. split; [|split].
  - eexists _, _.
    rewrite load_xml_documents_from_directory_run, scrape_all_run.
    cbn [fst]. split; [reflexivity|].
    split; [apply ids_of_flat_map|].
    split; [reflexivity|]. split; [reflexivity|].
    rewrite documents_of_articles. apply ids_of_article_documents.
  - intros docs docs'.
    rewrite !load_xml_documents_from_directory_run. cbn [fst].
    intros [= <-] [= <-].
    now rewrite (loaded_documents_same_sources W W').
  - intros articles articles'. rewrite !scrape_all_run. cbn [fst].
    intros [= <-] [= <-].
    now rewrite (scraped_articles_same_sources W W').
Qed.

Lemma C2_witness :
  exists docs,
    fst (ProcessMedquad.load_xml_documents_from_directory "./MedQuAD/" None
           None (example_world tree_with_bad_file) []) = Ok docs /\
    map ProcessMedquad.id docs
    = ["asthma.xml_qa_1"; "asthma.xml_qa_2";
       "lungs.xml_qa_1"; "lungs.xml_qa_2"].
Proof.
  destruct (C2_identity_assignment
              (example_world tree_with_bad_file)
              (example_world tree_with_bad_file) [] [] "./MedQuAD/" None None
              []
              (conj (fun _ => eq_refl)
                 (conj (fun _ => eq_refl) (fun _ => eq_refl))))
    as [(docs & articles & Hrun & Hids & _) _].
  exists docs. split; [exact Hrun|]. rewrite Hids. reflexivity.
Defined.

(* ===================================================================== *)
(** * C3 and C4: batches *)
(* ===================================================================== *)

Lemma adds_app t d : adds (t ++ d) = adds t ++ adds d.
Proof. apply filter_app. Qed.

Lemma slice_batch {D} (l : list D) i b :
  Py.slice i (i + b) l = firstn b (skipn i l).
Proof. unfold Py.slice. now replace (i + b - i) with b by lia. Qed.

Lemma firstn_app_skipn {A} (l : list A) a b :
  firstn a l ++ firstn b (skipn a l) = firstn (a + b) l.
Proof.
  revert l. induction a as [|a IH]; intros l; [reflexivity|].
  destruct l as [|x l]; cbn.
  - now rewrite firstn_nil.
  - now rewrite IH.
Qed.

Lemma concat_slices {D} (l : list D) b m : forall s,
  concat (map (fun k => firstn b (skipn (k * b) l)) (seq s m))
  = firstn (m * b) (skipn (s * b) l).
Proof.
  induction m as [|m IH]; intros s; [reflexivity|].
  cbn [seq map concat]. rewrite IH.
  replace (S s * b) with (b + s * b) by lia.
  rewrite <- skipn_skipn.
  replace (S m * b) with (b + m * b) by lia.
  apply firstn_app_skipn.
Qed.

Section Batches.
Context {D : Type}.
Variables (l : list D) (b : nat).
Hypothesis b_positive : 1 <= b.

Let n := length l.
Let m := (n + b - 1) / b.

Lemma batches_cover : n <= m * b.
Proof.
  subst m. pose proof (Nat.div_mod_eq (n + b - 1) b) as E.
  pose proof (Nat.mod_upper_bound (n + b - 1) b ltac:(lia)) as U.
  nia.
Qed.

Lemma batches_tight k : k < m -> k * b < n.
Proof.
  subst m. intros Hk.
  pose proof (Nat.div_mod_eq (n + b - 1) b) as E.
  pose proof (Nat.mod_upper_bound (n + b - 1) b ltac:(lia)) as U.
  nia.
Qed.

Lemma batches_eq :
  batches b l = map (fun k => firstn b (skipn (k * b) l)) (seq 0 m).
Proof.
  unfold batches, Py.range_values. rewrite map_map.
  apply map_ext. intros k. apply slice_batch.
Qed.

(** The batches, one after the other, are the sequence. *)
Lemma concat_batches : concat (batches b l) = l.
Proof.
  rewrite batches_eq, concat_slices. cbn [Nat.mul skipn].
  apply firstn_all2. apply batches_cover.
Qed.

(** No batch is empty and none is longer than the batch size. *)
Lemma batches_sizes :
  Forall (fun c => 1 <= length c /\ length c <= b) (batches b l).
Proof.
  rewrite batches_eq. apply Forall_map, Forall_forall. intros k Hk.
  apply in_seq in Hk. rewrite length_firstn, length_skipn.
  pose proof (batches_tight k ltac:(lia)). fold n. lia.
Qed.

(** Every batch but the last is full. *)
Lemma batches_full :
  Forall (fun c => length c = b) (all_but_last (batches b l)).
Proof.
  unfold all_but_last. rewrite batches_eq.
  destruct m as [|m'] eqn:Hm; [constructor|].
  rewrite seq_S, map_app. cbn [map]. rewrite removelast_last.
  apply Forall_map, Forall_forall. intros k Hk.
  apply in_seq in Hk. rewrite length_firstn, length_skipn.
  pose proof (batches_tight (S k) ltac:(lia)). fold n. lia.
Qed.
End Batches.

Section BatchLoop.
Context {D : Type}.
Variables (text_of : D -> string) (meta_of : D -> metadata)
  (id_of : D -> string) (line : nat -> nat -> nat -> string).
Variables (W : World) (documents : list D) (batch_size : nat).

Let body := batch_body text_of meta_of id_of line documents batch_size.
Let call := add_call text_of meta_of id_of.
Let batch_at (i : nat) := Py.slice i (i + batch_size) documents.

Lemma adds_call_print t v c s :
  adds (t ++ [call v c; Print s]) = adds t ++ [call v c].
Proof. now rewrite adds_app. Qed.

Lemma batch_body_run i acc t :
  body i acc W t
  = match add_reply W t (map text_of (batch_at i)) (map meta_of (batch_at i))
            (map id_of (batch_at i)) with
    | None =>
        (Ok (acc + length (batch_at i)),
         t ++ [call None (batch_at i);
               Print (line i (length (batch_at i))
                        (acc + length (batch_at i)))])
    | Some e => (Raise e, t ++ [call (Some e) (batch_at i)])
    end.
Proof.
  unfold body, batch_body, bind, collection_add, call, add_call, batch_at.
  cbn zeta.
  destruct (add_reply W t _ _ _); cbn; [reflexivity|].
  now rewrite <- app_assoc.
Qed.

(** The loop over the starts: it goes through them in order, one [add]
    each, and stops at the first the store rejects, raising what the
    store raised. *)
Lemma batch_loop_run starts : forall acc t,
  (exists acc' t',
     for_each starts acc body W t = (Ok acc', t') /\
     adds t' = adds t ++ map (fun i => call None (batch_at i)) starts)
  \/
  (exists pre i post e t0,
     starts = pre ++ i :: post /\
     for_each starts acc body W t
     = (Raise e, t0 ++ [call (Some e) (batch_at i)]) /\
     add_reply W t0 (map text_of (batch_at i)) (map meta_of (batch_at i))
       (map id_of (batch_at i)) = Some e /\
     adds t0 = adds t ++ map (fun i => call None (batch_at i)) pre).
Proof.
  induction starts as [|i starts IH]; intros acc t.
  - left. exists acc, t. split; [reflexivity|]. cbn. now rewrite app_nil_r.
  - assert (Hstep : for_each (i :: starts) acc body W t
                    = match body i acc W t with
                      | (Ok a, t1) => for_each starts a body W t1
                      | (Raise e, t1) => (Raise e, t1)
                      end) by reflexivity.
    rewrite Hstep, batch_body_run. clear Hstep.
    destruct (add_reply W t (map text_of (batch_at i))
                (map meta_of (batch_at i)) (map id_of (batch_at i)))
      as [e|] eqn:Hreply.
    + right. exists [], i, starts, e, t. cbn. rewrite app_nil_r.
      repeat split. exact Hreply.
    + set (t1 := t ++ _).
      assert (Ht1 : adds t1 = adds t ++ [call None (batch_at i)])
        by apply adds_call_print.
      destruct (IH (acc + length (batch_at i)) t1)
        as [(acc' & t' & Hrun & Hadds)
           | (pre & j & post & e & t0 & Hs & Hrun & Hrej & Hadds)].
      * left. exists acc', t'. split; [exact Hrun|].
        rewrite Hadds, Ht1, <- app_assoc. reflexivity.
      * right. exists (i :: pre), j, post, e, t0.
        split; [now rewrite Hs|]. split; [exact Hrun|].
        split; [exact Hrej|].
        rewrite Hadds, Ht1, <- app_assoc. reflexivity.
Qed.
End BatchLoop.

Section Ingest.
Context {D : Type}.
Variables (text_of : D -> string) (meta_of : D -> metadata)
  (id_of : D -> string) (line : nat -> nat -> nat -> string)
  (opening : string) (closing : nat -> string).
Variables (W : World) (documents : list D) (batch_size : nat).
Hypothesis batch_size_positive : 1 <= batch_size.

Let call := add_call text_of meta_of id_of.

Lemma map_batches (v : option exn) starts :
  map (fun i => call v (Py.slice i (i + batch_size) documents)) starts
  = map (call v)
      (map (fun i => Py.slice i (i + batch_size) documents) starts).
Proof. now rewrite map_map. Qed.

(** An ingestion either submits every batch, in order, or stops at the
    first batch the store rejects. *)
Lemma ingest_run t :
  let r := ingest text_of meta_of id_of line opening closing documents
             batch_size W t in
  all_submitted call (batches batch_size documents) t r \/
  stopped_at_rejection W call (batches batch_size documents) t r.
Proof.
  cbn zeta. unfold ingest. rewrite bind_print.
  unfold range. destruct (batch_size =? 0) eqn:Hb;
    [apply Nat.eqb_eq in Hb; lia|].
  rewrite bind_ret.
  set (t1 := t ++ [Print opening]).
  assert (Ht1 : adds t1 = adds t)
    by (subst t1; rewrite adds_app; cbn; now rewrite app_nil_r).
  destruct (batch_loop_run text_of meta_of id_of line W documents batch_size
              (Py.range_values (length documents) batch_size) 0 t1)
    as [(acc' & t' & Hrun & Hadds)
       | (pre & i & post & e & t0 & Hs & Hrun & Hrej & Hadds)].
  - left. erewrite bind_ok by exact Hrun. unfold all_submitted. cbn.
    split; [reflexivity|].
    rewrite adds_app, Hadds, Ht1. cbn. rewrite app_nil_r.
    unfold batches. now rewrite <- map_batches.
  - right. erewrite bind_raise by exact Hrun.
    exists (map (fun i => Py.slice i (i + batch_size) documents) pre),
      (Py.slice i (i + batch_size) documents),
      (map (fun i => Py.slice i (i + batch_size) documents) post), e, t0.
    split; [unfold batches; rewrite Hs, map_app; reflexivity|].
    split; [reflexivity|].
    split; [eexists _, _, _; split; [reflexivity | exact Hrej]|].
    rewrite Hadds, Ht1. now rewrite <- map_batches.
Qed.

(** With a store that accepts every call, every batch is submitted. *)
Lemma ingest_accepted t :
  accepts_all W ->
  all_submitted call (batches batch_size documents) t
    (ingest text_of meta_of id_of line opening closing documents
       batch_size W t).
Proof.
  intros Hacc. destruct (ingest_run t) as [H|H]; [exact H|].
  destruct H as (pre & c & post & e & t0 & _ & _ & Hrej & _).
  destruct Hrej as (ds & ms & ids & _ & Hrej).
  rewrite Hacc in Hrej. discriminate.
Qed.
End Ingest.

Lemma add_documents_to_chroma_batch_ingest documents batch_size :
  ProcessMedquad.add_documents_to_chroma_batch documents batch_size
  = ingest ProcessMedquad.text ProcessMedquad.metadata_of ProcessMedquad.id
      (qa_line (length documents) batch_size)
      "==== Adding documents to ChromaDB ===="
      (fun added => ("Successfully added " ++ Py.str added
                     ++ " documents to ChromaDB collection")%string)
      documents batch_size.
Proof. reflexivity. Qed.

Lemma add_medlineplus_to_chroma_ingest articles batch_size :
  ScrapeMedlineplus.add_medlineplus_to_chroma articles batch_size
  = ingest ScrapeMedlineplus.text ScrapeMedlineplus.metadata_of
      ScrapeMedlineplus.id
      (article_line (length (ScrapeMedlineplus.documents_of articles))
         batch_size)
      "Adding MedlinePlus articles to ChromaDB..."
      (fun added => ("Successfully added " ++ Py.str added
                     ++ " MedlinePlus articles to ChromaDB")%string)
      (ScrapeMedlineplus.documents_of articles) batch_size.
Proof. reflexivity. Qed.

(** C3 (as amended).  With a batch size of at least 1 and a store that
    accepts every call, each ingestor returns after one [add] call per
    batch, in order, each carrying the texts, the metadata and the ids
    of its batch; the batches, one after the other, are the sequence of
    documents; every batch but the last has exactly [batch_size]
    documents and no batch is empty or longer. *)
Theorem C3_contiguous_batches_in_order
  (W : World) (t : list event) (batch_size : nat)
  (documents : list ProcessMedquad.document)
  (articles : list (option ScrapeMedlineplus.article)) :
  1 <= batch_size ->
  accepts_all W ->
  (let bs := batches batch_size documents in
   let r := ProcessMedquad.add_documents_to_chroma_batch documents
              batch_size W t in
   fst r = Ok tt /\
   adds (snd r) = adds t ++ map (qa_add_call None) bs /\
   concat bs = documents /\
   Forall (fun c => length c = batch_size) (all_but_last bs) /\
   Forall (fun c => 1 <= length c /\ length c <= batch_size) bs) /\
  (let docs := ScrapeMedlineplus.documents_of articles in
   let bs := batches batch_size docs in
   let r := ScrapeMedlineplus.add_medlineplus_to_chroma articles
              batch_size W t in
   fst r = Ok tt /\
   adds (snd r) = adds t ++ map (article_add_call None) bs /\
   concat bs = docs /\
   Forall (fun c => length c = batch_size) (all_but_last bs) /\
   Forall (fun c => 1 <= length c /\ length c <= batch_size) bs).
Proof.
  intros Hb Hacc. split; cbn zeta.
  - rewrite add_documents_to_chroma_batch_ingest.
    destruct (ingest_accepted ProcessMedquad.text ProcessMedquad.metadata_of
                ProcessMedquad.id (qa_line (length documents) batch_size)
                "==== Adding documents to ChromaDB ===="
                (fun added => ("Successfully added " ++ Py.str added
                               ++ " documents to ChromaDB collection")%string)
                W documents batch_size Hb t Hacc) as [Hok Hadds].
    split; [exact Hok|]. split; [exact Hadds|].
    split; [now apply concat_batches|].
    split; [now apply batches_full | now apply batches_sizes].
  - rewrite add_medlineplus_to_chroma_ingest.
    destruct (ingest_accepted ScrapeMedlineplus.text
                ScrapeMedlineplus.metadata_of ScrapeMedlineplus.id
                (article_line (length (ScrapeMedlineplus.documents_of articles))
                   batch_size)
                "Adding MedlinePlus articles to ChromaDB..."
                (fun added => ("Successfully added " ++ Py.str added
                               ++ " MedlinePlus articles to ChromaDB")%string)
                W (ScrapeMedlineplus.documents_of articles) batch_size Hb t
                Hacc) as [Hok Hadds].
    split; [exact Hok|]. split; [exact Hadds|].
    split; [now apply concat_batches|].
    split; [now apply batches_full | now apply batches_sizes].
Qed.

Lemma C3_witness :
  let r := ProcessMedquad.add_documents_to_chroma_batch three_documents 2
             (example_world (MkDir [] [])) [] in
  fst r = Ok tt /\
  adds (snd r)
  = [qa_add_call None (firstn 2 three_documents);
     qa_add_call None (skipn 2 three_documents)].
Proof.
  destruct (C3_contiguous_batches_in_order
              (example_world (MkDir [] [])) [] 2
              three_documents [])
    as [(Hok & Hadds & _) _].
  - lia.
  - intros t ds ms ids. reflexivity.
  - split; [exact Hok | exact Hadds].
Defined.

(** C3 as the specification words it does not hold: the batches are
    submitted only as long as the store accepts them.  With three
    batches of one document and a store that rejects the first, the
    run makes one [add] call, not three. *)
Lemma C3_rejected_batch_counterexample : ~ every_batch_is_submitted_in_order.
Proof.
  intros H.
  destruct (H (rejecting_world ["asthma.xml_qa_1"]) three_documents 1
              (le_n 1))
    as (verdicts & Hlen & Hadds).
  apply (f_equal (@length event)) in Hadds.
  rewrite length_map, length_combine, Hlen, Nat.min_id in Hadds.
  vm_compute in Hadds. discriminate.
Qed.

(** C4 (as amended).  With a batch size of at least 1, an ingestion
    either submits every batch in order and returns, or stops at the
    first batch the store rejects: the run then raises the very
    exception of the store, the rejected call is the last event of the
    trace (no line names the batch), the batches before it were
    submitted in order and no batch after it is submitted. *)
Theorem C4_rejection_stops_the_ingestion
  (W : World) (t : list event) (batch_size : nat)
  (documents : list ProcessMedquad.document)
  (articles : list (option ScrapeMedlineplus.article)) :
  1 <= batch_size ->
  (let r := ProcessMedquad.add_documents_to_chroma_batch documents
              batch_size W t in
   let bs := batches batch_size documents in
   all_submitted qa_add_call bs t r \/
   stopped_at_rejection W qa_add_call bs t r) /\
  (let r := ScrapeMedlineplus.add_medlineplus_to_chroma articles
              batch_size W t in
   let bs := batches batch_size (ScrapeMedlineplus.documents_of articles) in
   all_submitted article_add_call bs t r \/
   stopped_at_rejection W article_add_call bs t r).
Proof.
  intros Hb. split; cbn zeta.
  - rewrite add_documents_to_chroma_batch_ingest. now apply ingest_run.
  - rewrite add_medlineplus_to_chroma_ingest. now apply ingest_run.
Qed.

Lemma C4_witness :
  let W := rejecting_world ["asthma.xml_qa_1"] in
  let r := ProcessMedquad.add_documents_to_chroma_batch three_documents 1
             W [] in
  let bs := batches 1 three_documents in
  all_submitted qa_add_call bs [] r \/
  stopped_at_rejection W qa_add_call bs [] r.
Proof.
  apply (C4_rejection_stops_the_ingestion
           (rejecting_world ["asthma.xml_qa_1"]) [] 1 three_documents []).
  lia.
Defined.

(** One rejected batch ends the run: with three batches of one document
    and a store that rejects the first, the second and the third are
    never submitted. *)
Lemma C4_later_batches_counterexample : ~ every_batch_is_attempted.
Proof.
  intros H.
  destruct (H (rejecting_world ["asthma.xml_qa_1"]) three_documents 1
              (le_n 1) (skipn 2 three_documents))
    as [verdict Hin].
  - cbn. right. right. left. reflexivity.
  - cbn in Hin. destruct Hin as [Hin|[Hin|[]]]; discriminate.
Qed.

(* ===================================================================== *)
(** * C9: what a write run does to an existing collection *)
(* ===================================================================== *)

Lemma store_calls_app t d : store_calls (t ++ d) = store_calls t ++ store_calls d.
Proof. apply filter_app. Qed.

Lemma ingest_emits {D} (text_of : D -> string) meta_of id_of line opening
  closing (documents : list D) batch_size :
  emits add_or_print
    (ingest text_of meta_of id_of line opening closing documents batch_size).
Proof.
  unfold ingest.
  apply emits_bind; [now apply emits_print|]. intros _.
  apply emits_bind.
  { unfold range. destruct (batch_size =? 0);
      [apply emits_raise | apply emits_ret]. }
  intros starts. apply emits_bind; [|intros a; now apply emits_print].
  apply emits_for_each. intros i acc. unfold batch_body.
  apply emits_bind; [now apply emits_add|]. intros _.
  apply emits_bind; [now apply emits_print | intros _; apply emits_ret].
Qed.

Lemma store_calls_add_or_print d :
  Forall add_or_print d -> Forall add_or_count (store_calls d).
Proof.
  induction 1 as [|e d He _ IH]; cbn; [constructor|].
  destruct e; cbn in *; try contradiction; try exact IH.
  constructor; [exact I | exact IH].
Qed.

Section Steps.
Context {B : Type}.
Variables (W : World) (t : list event).

Lemma bind_assoc {A A'} (m : Run A) (k1 : A -> Run A') (k2 : A' -> Run B) :
  bind (bind m k1) k2 W t = bind m (fun a => bind (k1 a) k2) W t.
Proof. unfold bind. destruct (m W t) as [[a|e] t']; reflexivity. Qed.

Lemma bind_input prompt (k : string -> Run B) :
  bind (input prompt) k W t
  = k (input_reply W t prompt) W
      (t ++ [Input prompt (input_reply W t prompt)]).
Proof. reflexivity. Qed.

Lemma bind_count (k : nat -> Run B) :
  bind collection_count k W t
  = k (count_reply W t) W (t ++ [Count (count_reply W t)]).
Proof. reflexivity. Qed.

Lemma bind_delete name (k : unit -> Run B) :
  bind (delete_collection name) k W t
  = k tt W (t ++ [DeleteCollection name]).
Proof. reflexivity. Qed.

Lemma bind_create name (k : unit -> Run B) :
  bind (create_collection name) k W t
  = k tt W (t ++ [CreateCollection name]).
Proof. reflexivity. Qed.

Lemma bind_elapsed (k : string -> Run B) :
  bind elapsed k W t = k (elapsed_reply W t) W t.
Proof. reflexivity. Qed.
End Steps.

Lemma store_calls_printed d : Forall printed d -> store_calls d = [].
Proof.
  induction 1 as [|e d He _ IH]; [reflexivity|].
  destruct e; cbn in *; try contradiction. exact IH.
Qed.

Lemma load_events_printed W directory_path n_files files : forall k,
  Forall printed (load_events W directory_path n_files files k).
Proof.
  induction files as [|f files IH]; intros k; cbn; [constructor|].
  apply Forall_app. split.
  - unfold progress_line. destruct (_ =? 0); repeat constructor.
  - apply Forall_app. split; [|apply IH].
    unfold file_errors. destruct (read f) as [x|e]; [|repeat constructor].
    destruct (ET_fromstring W x); repeat constructor.
Qed.

Lemma load_trace_printed W directory_path max_files specific_dirs :
  Forall printed (load_trace W directory_path max_files specific_dirs).
Proof.
  unfold load_trace. repeat constructor.
  apply Forall_app. split.
  - unfold limit_line. destruct max_files as [z|]; [|constructor].
    destruct (negb _); repeat constructor.
  - apply Forall_app. split; [apply load_events_printed|repeat constructor].
Qed.

Ltac step :=
  repeat first
    [ rewrite bind_assoc
    | rewrite bind_print
    | rewrite bind_ret
    | rewrite bind_input
    | rewrite bind_count
    | rewrite bind_delete
    | rewrite bind_create
    | rewrite bind_elapsed ].

Lemma store_calls_snoc_print t line :
  store_calls (t ++ [Print line]) = store_calls t.
Proof. rewrite store_calls_app. apply app_nil_r. Qed.

Lemma store_calls_snoc_count t n :
  store_calls (t ++ [Count n]) = store_calls t ++ [Count n].
Proof. now rewrite store_calls_app. Qed.

Lemma bind_cases {A B} (m : Run A) (k : A -> Run B) W t :
  bind m k W t
  = match m W t with
    | (Ok a, t') => k a W t'
    | (Raise e, t') => (Raise e, t')
    end.
Proof. reflexivity. Qed.

Lemma add_documents_emits documents batch_size :
  emits add_or_print
    (ProcessMedquad.add_documents_to_chroma_batch documents batch_size).
Proof.
  rewrite add_documents_to_chroma_batch_ingest. apply ingest_emits.
Qed.

(** The write run from the count on, reached without a store call. *)
Lemma main_from_count W t (config : option Z * option (list string)) :
  store_calls t = [] ->
  guarded_write_run
    (snd
       ((existing_count <- collection_count ;;
         proceed <-
           (if 0 <? existing_count then
              print (LF ++ "Collection already has " ++ Py.str existing_count
                     ++ " documents") ;;
              reply <- input "Do you want to overwrite existing data? (y/n): " ;;
              if String.eqb (Py.lower reply) "y" then
                print "Deleting existing collection..." ;;
                delete_collection collection_name ;;
                create_collection collection_name ;;
                ret true
              else
                print "Keeping existing data. Exiting." ;;
                ret false
            else ret true) ;;
         if proceed : bool then
           documents <- ProcessMedquad.load_xml_documents_from_directory
                          "./MedQuAD/" (fst config) (snd config) ;;
           match documents with
           | _ :: _ =>
               ProcessMedquad.add_documents_to_chroma_batch documents 50 ;;
               seconds <- elapsed ;;
               print (LF ++ "=== PROCESSING COMPLETE ===") ;;
               print ("Total time: " ++ seconds ++ " seconds") ;;
               stored <- collection_count ;;
               print ("Total documents stored: " ++ Py.str stored) ;;
               print (LF ++ "You can now use query_medical_qa.py to ask questions!")
           | [] => print "No documents found to process."
           end
         else ret tt) W t)).
Proof.
  intros Ht. step.
  set (n := count_reply W t).
  assert (Hingest : forall t0 prefix,
    store_calls t0 = prefix ->
    exists rest,
      store_calls
        (snd
           ((documents <- ProcessMedquad.load_xml_documents_from_directory
                            "./MedQuAD/" (fst config) (snd config) ;;
             match documents with
             | _ :: _ =>
                 ProcessMedquad.add_documents_to_chroma_batch documents 50 ;;
                 seconds <- elapsed ;;
                 print (LF ++ "=== PROCESSING COMPLETE ===") ;;
                 print ("Total time: " ++ seconds ++ " seconds") ;;
                 stored <- collection_count ;;
                 print ("Total documents stored: " ++ Py.str stored) ;;
                 print (LF ++ "You can now use query_medical_qa.py to ask questions!")
             | [] => print "No documents found to process."
             end) W t0))
      = prefix ++ rest /\ Forall add_or_count rest /\
      (forall e, In e t0 ->
         In e (snd
           ((documents <- ProcessMedquad.load_xml_documents_from_directory
                            "./MedQuAD/" (fst config) (snd config) ;;
             match documents with
             | _ :: _ =>
                 ProcessMedquad.add_documents_to_chroma_batch documents 50 ;;
                 seconds <- elapsed ;;
                 print (LF ++ "=== PROCESSING COMPLETE ===") ;;
                 print ("Total time: " ++ seconds ++ " seconds") ;;
                 stored <- collection_count ;;
                 print ("Total documents stored: " ++ Py.str stored) ;;
                 print (LF ++ "You can now use query_medical_qa.py to ask questions!")
             | [] => print "No documents found to process."
             end) W t0)))).
  { intros t0 prefix Hp.
    erewrite bind_ok by apply load_xml_documents_from_directory_run.
    set (t1 := t0 ++ load_trace W "./MedQuAD/" (fst config) (snd config)).
    assert (Ht1 : store_calls t1 = prefix).
    { subst t1. rewrite store_calls_app, Hp, store_calls_printed.
      - apply app_nil_r.
      - apply load_trace_printed. }
    assert (Hin1 : forall e, In e t0 -> In e t1)
      by (intros e He; subst t1; apply in_or_app; now left).
    destruct (loaded_documents W "./MedQuAD/" (fst config) (snd config))
      as [|doc docs].
    - exists []. cbn [print snd]. rewrite store_calls_app, Ht1. cbn.
      split; [reflexivity|]. split; [constructor|].
      intros e He. apply in_or_app. left. auto.
    - rewrite bind_cases.
      destruct (add_documents_emits (doc :: docs) 50 W t1) as (d & Hd & HF).
      destruct (ProcessMedquad.add_documents_to_chroma_batch (doc :: docs) 50
                  W t1) as [[[]|e] t2]; cbn [snd] in Hd; subst t2.
      + step. cbn [print snd].
        eexists.
        rewrite !store_calls_snoc_print, store_calls_snoc_count,
          !store_calls_snoc_print, store_calls_app, Ht1.
        split; [rewrite <- app_assoc; reflexivity|]. split.
        * apply Forall_app. split; [now apply store_calls_add_or_print|].
          repeat constructor.
        * intros e He. rewrite !in_app_iff. auto 10.
      + exists (store_calls d). cbn [snd]. rewrite store_calls_app, Ht1.
        split; [reflexivity|].
        split; [now apply store_calls_add_or_print|].
        intros e0 He. apply in_or_app. left. auto. }
  destruct (0 <? n) eqn:Hn.
  - apply Nat.ltb_lt in Hn. step.
    match goal with |- context [input_reply W ?t0 ?p] =>
      set (reply := input_reply W t0 p) end.
    destruct (String.eqb (Py.lower reply) "y") eqn:Hy.
    + step. cbv iota.
      match goal with |- context [bind _ _ W ?t0] =>
        destruct (Hingest t0
                    [Count n; DeleteCollection collection_name;
                     CreateCollection collection_name])
          as (rest & Hcalls & Hrest & Hin) end.
      { rewrite !store_calls_app, Ht. reflexivity. }
      apply run_replacing with (n := n) (reply := reply) (rest := rest);
        auto.
      * apply Hin. rewrite !in_app_iff. cbn. auto 10.
      * now apply String.eqb_eq.
    + step. cbv iota. cbn [ret snd].
      apply run_aborted with (n := n) (reply := reply); auto.
      * rewrite !store_calls_app, Ht. reflexivity.
      * rewrite !in_app_iff. cbn. auto 10.
      * now apply String.eqb_neq.
  - apply Nat.ltb_ge in Hn. assert (n = 0) as Hz by lia.
    clearbody n. subst n. step. cbv iota.
    match goal with |- context [bind _ _ W ?t0] =>
      destruct (Hingest t0 [Count 0]) as (rest & Hcalls & Hrest & Hin) end.
    { rewrite store_calls_app, Ht. reflexivity. }
    now apply run_into_empty_collection with (rest := rest).
Qed.

(** The structured-QA write run is guarded. *)
Lemma process_main_guarded W : guarded_write_run (trace ProcessMedquad.main W).
Proof.
  unfold trace, ProcessMedquad.main. step. cbn [app].
  match goal with |- context [input_reply W ?t ?p] =>
    set (mode := input_reply W t p) end.
  destruct (negb (String.eqb (Py.lower mode) "n")).
  - step. cbn [app].
    match goal with |- context [input_reply W ?t ?p] =>
      set (n := input_reply W t p) end.
    unfold int_or_raise.
    destruct (Py.parse_int (if Py.truthy n then n else "50")) as [z| |digits].
    + step. apply main_from_count. reflexivity.
    + apply run_without_store_call. reflexivity.
    + apply run_without_store_call. reflexivity.
  - step. apply main_from_count. reflexivity.
Qed.

Lemma emits_get_soup P url : emits P (ScrapeMedlineplus.get_soup url).
Proof.
  intros W t. exists []. unfold ScrapeMedlineplus.get_soup.
  destruct (http_get W url); cbn; now rewrite app_nil_r.
Qed.

Lemma emits_url_join P base href :
  emits P (ScrapeMedlineplus.url_join base href).
Proof. intros W t. exists []. cbn. now rewrite app_nil_r. Qed.

Lemma get_index_links_emits : emits printed ScrapeMedlineplus.get_index_links.
Proof.
  unfold ScrapeMedlineplus.get_index_links.
  apply emits_bind; [now apply emits_print|]. intros _.
  apply emits_try.
  - apply emits_bind; [apply emits_get_soup|]. intros soup.
    apply emits_bind.
    + apply emits_for_each. intros link acc.
      destruct (ScrapeMedlineplus.index_href_match _); [|apply emits_ret].
      apply emits_bind; [apply emits_url_join | intros u; apply emits_ret].
    + intros links. apply emits_bind; [now apply emits_print|].
      intros _. apply emits_ret.
  - intros e. apply emits_bind; [now apply emits_print|].
    intros _. apply emits_ret.
Qed.

Lemma get_article_links_emits index_url :
  emits printed (ScrapeMedlineplus.get_article_links_from_index index_url).
Proof.
  unfold ScrapeMedlineplus.get_article_links_from_index.
  apply emits_try.
  - apply emits_bind; [apply emits_get_soup|]. intros soup.
    destruct (Soup.find_with_attr soup "ul" "id" "index") as [ul|].
    + apply emits_for_each. intros link acc.
      destruct (_ && _); [|apply emits_ret].
      apply emits_bind; [apply emits_url_join | intros u; apply emits_ret].
    + apply emits_bind; [now apply emits_print | intros _; apply emits_ret].
  - intros e. apply emits_bind; [now apply emits_print|].
    intros _. apply emits_ret.
Qed.

Lemma scrape_events_printed W n_links links : forall k,
  Forall printed (scrape_events W n_links links k).
Proof.
  induction links as [|l links IH]; intros k; cbn; constructor;
    [exact I|].
  apply Forall_app. split; [|apply IH].
  unfold scrape_error. destruct (http_get W _); repeat constructor.
Qed.

Lemma add_medlineplus_emits articles batch_size :
  emits add_or_print
    (ScrapeMedlineplus.add_medlineplus_to_chroma articles batch_size).
Proof.
  rewrite add_medlineplus_to_chroma_ingest. apply ingest_emits.
Qed.

Lemma store_calls_adds d :
  Forall add_or_print d -> Forall (fun e => is_add e = true) (store_calls d).
Proof.
  induction 1 as [|e d He _ IH]; cbn; [constructor|].
  destruct e; cbn in *; try contradiction; try exact IH.
  constructor; [reflexivity | exact IH].
Qed.

Lemma appends_nothing t : store_calls t = [] -> appends_then_counts t.
Proof.
  intros H. exists [], []. rewrite H. repeat split; auto.
Qed.

(** The scraper's write run never asks before it writes. *)
Lemma scrape_main_appends W :
  appends_then_counts (trace ScrapeMedlineplus.main W).
Proof.
  unfold trace, ScrapeMedlineplus.main. step. cbn [app].
  rewrite bind_cases.
  match goal with |- context [ScrapeMedlineplus.get_index_links W ?t0] =>
    destruct (get_index_links_emits W t0) as (d0 & Hd0 & HF0);
    destruct (ScrapeMedlineplus.get_index_links W t0) as [[links|e] t1];
    cbn [snd] in Hd0; subst t1 end.
  2:{ apply appends_nothing. cbn [snd]. rewrite store_calls_app.
      now rewrite (store_calls_printed d0). }
  destruct links as [|l links].
  { apply appends_nothing. cbn [print snd].
    rewrite !store_calls_app, (store_calls_printed d0) by assumption.
    reflexivity. }
  rewrite bind_cases.
  match goal with |- context [for_each ?ls ?s ?body W ?t0] =>
    destruct (emits_for_each printed ls body
                ltac:(intros idx acc;
                      apply emits_bind; [now apply emits_print|]; intros _;
                      apply emits_bind; [apply get_article_links_emits|];
                      intros ls0; apply emits_ret) s W t0)
      as (d1 & Hd1 & HF1);
    destruct (for_each ls s body W t0) as [[all_links|e] t2];
    cbn [snd] in Hd1; subst t2 end.
  2:{ apply appends_nothing. cbn [snd]. rewrite !store_calls_app.
      rewrite (store_calls_printed d0), (store_calls_printed d1)
        by assumption.
      reflexivity. }
  step.
  match goal with |- context [input_reply W ?t0 ?p] =>
    set (reply := input_reply W t0 p) end.
  match goal with |- context [Input _ reply] =>
    match goal with |- context [bind _ _ W ?t0] =>
      assert (Hquiet : store_calls t0 = []) end end.
  { rewrite !store_calls_app.
    rewrite (store_calls_printed d0), (store_calls_printed d1) by assumption.
    reflexivity. }
  match goal with |- context [bind _ _ W ?t0] =>
    set (t3 := t0) in * end.
  rewrite bind_cases.
  match goal with |- context [match ?m W t3 with _ => _ end] =>
    assert (Hm : exists r, m W t3 = (r, t3)) end.
  { destruct (String.eqb (Py.lower (Py.strip reply)) "all");
      [eexists; reflexivity|].
    destruct (Py.isdigit (Py.strip reply)); [|eexists; reflexivity].
    unfold int_or_raise. destruct (Py.parse_int (Py.strip reply));
      eexists; reflexivity. }
  destruct Hm as [[z|e] Hm]; rewrite Hm;
    [|now apply appends_nothing].
  step. erewrite bind_ok by apply scrape_all_run. step.
  match goal with |- context [scraped_articles W ?ls] =>
    set (articles := scraped_articles W ls) end.
  match goal with |- context [_ W ?t0] =>
    assert (Hquiet4 : store_calls t0 = []); [|set (t4 := t0) in *] end.
  { rewrite !store_calls_app, Hquiet.
    rewrite (store_calls_printed (scrape_events _ _ _ _))
      by apply scrape_events_printed.
    reflexivity. }
  destruct articles as [|a articles].
  { apply appends_nothing. cbn [print snd].
    now rewrite store_calls_snoc_print. }
  rewrite bind_cases.
  destruct (add_medlineplus_emits (map Some (a :: articles)) 50 W t4)
    as (d & Hd & HF).
  destruct (ScrapeMedlineplus.add_medlineplus_to_chroma
              (map Some (a :: articles)) 50 W t4) as [[[]|e] t5];
    cbn [snd] in Hd; subst t5.
  - step. cbn [print snd].
    exists (store_calls d), [Count (count_reply W (t4 ++ d))].
    rewrite !store_calls_snoc_print, store_calls_snoc_count,
      store_calls_app, Hquiet4.
    split; [reflexivity|]. split; [now apply store_calls_adds|].
    right. eexists. reflexivity.
  - exists (store_calls d), []. cbn [snd].
    rewrite store_calls_app, Hquiet4, app_nil_r.
    split; [reflexivity|]. split; [now apply store_calls_adds | now left].
Qed.

(** C9 (as amended).  The structured-QA write run asks the store for
    the count before any write: on zero it ingests; on more it asks the
    operator and, on any answer but yes, leaves without a write, on yes
    deletes the collection, creates it anew and then ingests.  The
    article scraper's write run asks nothing first: it submits its
    batches to the collection as it is, and counts only afterwards. *)
Theorem C9_guarded_structured_run_unguarded_scraper (W : World) :
  guarded_write_run (trace ProcessMedquad.main W) /\
  appends_then_counts (trace ScrapeMedlineplus.main W).
Proof.
  split; [apply process_main_guarded | apply scrape_main_appends].
Qed.

(** The scraper writes one article into a collection of seven without
    a count, a question or a deletion before the write. *)
Lemma C9_scraper_counterexample : ~ every_write_run_is_guarded.
Proof.
  intros H. destruct (H populated_world) as [_ Hs].
  destruct Hs as [Hc | rest Hc _ | n reply _ Hc _ _ | n reply rest _ Hc _ _ _];
    vm_compute in Hc; discriminate.
Qed.

(* ===================================================================== *)
(** * C5 and C7: querying *)
(* ===================================================================== *)

(** A query step by step: the store's query, the first list of its
    reply, the model's completion, the first metadata and distances. *)
Lemma query_medical_qa_run W t question top_k :
  let t1 := t ++ [querying_line question] in
  QueryMedicalQa.query_medical_qa question top_k W t
  = match query_reply W t1 [question] top_k with
    | inr e => (Raise e, t1 ++ [Query [question] top_k (inr e)])
    | inl res =>
        let t2 := t1 ++ [Query [question] top_k (inl res)] in
        match qr_documents res with
        | [] => (Raise (Exception "IndexError" "list index out of range"), t2)
        | docs :: _ =>
            let prompt := QueryMedicalQa.prompt_of (context_of docs) question in
            match generate_reply W t2 model_id prompt with
            | inr e =>
                (Raise e, t2 ++ [GenerateContent model_id prompt (inr e)])
            | inl text =>
                let t3 := t2 ++ [GenerateContent model_id prompt (inl text)] in
                match qr_metadatas res, qr_distances res with
                | metas :: _, dists :: _ =>
                    (Ok {| QueryMedicalQa.answer := text;
                           QueryMedicalQa.sources := metas;
                           QueryMedicalQa.distances := dists |}, t3)
                | _, _ =>
                    (Raise (Exception "IndexError" "list index out of range"),
                     t3)
                end
            end
        end
    end.
Proof.
  cbn zeta. unfold QueryMedicalQa.query_medical_qa. rewrite bind_print.
  unfold querying_line, context_of, model_id.
  set (t1 := t ++ _).
  unfold bind at 1, collection_query.
  destruct (query_reply W t1 [question] top_k) as [res|e]; [|reflexivity].
  unfold bind at 1, first_item.
  destruct (qr_documents res) as [|docs rest]; [reflexivity|].
  unfold ret at 1. unfold bind at 1, generate_content.
  destruct (generate_reply W _ _ _) as [text|e]; [|reflexivity].
  unfold bind, first_item.
  destruct (qr_metadatas res) as [|metas ?]; [reflexivity|].
  destruct (qr_distances res) as [|dists ?]; reflexivity.
Qed.

(** The prompt the code builds is the template of the specification
    around the context and around the question. *)
Lemma prompt_of_template (docs : list string) (question : string) :
  QueryMedicalQa.prompt_of (context_of docs) question
  = prompt_for docs question.
Proof. reflexivity. Qed.

(** C7.  When the store answers the query with the texts [docs], the
    metadata [metas] and the distances [dists], and the model answers
    the prompt with [text], the query returns [text] as it is, with
    [metas] and [dists].  The prompt sent to the model is the fixed
    template with the context after its opening and the question, as
    it was asked, after the question heading; and the context is the
    texts in the store's order with a blank line between neighbours. *)
Theorem C7_answer_synthesis
  (W : World) (t : list event) (question : string) (top_k : nat)
  (res : query_result) (docs : list string) (metas : list metadata)
  (dists : list float) (rest_d : list (list string))
  (rest_m : list (list metadata)) (rest_f : list (list float))
  (text : string) :
  let t1 := t ++ [querying_line question] in
  let t2 := t1 ++ [Query [question] top_k (inl res)] in
  let prompt :=
    (template_opening ++ context_of docs ++ template_question ++ question
     ++ template_closing)%string in
  query_reply W t1 [question] top_k = inl res ->
  qr_documents res = docs :: rest_d ->
  qr_metadatas res = metas :: rest_m ->
  qr_distances res = dists :: rest_f ->
  generate_reply W t2 model_id prompt = inl text ->
  QueryMedicalQa.query_medical_qa question top_k W t
  = (Ok {| QueryMedicalQa.answer := text;
           QueryMedicalQa.sources := metas;
           QueryMedicalQa.distances := dists |},
     t2 ++ [GenerateContent model_id prompt (inl text)]) /\
  (forall d1 d2 ds,
      docs = d1 :: d2 :: ds ->
      context_of docs = (d1 ++ LF ++ LF ++ context_of (d2 :: ds))%string) /\
  (forall d, docs = [d] -> context_of docs = d).
Proof.
  cbn zeta. intros Hq Hd Hm Hf Hg.
  split; [|split].
  - rewrite query_medical_qa_run. cbn zeta.
    rewrite Hq, Hd, prompt_of_template. unfold prompt_for.
    rewrite Hg, Hm, Hf. reflexivity.
  - intros d1 d2 ds ->. reflexivity.
  - intros d ->. reflexivity.
Qed.

Lemma C7_witness :
  let docs := [qa_text "What is asthma?" "A lung disease.";
               qa_text "What is flu?" "A viral infection."] in
  let metas :=
    [ [("question", "What is asthma?"); ("answer", "A lung disease.");
       ("source_file", "asthma.xml")];
      [("question", "What is flu?"); ("answer", "A viral infection.");
       ("source_file", "flu.xml")] ] in
  let dists := [0.25%float; 0.5%float] in
  QueryMedicalQa.query_medical_qa "What is asthma?" 5 answering_world []
  = (Ok {| QueryMedicalQa.answer := "Asthma is a lung disease.";
           QueryMedicalQa.sources := metas;
           QueryMedicalQa.distances := dists |},
     [querying_line "What is asthma?";
      Query ["What is asthma?"] 5
        (inl {| qr_documents := [docs];
                qr_metadatas := [metas];
                qr_distances := [dists] |});
      GenerateContent model_id
        (template_opening
         ++ (qa_text "What is asthma?" "A lung disease." ++ LF ++ LF
             ++ qa_text "What is flu?" "A viral infection.")
         ++ template_question ++ "What is asthma?" ++ template_closing)
        (inl "Asthma is a lung disease.")]).
Proof.
  cbn zeta.
  destruct (C7_answer_synthesis answering_world [] "What is asthma?" 5
              _ _ _ _ [] [] [] "Asthma is a lung disease."
              eq_refl eq_refl eq_refl eq_refl eq_refl) as [H _].
  rewrite H. reflexivity.
Defined.

(** C5 (as amended).  The entry point of the query script asks for the
    count first: on zero it prints a notice and returns, with no query
    and no call to the model.  [query_medical_qa] itself checks
    nothing: whenever the store's query returns, it calls the model. *)
Theorem C5_empty_collection_guard_is_in_main
  (W : World) (fuel : nat) (t : list event) :
  count_reply W (t ++ [query_banner]) = 0 ->
  QueryMedicalQa.main fuel W t = (Ok (Some tt), t ++ empty_collection_notice) /\
  (forall question top_k t0 res docs rest,
      query_reply W (t0 ++ [querying_line question]) [question] top_k
      = inl res ->
      qr_documents res = docs :: rest ->
      exists reply,
        In (GenerateContent model_id
              (QueryMedicalQa.prompt_of (context_of docs) question) reply)
           (snd (QueryMedicalQa.query_medical_qa question top_k W t0))).
Proof.
  intros Hcount. split.
  - unfold QueryMedicalQa.main, QueryMedicalQa.show_collection_info.
    step. fold query_banner. rewrite Hcount. cbn [Nat.eqb]. step.
    cbn [negb]. unfold ret, empty_collection_notice.
    rewrite <- !app_assoc. reflexivity.
  - intros question top_k t0 res docs rest Hq Hd.
    rewrite query_medical_qa_run. cbn zeta. rewrite Hq, Hd.
    destruct (generate_reply W _ _ _) as [text|e].
    + exists (inl text).
      destruct (qr_metadatas res), (qr_distances res); cbn [snd];
        apply in_or_app; right; now left.
    + exists (inr e). cbn [snd]. apply in_or_app. right. now left.
Qed.

Lemma C5_witness :
  QueryMedicalQa.main 3 (example_world (MkDir [] [])) []
  = (Ok (Some tt), empty_collection_notice).
Proof.
  apply (C5_empty_collection_guard_is_in_main
           (example_world (MkDir [] [])) 3 []).
  reflexivity.
Defined.

(** Against a collection of zero documents whose store answers the
    query with no match, the query returns and the model is called. *)
Lemma C5_empty_collection_counterexample : ~ empty_collection_is_refused.
Proof.
  intros H.
  destruct (H (example_world (MkDir [] []))
              "What is asthma?" 5 (fun _ => eq_refl)) as [[msg Hr] _].
  vm_compute in Hr. discriminate.
Qed.

(* ===================================================================== *)
(** * C8: a file that does not parse *)
(* ===================================================================== *)

Lemma file_errors_in_load_events W directory_path n_files f e files :
  In f files -> In e (file_errors W directory_path f) ->
  forall k, In e (load_events W directory_path n_files files k).
Proof.
  intros Hf He. induction files as [|g files IH]; intros k; [contradiction|].
  cbn [load_events]. rewrite !in_app_iff.
  destruct Hf as [<-|Hf]; [now right; left | right; right; now apply IH].
Qed.

(** C8.  For a file whose content does not parse: the parse raises
    [ParseError] inside the extractor, which prints the error and
    returns no pair; the load returns all the same, with the documents
    of the files before and after and none of this file, and the error
    line is in its trace. *)
Theorem C8_malformed_file_is_logged_and_skipped
  (W : World) (t : list event) (directory_path : string)
  (max_files : option Z) (specific_dirs : option (list string))
  (before after : list xml_file) (bad : xml_file) (x msg : string) :
  ProcessMedquad.limit_files max_files
    (found_files W directory_path specific_dirs) = before ++ bad :: after ->
  read bad = Content x ->
  ET_fromstring W x = inr msg ->
  ProcessMedquad.fromstring x W t = (Raise (Exception "ParseError" msg), t) /\
  ProcessMedquad.extract_qa_from_xml x W t
  = (Ok [], t ++ [Print ("Error parsing XML: " ++ msg)]) /\
  exists t',
    ProcessMedquad.load_xml_documents_from_directory directory_path max_files
      specific_dirs W t
    = (Ok (flat_map (file_documents W) before
           ++ flat_map (file_documents W) after), t') /\
    In (Print ("Error parsing XML: " ++ msg)) t'.
Proof.
  intros Hfiles Hread Hparse. split; [|split].
  - unfold ProcessMedquad.fromstring. now rewrite Hparse.
  - rewrite extract_qa_from_xml_run. now rewrite Hparse.
  - eexists. rewrite load_xml_documents_from_directory_run.
    unfold loaded_documents. rewrite Hfiles, flat_map_app. cbn [flat_map].
    assert (Hbad : file_documents W bad = []).
    { unfold file_documents. now rewrite Hread, Hparse. }
    rewrite Hbad. cbn [app]. split; [reflexivity|].
    apply in_or_app. right. unfold load_trace.
    rewrite Hfiles. cbn [app]. right. right.
    apply in_or_app. right. apply in_or_app. left.
    apply file_errors_in_load_events with (f := bad).
    + apply in_or_app. right. now left.
    + unfold file_errors. rewrite Hread, Hparse. now left.
Qed.

Lemma C8_witness :
  exists t',
    ProcessMedquad.load_xml_documents_from_directory "./MedQuAD/" None None
      (example_world tree_with_bad_file) []
    = (Ok (flat_map (file_documents (example_world tree_with_bad_file))
             [{| components := ["asthma.xml"]; read := Content medquad_xml |}]
           ++ flat_map (file_documents (example_world tree_with_bad_file))
                [{| components := ["lungs.xml"];
                    read := Content medquad_xml |}]), t') /\
    In (Print "Error parsing XML: no element found: line 1, column 19") t'.
Proof.
  apply (C8_malformed_file_is_logged_and_skipped
           (example_world tree_with_bad_file) [] "./MedQuAD/" None None
           [{| components := ["asthma.xml"]; read := Content medquad_xml |}]
           [{| components := ["lungs.xml"]; read := Content medquad_xml |}]
           {| components := ["broken.xml"]; read := Content broken_xml |}
           broken_xml "no element found: line 1, column 19");
    reflexivity.
Defined.

(* ===================================================================== *)
(** * C10: the file limit *)
(* ===================================================================== *)

(** C10.  A limit of zero is no limit: the load runs exactly as with no
    limit and returns the documents of every file found; a positive
    limit [n] keeps the first [n] files found. *)
Theorem C10_zero_limit_is_no_limit
  (W : World) (t : list event) (directory_path : string)
  (specific_dirs : option (list string)) :
  ProcessMedquad.load_xml_documents_from_directory directory_path (Some 0%Z)
    specific_dirs W t
  = ProcessMedquad.load_xml_documents_from_directory directory_path None
      specific_dirs W t /\
  fst (ProcessMedquad.load_xml_documents_from_directory directory_path
         (Some 0%Z) specific_dirs W t)
  = Ok (flat_map (file_documents W)
          (found_files W directory_path specific_dirs)) /\
  (forall n : positive,
      fst (ProcessMedquad.load_xml_documents_from_directory directory_path
             (Some (Z.pos n)) specific_dirs W t)
      = Ok (flat_map (file_documents W)
              (firstn (Pos.to_nat n)
                 (found_files W directory_path specific_dirs)))).
Proof.
  split; [reflexivity|]. split.
  - now rewrite load_xml_documents_from_directory_run.
  - intros n. now rewrite load_xml_documents_from_directory_run.
Qed.

(* ===================================================================== *)
(** * Further properties: loading *)
(* ===================================================================== *)

(** X1.  A file that cannot be read is reported with its path and the
    error, contributes no document, and the load goes on with the files
    before and after it. *)
Theorem X1_unreadable_file_is_logged_and_skipped
  (W : World) (t : list event) (directory_path : string)
  (max_files : option Z) (specific_dirs : option (list string))
  (before after : list xml_file) (bad : xml_file) (e : exn) :
  ProcessMedquad.limit_files max_files
    (found_files W directory_path specific_dirs) = before ++ bad :: after ->
  read bad = ReadError e ->
  exists t',
    ProcessMedquad.load_xml_documents_from_directory directory_path max_files
      specific_dirs W t
    = (Ok (flat_map (file_documents W) before
           ++ flat_map (file_documents W) after), t') /\
    In (Print ("Error processing " ++ file_path directory_path bad ++ ": "
               ++ exn_msg e)) t'.
Proof.
  intros Hfiles Hread.
  eexists. rewrite load_xml_documents_from_directory_run.
  unfold loaded_documents. rewrite Hfiles, flat_map_app. cbn [flat_map].
  assert (Hbad : file_documents W bad = []).
  { unfold file_documents. now rewrite Hread. }
  rewrite Hbad. cbn [app]. split; [reflexivity|].
  apply in_or_app. right. unfold load_trace.
  rewrite Hfiles. cbn [app]. right. right.
  apply in_or_app. right. apply in_or_app. left.
  apply file_errors_in_load_events with (f := bad).
  - apply in_or_app. right. now left.
  - unfold file_errors. rewrite Hread. now left.
Qed.

Lemma X1_witness :
  exists t',
    ProcessMedquad.load_xml_documents_from_directory "./MedQuAD/" None None
      (example_world tree_with_unreadable_file) []
    = (Ok (flat_map (file_documents (example_world tree_with_unreadable_file))
             [{| components := ["asthma.xml"]; read := Content medquad_xml |}]
           ++ flat_map
                (file_documents (example_world tree_with_unreadable_file))
                [{| components := ["lungs.xml"];
                    read := Content medquad_xml |}]), t') /\
    In (Print ("Error processing ./MedQuAD/binary.xml: "
               ++ exn_msg unreadable)) t'.
Proof.
  apply (X1_unreadable_file_is_logged_and_skipped
           (example_world tree_with_unreadable_file) [] "./MedQuAD/" None None
           [{| components := ["asthma.xml"]; read := Content medquad_xml |}]
           [{| components := ["lungs.xml"]; read := Content medquad_xml |}]
           {| components := ["binary.xml"]; read := ReadError unreadable |}
           unreadable);
    reflexivity.
Defined.

(** X2.  A negative file limit [-n] leaves out the last [n] files found,
    and a limit of at least the number of files found leaves out none. *)
Theorem X2_negative_and_large_limits
  (W : World) (t : list event) (directory_path : string)
  (specific_dirs : option (list string)) :
  let found := found_files W directory_path specific_dirs in
  (forall n : positive,
      fst (ProcessMedquad.load_xml_documents_from_directory directory_path
             (Some (Z.neg n)) specific_dirs W t)
      = Ok (flat_map (file_documents W)
              (firstn (length found - Pos.to_nat n) found))) /\
  (forall z : Z,
      (Z.of_nat (length found) <= z)%Z ->
      fst (ProcessMedquad.load_xml_documents_from_directory directory_path
             (Some z) specific_dirs W t)
      = Ok (flat_map (file_documents W) found)).
Proof.
  cbn zeta. split.
  - intros n. now rewrite load_xml_documents_from_directory_run.
  - intros z Hz. rewrite load_xml_documents_from_directory_run.
    unfold loaded_documents, ProcessMedquad.limit_files, Py.slice_to.
    cbn [fst]. do 2 f_equal.
    destruct (z =? 0)%Z eqn:Hz0; cbn [negb]; [reflexivity|].
    destruct (0 <=? z)%Z eqn:Hpos; [|apply Z.leb_gt in Hpos; lia].
    apply firstn_all2. lia.
Qed.

Lemma X2_witness :
  fst (ProcessMedquad.load_xml_documents_from_directory "./MedQuAD/"
         (Some 50%Z) None (example_world tree_with_bad_file) [])
  = Ok (flat_map (file_documents (example_world tree_with_bad_file))
          (found_files (example_world tree_with_bad_file) "./MedQuAD/" None)).
Proof.
  apply (X2_negative_and_large_limits (example_world tree_with_bad_file) []
           "./MedQuAD/" None).
  cbn. lia.
Defined.

(* ===================================================================== *)
(** * Further properties: batches *)
(* ===================================================================== *)

(** X3.  A batch size of zero makes both ingestors raise [ValueError]
    right after their opening line, before any call to the store. *)
Theorem X3_zero_batch_size_raises
  (W : World) (t : list event)
  (documents : list ProcessMedquad.document)
  (articles : list (option ScrapeMedlineplus.article)) :
  ProcessMedquad.add_documents_to_chroma_batch documents 0 W t
  = (Raise zero_step, t ++ [Print "==== Adding documents to ChromaDB ===="])
  /\
  ScrapeMedlineplus.add_medlineplus_to_chroma articles 0 W t
  = (Raise zero_step,
     t ++ [Print "Adding MedlinePlus articles to ChromaDB..."]).
Proof. split; reflexivity. Qed.

Section AcceptedLoop.
Context {D : Type}.
Variables (text_of : D -> string) (meta_of : D -> metadata)
  (id_of : D -> string) (line : nat -> nat -> nat -> string)
  (opening : string) (closing : nat -> string).
Variables (W : World) (documents : list D) (batch_size : nat).
Hypothesis batch_size_positive : 1 <= batch_size.
Hypothesis store_accepts : accepts_all W.

Let n := length documents.
Let call := add_call text_of meta_of id_of None.
Let body := batch_body text_of meta_of id_of line documents batch_size.

(** The running total: [min(s * b, n)] before batch [s], and
    [min((s + m) * b, n)] after [m] more batches. *)
Lemma accepted_loop_run m : forall s t,
  for_each (map (fun k => k * batch_size) (seq s m))
    (Nat.min (s * batch_size) n) body W t
  = (Ok (Nat.min ((s + m) * batch_size) n),
     t ++ flat_map (batch_events call line documents batch_size) (seq s m)).
Proof.
  induction m as [|m IH]; intros s t.
  - cbn. now rewrite app_nil_r, Nat.add_0_r.
  - cbn [seq map for_each flat_map]. rewrite bind_cases.
    unfold body at 1. rewrite batch_body_run, store_accepts.
    rewrite slice_batch.
    assert (Hlen : Nat.min (s * batch_size) n
                   + length (firstn batch_size
                               (skipn (s * batch_size) documents))
                   = Nat.min (S s * batch_size) n).
    { rewrite length_firstn, length_skipn. fold n. lia. }
    rewrite Hlen. fold body. rewrite IH.
    unfold batch_events at 2. cbn zeta. fold n. fold call.
    replace (s + 1) with (S s) by lia.
    replace (S s + m) with (s + S m) by lia.
    now rewrite <- app_assoc.
Qed.

(** An ingestion the store accepts, event by event. *)
Lemma ingest_accepted_trace t :
  ingest text_of meta_of id_of line opening closing documents batch_size W t
  = (Ok tt,
     t ++ Print opening
       :: flat_map (batch_events call line documents batch_size)
            (seq 0 (length (batches batch_size documents)))
       ++ [Print (closing n)]).
Proof.
  unfold ingest. rewrite bind_print.
  unfold range. destruct (batch_size =? 0) eqn:Hb;
    [apply Nat.eqb_eq in Hb; lia|].
  rewrite bind_ret. unfold Py.range_values. rewrite bind_cases.
  fold n. fold body.
  pose proof (accepted_loop_run ((n + batch_size - 1) / batch_size) 0
                (t ++ [Print opening])) as Hrun.
  cbn [Nat.mul Nat.min Nat.add] in Hrun. rewrite Hrun. unfold print.
  pose proof (batches_cover documents batch_size batch_size_positive) as Hc.
  fold n in Hc. rewrite Nat.min_r by exact Hc.
  unfold batches, Py.range_values. rewrite !length_map, length_seq.
  fold n. rewrite <- !app_assoc. reflexivity.
Qed.
End AcceptedLoop.

(** X4.  When the store accepts every call, an ingestion with a batch
    size of at least 1 returns, and its trace is: the opening line; for
    each batch in order the [add] call followed by a progress line with
    the batch number, the batch length and the running total
    [min((k + 1) * batch_size, n)] out of [n]; and a closing line that
    reports all [n] documents. *)
Theorem X4_progress_reports_running_total
  (W : World) (t : list event) (batch_size : nat)
  (documents : list ProcessMedquad.document)
  (articles : list (option ScrapeMedlineplus.article)) :
  1 <= batch_size ->
  accepts_all W ->
  ProcessMedquad.add_documents_to_chroma_batch documents batch_size W t
  = (Ok tt,
     t ++ Print "==== Adding documents to ChromaDB ===="
       :: flat_map (reported_batch qa_add_call qa_progress documents
                      batch_size)
            (seq 0 (length (batches batch_size documents)))
       ++ [Print ("Successfully added " ++ Py.str (length documents)
                  ++ " documents to ChromaDB collection")]) /\
  (let docs := ScrapeMedlineplus.documents_of articles in
   ScrapeMedlineplus.add_medlineplus_to_chroma articles batch_size W t
   = (Ok tt,
      t ++ Print "Adding MedlinePlus articles to ChromaDB..."
        :: flat_map (reported_batch article_add_call article_progress docs
                       batch_size)
             (seq 0 (length (batches batch_size docs)))
        ++ [Print ("Successfully added " ++ Py.str (length docs)
                   ++ " MedlinePlus articles to ChromaDB")])).
Proof.
  intros Hb Hacc.
  assert (Hdiv : forall k, k * batch_size / batch_size = k)
    by (intros k; apply Nat.div_mul; lia).
  split; cbn zeta.
  - rewrite add_documents_to_chroma_batch_ingest, ingest_accepted_trace
      by assumption.
    do 4 f_equal. apply flat_map_ext. intros k.
    unfold batch_events, reported_batch, qa_line, qa_progress. cbn zeta.
    now rewrite Hdiv.
  - rewrite add_medlineplus_to_chroma_ingest, ingest_accepted_trace
      by assumption.
    do 4 f_equal. apply flat_map_ext. intros k.
    unfold batch_events, reported_batch, article_line, article_progress.
    cbn zeta. now rewrite Hdiv.
Qed.

Lemma X4_witness :
  snd (ProcessMedquad.add_documents_to_chroma_batch three_documents 2
         (example_world (MkDir [] [])) [])
  = [Print "==== Adding documents to ChromaDB ====";
     qa_add_call None (firstn 2 three_documents);
     Print "Added batch 1: 2 documents (Total: 2/3)";
     qa_add_call None (skipn 2 three_documents);
     Print "Added batch 2: 1 documents (Total: 3/3)";
     Print "Successfully added 3 documents to ChromaDB collection"].
Proof.
  destruct (X4_progress_reports_running_total (example_world (MkDir [] []))
              [] 2 three_documents []) as [H _].
  - lia.
  - intros t ds ms ids. reflexivity.
  - rewrite H. reflexivity.
Defined.

(* ===================================================================== *)
(** * Further properties: identifiers never collide *)
(* ===================================================================== *)

Lemma string_app_assoc (a b c : string) :
  ((a ++ b) ++ c = a ++ b ++ c)%string.
Proof. induction a as [|x a IH]; cbn; [reflexivity | now rewrite IH]. Qed.

Lemma string_app_inv_head (a b c : string) :
  (a ++ b = a ++ c)%string -> b = c.
Proof.
  induction a as [|x a IH]; cbn; [trivial|]. intros [= H]. now apply IH.
Qed.

Lemma has_char_app c (a b : string) :
  has_char c (a ++ b) = has_char c a || has_char c b.
Proof.
  induction a as [|x a IH]; cbn; [reflexivity|].
  now rewrite IH, orb_assoc.
Qed.

(** Two texts cut at their last underscore agree on both sides. *)
Lemma split_at_last_underscore (a b d1 d2 : string) :
  has_char "_" d1 = false -> has_char "_" d2 = false ->
  (a ++ "_" ++ d1 = b ++ "_" ++ d2)%string -> a = b /\ d1 = d2.
Proof.
  intros H1 H2. revert b.
  induction a as [|x a IH]; intros [|y b]; cbn.
  - intros [= E]. now split.
  - intros [= _ E]. exfalso. rewrite E, has_char_app in H1. cbn in H1.
    now rewrite orb_true_r in H1.
  - intros [= _ E]. exfalso. rewrite <- E, has_char_app in H2. cbn in H2.
    now rewrite orb_true_r in H2.
  - intros [= -> E]. destruct (IH b E) as [-> ->]. now split.
Qed.

Lemma digits_have_no_underscore (d : Decimal.uint) :
  has_char "_" (NilEmpty.string_of_uint d) = false.
Proof. induction d; cbn; auto. Qed.

Lemma str_has_no_underscore n : has_char "_" (Py.str n) = false.
Proof.
  unfold Py.str, NilZero.string_of_uint.
  destruct (Nat.to_uint n); try reflexivity;
    apply (digits_have_no_underscore (_ _)).
Qed.

(** [str] gives different numbers different texts. *)
Lemma str_injective n m : Py.str n = Py.str m -> n = m.
Proof.
  unfold Py.str. intros H.
  apply (f_equal NilZero.uint_of_string) in H.
  assert (Hn : forall k, NilZero.uint_of_string
                           (NilZero.string_of_uint (Nat.to_uint k))
                         = Some (Nat.to_uint k)).
  { intros k. apply NilZero.usu. intros E.
    pose proof (DecimalNat.Unsigned.of_to k) as Hk.
    rewrite E in Hk. cbn in Hk. subst k. discriminate E. }
  rewrite !Hn in H. injection H as H.
  now apply DecimalNat.Unsigned.to_uint_inj.
Qed.

Lemma qa_id_injective r1 r2 k1 k2 :
  (r1 ++ "_qa_" ++ Py.str k1 = r2 ++ "_qa_" ++ Py.str k2)%string ->
  r1 = r2 /\ k1 = k2.
Proof.
  intros H.
  assert (E : forall r k, (r ++ "_qa_" ++ Py.str k
                           = (r ++ "_qa") ++ "_" ++ Py.str k)%string)
    by (intros r k; now rewrite string_app_assoc).
  rewrite !E in H.
  apply split_at_last_underscore in H as [Hr Hk];
    try apply str_has_no_underscore.
  split; [|now apply str_injective].
  clear -Hr. revert r2 Hr.
  induction r1 as [|x r1 IH]; intros [|y r2]; cbn; intros Hr.
  - reflexivity.
  - exfalso. destruct r2 as [|? [|? [|? ?]]]; discriminate.
  - exfalso. destruct r1 as [|? [|? [|? ?]]]; discriminate.
  - injection Hr as -> Hr. f_equal. now apply IH.
Qed.

Lemma NoDup_qa_ids f n : NoDup (qa_ids f n).
Proof.
  unfold qa_ids. apply NoDup_map_NoDup_ForallPairs; [|apply seq_NoDup].
  intros k1 k2 _ _ H. now apply qa_id_injective in H.
Qed.

Lemma in_qa_ids i f n :
  In i (qa_ids f n) -> exists k, i = (relpath f ++ "_qa_" ++ Py.str k)%string.
Proof.
  unfold qa_ids. intros H. apply in_map_iff in H as (k & <- & _). now exists k.
Qed.

(** X5.  Identifiers never collide.  When the files a load goes
    through lie at distinct relative paths, the documents it returns
    have pairwise distinct ids; and the documents of any list of scraped
    articles have pairwise distinct ids. *)
Theorem X5_ids_are_pairwise_distinct
  (W : World) (t : list event) (directory_path : string)
  (max_files : option Z) (specific_dirs : option (list string))
  (articles : list ScrapeMedlineplus.article) :
  NoDup (map relpath
           (ProcessMedquad.limit_files max_files
              (found_files W directory_path specific_dirs))) ->
  (exists docs,
      fst (ProcessMedquad.load_xml_documents_from_directory directory_path
             max_files specific_dirs W t) = Ok docs /\
      NoDup (map ProcessMedquad.id docs)) /\
  NoDup (map ScrapeMedlineplus.id
           (ScrapeMedlineplus.documents_of (map Some articles))).
Proof.
  intros Hpaths. split.
  - eexists. rewrite load_xml_documents_from_directory_run.
    split; [reflexivity|]. unfold loaded_documents.
    rewrite ids_of_flat_map.
    induction (ProcessMedquad.limit_files max_files
                 (found_files W directory_path specific_dirs))
      as [|f files IH]; cbn; [constructor|].
    inversion Hpaths as [|? ? Hnotin Hrest]; subst.
    apply NoDup_app; [apply NoDup_qa_ids | now apply IH|].
    intros i Hi Hin.
    apply in_flat_map in Hin as (g & Hg & Hig).
    apply in_qa_ids in Hi as [k1 ->].
    apply in_qa_ids in Hig as [k2 E].
    apply qa_id_injective in E as [Hr _].
    apply Hnotin. rewrite Hr. now apply in_map.
  - rewrite documents_of_articles. unfold enumerate.
    rewrite ids_of_article_documents.
    apply NoDup_map_NoDup_ForallPairs; [|apply seq_NoDup].
    intros k1 k2 _ _ H. apply string_app_inv_head in H.
    now apply str_injective.
Qed.

Lemma X5_witness :
  exists docs,
    fst (ProcessMedquad.load_xml_documents_from_directory "./MedQuAD/" None
           None (example_world tree_with_bad_file) []) = Ok docs /\
    NoDup (map ProcessMedquad.id docs).
Proof.
  apply (X5_ids_are_pairwise_distinct (example_world tree_with_bad_file) []
           "./MedQuAD/" None None []).
  cbn. repeat constructor; cbn; intuition discriminate.
Defined.

(* ===================================================================== *)
(** * Further properties: which files a load finds *)
(* ===================================================================== *)

Lemma walk_xml_files_spec keep d : forall root f,
  In f (walk_xml_files keep root d) <->
  exists path,
    components f = root ++ path /\
    file_at keep d path (read f) /\
    Py.endswith (basename f) ".xml" = true.
Proof.
  induction d as [files dirs IH] using Dir_induction. intros root f.
  cbn [walk_xml_files]. rewrite in_app_iff. split.
  - intros [Hf | Hd].
    + apply in_map_iff in Hf as ([name r] & <- & Hin).
      apply filter_In in Hin as [Hin Hx]. cbn in *.
      exists [name]. split; [reflexivity|]. split; [now constructor|].
      unfold basename. cbn. now rewrite last_last.
    + induction IH as [|[name sub] rest IHsub _ IHrest]; [contradiction|].
      apply in_app_or in Hd as [Hd | Hd].
      * destruct (keep name) eqn:Hk; [|contradiction].
        apply IHsub in Hd as (path & Hc & Hat & Hx).
        exists (name :: path). rewrite Hc, <- app_assoc.
        split; [reflexivity|]. split; [|exact Hx].
        eapply file_below; [now left | exact Hk | exact Hat].
      * destruct (IHrest Hd) as (path & Hc & Hat & Hx).
        exists path. split; [exact Hc|]. split; [|exact Hx].
        inversion Hat; subst.
        -- now constructor.
        -- eapply file_below; [right; eassumption | assumption | assumption].
  - intros (path & Hc & Hat & Hx).
    inversion Hat as [fs ds name r Hin | fs ds name sub p r Hin Hk Hsub];
      subst.
    + left. apply in_map_iff. exists (name, read f). cbn. split.
      * destruct f as [c r]. cbn in *. now rewrite Hc.
      * apply filter_In. split; [exact Hin|]. cbn.
        unfold basename in Hx. now rewrite Hc, last_last in Hx.
    + right. clear Hat.
      induction IH as [|[name' sub'] rest IHsub _ IHrest]; [contradiction|].
      apply in_or_app. destruct Hin as [[= -> ->] | Hin].
      * left. rewrite Hk. apply IHsub. exists p.
        rewrite <- app_assoc. now repeat split.
      * right. now apply IHrest.
Qed.

(** X6.  A load finds exactly the files whose name ends in [.xml] and
    that lie below the top directory at a path whose directory names
    all pass the filter: every name when [specific_dirs] is empty or
    absent, the names in [specific_dirs] otherwise.  The filter never
    applies to the files of the top directory itself. *)
Theorem X6_found_files_characterised
  (W : World) (directory_path : string)
  (specific_dirs : option (list string)) (f : xml_file) :
  (In f (found_files W directory_path specific_dirs) <->
   file_at (ProcessMedquad.keep_dir specific_dirs)
     (os_walk_tree W directory_path) (components f) (read f) /\
   Py.endswith (basename f) ".xml" = true) /\
  (forall d, ProcessMedquad.keep_dir None d = true) /\
  (forall d, ProcessMedquad.keep_dir (Some []) d = true) /\
  (forall d x l, ProcessMedquad.keep_dir (Some (x :: l)) d = true
                 <-> In d (x :: l)).
Proof.
  split; [|split; [|split]]; try reflexivity.
  - unfold found_files. rewrite walk_xml_files_spec. cbn [app]. split.
    + intros (path & -> & Hat & Hx). now split.
    + intros [Hat Hx]. now exists (components f).
  - intros d x l. unfold ProcessMedquad.keep_dir, in_list.
    rewrite existsb_exists. split.
    + intros (y & Hy & E). apply String.eqb_eq in E. now subst.
    + intros H. exists d. split; [exact H | apply String.eqb_refl].
Qed.

Example found_in_test_mode :
  map relpath
    (found_files (example_world medquad_tree) "./MedQuAD/"
       (Some ["1_CancerGov_QA"]))
  = ["top.xml"; "1_CancerGov_QA/0000001.xml"].
Proof. reflexivity. Qed.

(* ===================================================================== *)
(** * Further properties: scraping *)
(* ===================================================================== *)

Lemma scrape_error_in_events W n_links links l e :
  In l links ->
  http_get W (ScrapeMedlineplus.link_url l) = inr e ->
  forall k,
    In (scrape_error_line (ScrapeMedlineplus.link_url l) e)
       (scrape_events W n_links links k).
Proof.
  intros Hl He. induction links as [|x links IH]; intros k; [contradiction|].
  cbn [scrape_events]. right. apply in_or_app.
  destruct Hl as [<-|Hl].
  - left. unfold scrape_error. rewrite He. now left.
  - right. now apply IH.
Qed.

Lemma scraped_articles_app W l1 l2 :
  scraped_articles W (l1 ++ l2)
  = scraped_articles W l1 ++ scraped_articles W l2.
Proof. unfold scraped_articles. apply flat_map_app. Qed.

(** X7.  A page that cannot be fetched never stops the scrape: scraping
    one page always returns; the failure is printed with the url and the
    error; the page yields no article; and the articles of the links
    before and after it are scraped all the same, in order. *)
Theorem X7_unreachable_page_is_logged_and_skipped
  (W : World) (t : list event)
  (before after : list ScrapeMedlineplus.article_link)
  (bad : ScrapeMedlineplus.article_link) (e : exn) :
  http_get W (ScrapeMedlineplus.link_url bad) = inr e ->
  ScrapeMedlineplus.scrape_article_content
    (ScrapeMedlineplus.link_url bad) (ScrapeMedlineplus.anchor_title bad) W t
  = (Ok None, t ++ [scrape_error_line (ScrapeMedlineplus.link_url bad) e]) /\
  exists t',
    ScrapeMedlineplus.scrape_all (before ++ bad :: after) W t
    = (Ok (scraped_articles W before ++ scraped_articles W after), t') /\
    In (scrape_error_line (ScrapeMedlineplus.link_url bad) e) t'.
Proof.
  intros He. split.
  - rewrite scrape_article_content_run. unfold scraped, scrape_error.
    now rewrite He.
  - eexists. rewrite scrape_all_run. split.
    + assert (Hbad : scraped_articles W [bad] = []).
      { unfold scraped_articles, scraped. cbn. now rewrite He. }
      change (bad :: after) with ([bad] ++ after).
      now rewrite !scraped_articles_app, Hbad.
    + apply in_or_app. right.
      apply scrape_error_in_events; [|exact He].
      apply in_or_app. right. now left.
Qed.

Lemma X7_witness :
  exists t',
    ScrapeMedlineplus.scrape_all [missing_link; asthma_link] populated_world []
    = (Ok (scraped_articles populated_world []
           ++ scraped_articles populated_world [asthma_link]), t') /\
    In (scrape_error_line (ScrapeMedlineplus.link_url missing_link) not_found)
       t'.
Proof.
  apply (X7_unreachable_page_is_logged_and_skipped populated_world []
           [] [asthma_link] missing_link not_found).
  reflexivity.
Defined.

Lemma words_cons c r :
  words (String c r)
  = if Py.isspace c then words r
    else if match r with
            | String c' _ => negb (Py.isspace c')
            | EmptyString => false
            end
         then match words r with
              | w :: ws => String c w :: ws
              | [] => [String c EmptyString]
              end
         else String c EmptyString :: words r.
Proof. reflexivity. Qed.

Lemma words_of_word c w :
  Py.isspace c = false -> no_space w = true ->
  words (String c w) = [String c w].
Proof.
  revert c. induction w as [|c' w IH]; intros c Hc Hw;
    rewrite words_cons, Hc; [reflexivity|].
  cbn in Hw. apply andb_true_iff in Hw as [Hc' Hw]. rewrite Hc'.
  apply negb_true_iff in Hc'. now rewrite (IH c' Hc' Hw).
Qed.

Lemma words_word_space c w (s : string) :
  Py.isspace c = false -> no_space w = true ->
  words (String c w ++ String " " s) = String c w :: words s.
Proof.
  revert c. induction w as [|c' w IH]; intros c Hc Hw.
  - change (String c "" ++ String " " s)%string with (String c (String " " s)).
    rewrite words_cons, Hc. change (Py.isspace " ") with true. cbn [negb].
    rewrite (words_cons " " s). change (Py.isspace " ") with true.
    reflexivity.
  - cbn in Hw. apply andb_true_iff in Hw as [Hc' Hw].
    change (String c (String c' w) ++ String " " s)%string
      with (String c (String c' w ++ String " " s)).
    rewrite words_cons, Hc.
    change (String c' w ++ String " " s)%string
      with (String c' (w ++ String " " s)) at 1.
    cbn iota. rewrite Hc'.
    apply negb_true_iff in Hc'. now rewrite (IH c' Hc' Hw).
Qed.

(** The words of a text made of words with single spaces between. *)
Lemma words_join (ws : list string) :
  Forall (fun w => w <> "" /\ no_space w = true) ws ->
  words (Py.join " " ws) = ws.
Proof.
  induction 1 as [|w ws [Hne Hns] Hws IH]; [reflexivity|].
  destruct w as [|c w]; [congruence|].
  cbn in Hns. apply andb_true_iff in Hns as [Hc Hns].
  apply negb_true_iff in Hc.
  destruct ws as [|w' ws].
  - cbn [Py.join]. now apply words_of_word.
  - change (Py.join " " (String c w :: w' :: ws))
      with (String c w ++ String " " (Py.join " " (w' :: ws)))%string.
    rewrite words_word_space by assumption. now rewrite IH.
Qed.

(** Collapsing a collapsed text changes nothing. *)
Lemma collapsed_idempotent s : collapsed (collapsed s) = collapsed s.
Proof.
  unfold collapsed at 1. unfold collapsed at 1.
  rewrite words_join by apply words_nonempty_strings. reflexivity.
Qed.

(** X8.  Every article the scraper returns has a content of at least
    100 characters that is already normal: collapsing its whitespace
    and stripping it again gives the same content; and it carries the
    url it was asked for. *)
Theorem X8_scraped_content_is_long_and_normal
  (W : World) (t t' : list event) (url anchor_title : string)
  (a : ScrapeMedlineplus.article) :
  ScrapeMedlineplus.scrape_article_content url anchor_title W t
  = (Ok (Some a), t') ->
  100 <= Py.len (ScrapeMedlineplus.content a) /\
  Py.strip (ScrapeMedlineplus.re_sub_spaces (ScrapeMedlineplus.content a))
  = ScrapeMedlineplus.content a /\
  ScrapeMedlineplus.url a = url /\
  t' = t.
Proof.
  rewrite scrape_article_content_run. unfold scraped, scrape_error.
  destruct (http_get W url) as [soup|e]; [|discriminate].
  destruct (Soup.find_with_attr soup "div" "id" "ency_content") as [d|];
    [|discriminate].
  destruct (Py.len (collapsed (Soup.get_text d " ")) <? 100) eqn:Hlen;
    [discriminate|].
  intros [= <- <-]. cbn [ScrapeMedlineplus.content ScrapeMedlineplus.url].
  apply Nat.ltb_ge in Hlen. split; [exact Hlen|].
  split; [|split; [reflexivity | now rewrite app_nil_r]].
  rewrite strip_re_sub_collapsed. apply collapsed_idempotent.
Qed.

Lemma X8_witness :
  100 <= Py.len (ScrapeMedlineplus.content asthma_article) /\
  Py.strip (ScrapeMedlineplus.re_sub_spaces
              (ScrapeMedlineplus.content asthma_article))
  = ScrapeMedlineplus.content asthma_article.
Proof.
  destruct (X8_scraped_content_is_long_and_normal populated_world [] []
              (ScrapeMedlineplus.link_url asthma_link) "Asthma"
              asthma_article) as (Hlen & Hnormal & _).
  - vm_compute. reflexivity.
  - split; assumption.
Defined.

(* ===================================================================== *)
(** * Further properties: finding the links *)
(* ===================================================================== *)

Lemma collect_article_links W index_url (anchors : list Node) :
  forall acc t,
  for_each anchors acc
    (fun link article_links =>
       let href := ScrapeMedlineplus.href_of link in
       if ScrapeMedlineplus.startswith href "article/"
          && Py.endswith href ".htm"
       then
         bind (ScrapeMedlineplus.url_join index_url href)
           (fun full_url =>
              let title := Soup.get_text link "" in
              ret (article_links
                   ++ [{| ScrapeMedlineplus.link_url := full_url;
                          ScrapeMedlineplus.anchor_title := title |}]))
       else ret article_links) W t
  = (Ok (acc ++ map (article_link_of W index_url)
                  (filter (fun a => is_article_href
                                      (ScrapeMedlineplus.href_of a)) anchors)),
     t).
Proof.
  induction anchors as [|a anchors IH]; intros acc t.
  - cbn. now rewrite app_nil_r.
  - cbn [for_each filter]. rewrite bind_cases. cbn zeta.
    unfold is_article_href at 1.
    destruct (ScrapeMedlineplus.startswith (ScrapeMedlineplus.href_of a)
                "article/"
              && Py.endswith (ScrapeMedlineplus.href_of a) ".htm").
    + cbn [bind ScrapeMedlineplus.url_join ret].
      rewrite IH. cbn [map]. now rewrite <- app_assoc.
    + cbn [ret]. apply IH.
Qed.

(** X9.  The search for article links on an index page never raises.
    It returns, in page order, one link for each anchor inside the list
    with id [index] whose [href] starts with [article/] and ends with
    [.htm], with the joined url and the anchor's stripped text; a page
    that cannot be fetched, or has no such list, gives no link and one
    printed line. *)
Theorem X9_article_links_of_an_index_page
  (W : World) (t : list event) (index_url : string) :
  ScrapeMedlineplus.get_article_links_from_index index_url W t
  = (Ok (article_links W index_url), t ++ article_links_notes W index_url).
Proof.
  unfold ScrapeMedlineplus.get_article_links_from_index, article_links,
    article_links_notes, try_except.
  rewrite bind_cases. unfold ScrapeMedlineplus.get_soup.
  destruct (http_get W index_url) as [soup|e]; [|reflexivity].
  destruct (Soup.find_with_attr soup "ul" "id" "index") as [ul|];
    [|reflexivity].
  rewrite collect_article_links. cbn [app]. now rewrite app_nil_r.
Qed.

Lemma collect_index_links W (anchors : list Node) :
  forall acc t,
  for_each anchors acc
    (fun link index_links =>
       let href := ScrapeMedlineplus.href_of link in
       if ScrapeMedlineplus.index_href_match href
       then
         bind (ScrapeMedlineplus.url_join ScrapeMedlineplus.BASE_URL href)
           (fun full_url => ret (index_links ++ [full_url]))
       else ret index_links) W t
  = (Ok (acc ++ map (fun a => urljoin W ScrapeMedlineplus.BASE_URL
                                (ScrapeMedlineplus.href_of a))
                  (filter (fun a => ScrapeMedlineplus.index_href_match
                                      (ScrapeMedlineplus.href_of a))
                     anchors)),
     t).
Proof.
  induction anchors as [|a anchors IH]; intros acc t.
  - cbn. now rewrite app_nil_r.
  - cbn [for_each filter]. rewrite bind_cases. cbn zeta.
    destruct (ScrapeMedlineplus.index_href_match
                (ScrapeMedlineplus.href_of a)).
    + cbn [bind ScrapeMedlineplus.url_join ret].
      rewrite IH. cbn [map]. now rewrite <- app_assoc.
    + cbn [ret]. apply IH.
Qed.

Lemma get_index_links_run W t :
  ScrapeMedlineplus.get_index_links W t
  = (Ok (index_links W), t ++ index_links_notes W).
Proof.
  unfold ScrapeMedlineplus.get_index_links, index_links_notes.
  rewrite bind_print. unfold try_except. rewrite bind_cases.
  unfold ScrapeMedlineplus.get_soup.
  pose proof (eq_refl (index_links W)) as Hlinks.
  unfold index_links at 2 in Hlinks. unfold index_links at 1.
  destruct (http_get W ScrapeMedlineplus.ENCYCLOPEDIA_URL) as [soup|e].
  - rewrite bind_cases, collect_index_links. cbn [app].
    rewrite bind_print. unfold ret. rewrite Hlinks.
    now rewrite <- !app_assoc.
  - cbn. now rewrite <- !app_assoc.
Qed.

(** X10.  The search for the index pages never raises: it returns the
    joined urls of the anchors whose [href] matches the index pattern,
    in page order.  When it finds none, as when the front page cannot
    be fetched, the scraper says so and ends: it asks the operator
    nothing and makes no call to the store. *)
Theorem X10_no_index_page_ends_the_scraper
  (W : World) (t : list event) :
  ScrapeMedlineplus.get_index_links W (t ++ scraper_banner)
  = (Ok (index_links W), (t ++ scraper_banner) ++ index_links_notes W) /\
  (index_links W = [] ->
   ScrapeMedlineplus.main W t
   = (Ok tt,
      t ++ scraper_banner ++ index_links_notes W
        ++ [Print "No index pages found. Exiting."])).
Proof.
  split; [apply get_index_links_run|].
  intros Hnone. unfold ScrapeMedlineplus.main. rewrite !bind_print.
  rewrite bind_cases, get_index_links_run, Hnone. unfold print.
  unfold scraper_banner. rewrite <- !app_assoc. reflexivity.
Qed.

Lemma X10_witness :
  ScrapeMedlineplus.main (example_world (MkDir [] [])) []
  = (Ok tt,
     scraper_banner
     ++ [Print "Fetching A-Z,0-9 index links...";
         Print "Error fetching index links: unreachable";
         Print "No index pages found. Exiting."]).
Proof.
  apply (X10_no_index_page_ends_the_scraper (example_world (MkDir [] [])) []).
  reflexivity.
Defined.

Lemma prefix_split (p s : string) :
  String.prefix p s = true ->
  s = (p ++ ScrapeMedlineplus.drop (String.length p) s)%string.
Proof.
  revert s. induction p as [|a p IH]; intros s H.
  - cbn. unfold ScrapeMedlineplus.drop. rewrite Nat.sub_0_r.
    clear H. induction s as [|b s IHs]; cbn; [reflexivity|].
    now rewrite <- IHs.
  - destruct s as [|b s]; [discriminate|]. cbn in H.
    destruct (ascii_dec a b) as [->|]; [|discriminate].
    cbn [append]. f_equal. rewrite (IH s H) at 1. reflexivity.
Qed.

(** X11.  The index pattern accepts exactly the hrefs
    [ency/encyclopedia_c.htm] with [c] a capital letter or a digit,
    with or without a leading slash, and with or without one final line
    feed. *)
Theorem X11_index_pattern (href : string) :
  ScrapeMedlineplus.index_href_match href = true <->
  exists slash c newline,
    ScrapeMedlineplus.is_upper_or_digit c = true /\
    href = index_href slash c newline.
Proof.
  split.
  - unfold ScrapeMedlineplus.index_href_match. intros H.
    apply andb_true_iff in H as [Hp H].
    set (h := if ScrapeMedlineplus.startswith href "/"
              then ScrapeMedlineplus.drop 1 href else href) in *.
    apply prefix_split in Hp. cbn [String.length] in Hp.
    destruct (ScrapeMedlineplus.drop 18 h) as [|c rest]; [discriminate|].
    apply andb_true_iff in H as [Hc Hrest].
    assert (Hh : exists newline, h = index_href false c newline).
    { apply orb_true_iff in Hrest as [E|E]; apply String.eqb_eq in E;
        subst rest; [exists false | exists true]; exact Hp. }
    destruct Hh as [newline Hh]. subst h.
    destruct (ScrapeMedlineplus.startswith href "/") eqn:Hs.
    + exists true, c, newline. split; [exact Hc|].
      apply prefix_split in Hs. cbn [String.length] in Hs.
      rewrite Hs, Hh. reflexivity.
    + exists false, c, newline. now split.
  - intros (slash & c & newline & Hc & ->).
    unfold ScrapeMedlineplus.index_href_match.
    destruct slash, newline; cbn; rewrite Hc; reflexivity.
Qed.

(* ===================================================================== *)
(** * Further properties: the query script *)
(* ===================================================================== *)

(** X12.  A query calls the store once and the model at most once.  When
    the store's query raises, the query raises the same exception and
    the model is not called; when the store's reply has no inner list,
    the query raises [IndexError] and the model is not called; when the
    model raises, the query raises the same exception: the call is not
    tried again and no answer is made up. *)
Theorem X12_query_failures_propagate
  (W : World) (t : list event) (question : string) (top_k : nat) :
  let r := QueryMedicalQa.query_medical_qa question top_k W t in
  let t1 := t ++ [querying_line question] in
  length (filter is_query (snd r)) = length (filter is_query t) + 1 /\
  length (filter is_generate (snd r)) <= length (filter is_generate t) + 1 /\
  (forall e,
      query_reply W t1 [question] top_k = inr e ->
      r = (Raise e, t1 ++ [Query [question] top_k (inr e)])) /\
  (forall res,
      query_reply W t1 [question] top_k = inl res ->
      qr_documents res = [] ->
      r = (Raise index_error, t1 ++ [Query [question] top_k (inl res)])) /\
  (forall res docs rest e,
      query_reply W t1 [question] top_k = inl res ->
      qr_documents res = docs :: rest ->
      generate_reply W (t1 ++ [Query [question] top_k (inl res)]) model_id
        (QueryMedicalQa.prompt_of (context_of docs) question) = inr e ->
      r = (Raise e,
           (t1 ++ [Query [question] top_k (inl res)])
           ++ [GenerateContent model_id
                 (QueryMedicalQa.prompt_of (context_of docs) question)
                 (inr e)])).
Proof.
  cbn zeta. rewrite query_medical_qa_run. cbn zeta.
  split; [|split; [|split; [|split]]].
  - destruct (query_reply W _ _ _) as [res|e].
    + destruct (qr_documents res) as [|docs rest].
      * cbn [snd]. rewrite !filter_app, !length_app. cbn. lia.
      * destruct (generate_reply W _ _ _) as [text|e].
        -- destruct (qr_metadatas res), (qr_distances res); cbn [snd];
             rewrite !filter_app, !length_app; cbn; lia.
        -- cbn [snd]. rewrite !filter_app, !length_app. cbn. lia.
    + cbn [snd]. rewrite !filter_app, !length_app. cbn. lia.
  - destruct (query_reply W _ _ _) as [res|e].
    + destruct (qr_documents res) as [|docs rest].
      * cbn [snd]. rewrite !filter_app, !length_app. cbn. lia.
      * destruct (generate_reply W _ _ _) as [text|e].
        -- destruct (qr_metadatas res), (qr_distances res); cbn [snd];
             rewrite !filter_app, !length_app; cbn; lia.
        -- cbn [snd]. rewrite !filter_app, !length_app. cbn. lia.
    + cbn [snd]. rewrite !filter_app, !length_app. cbn. lia.
  - intros e He. now rewrite He.
  - intros res Hq Hd. now rewrite Hq, Hd.
  - intros res docs rest e Hq Hd Hg. now rewrite Hq, Hd, Hg.
Qed.

Lemma X12_witness :
  QueryMedicalQa.query_medical_qa "What is asthma?" 5 failing_store_world []
  = (Raise (Exception "RuntimeError" "index not loaded"),
     [querying_line "What is asthma?";
      Query ["What is asthma?"] 5
        (inr (Exception "RuntimeError" "index not loaded"))]).
Proof.
  destruct (X12_query_failures_propagate failing_store_world []
              "What is asthma?" 5) as (_ & _ & H & _).
  apply (H (Exception "RuntimeError" "index not loaded")). reflexivity.
Defined.

(** X13.  The metadata the two ingestors store is what the query script
    can show: for a stored structured-QA document it prints the source
    file and the first 100 characters of the question, for a stored
    article the title, the source and the url, and neither raises.  A
    source with a [source_file] but no [question] raises [KeyError]
    after its first line. *)
Theorem X13_stored_metadata_is_displayed
  (W : World) (t : list event) (i : nat) :
  (forall doc,
      QueryMedicalQa.show_source (i, ProcessMedquad.metadata_of doc) tt W t
      = (Ok tt, t ++ qa_source_lines i doc)) /\
  (forall doc,
      QueryMedicalQa.show_source (i, ScrapeMedlineplus.metadata_of doc) tt W t
      = (Ok tt, t ++ article_source_lines i doc)) /\
  (forall source file,
      dict_get source "source_file" = Some file ->
      dict_get source "question" = None ->
      QueryMedicalQa.show_source (i, source) tt W t
      = (Raise (Exception "KeyError" "'question'"),
         t ++ [Print ("  " ++ Py.str i ++ ". " ++ file)])).
Proof.
  split; [|split].
  - intros doc. cbn. unfold print. now rewrite <- !app_assoc.
  - intros doc. cbn. unfold print. now rewrite <- !app_assoc.
  - intros source file Hf Hq.
    unfold QueryMedicalQa.show_source, contains, getitem.
    rewrite Hf. rewrite bind_ret, bind_print. now rewrite Hq.
Qed.

Lemma X13_witness :
  QueryMedicalQa.show_source (1, [("source_file", "asthma.xml")]) tt
    failing_store_world []
  = (Raise (Exception "KeyError" "'question'"), [Print "  1. asthma.xml"]).
Proof.
  destruct (X13_stored_metadata_is_displayed failing_store_world [] 1)
    as (_ & _ & H).
  apply (H [("source_file", "asthma.xml")] "asthma.xml"); reflexivity.
Defined.

(** X15.  With a collection that is not empty, the entry point of the
    query script shows the menu and reads a choice.  On [3] it says
    goodbye, on anything but [1], [2] and [3] it reports an invalid
    choice, and on [2] with a blank question it does nothing: in these
    cases it ends without a query.  On [2] with a question, a query the
    store fails is not caught: the entry point raises the store's
    exception. *)
Theorem X15_menu_choices
  (W : World) (t : list event) (fuel : nat) :
  let n := count_reply W (t ++ [query_banner]) in
  let t1 := t ++ menu n in
  let reply := input_reply W t1 choice_prompt in
  let choice := Py.strip reply in
  let t2 := t1 ++ [Input choice_prompt reply] in
  let asked := input_reply W t2 single_question_prompt in
  let question := Py.strip asked in
  let t3 := t2 ++ [Input single_question_prompt asked] in
  n <> 0 ->
  (choice = "3" ->
   QueryMedicalQa.main fuel W t = (Ok (Some tt), t2 ++ [Print "Goodbye!"])) /\
  (choice <> "1" -> choice <> "2" -> choice <> "3" ->
   QueryMedicalQa.main fuel W t
   = (Ok (Some tt), t2 ++ [Print "Invalid choice. Exiting."])) /\
  (choice = "2" -> question = "" ->
   QueryMedicalQa.main fuel W t = (Ok (Some tt), t3)) /\
  (forall e,
      choice = "2" -> question <> "" ->
      query_reply W (t3 ++ [querying_line question]) [question] 5 = inr e ->
      QueryMedicalQa.main fuel W t
      = (Raise e,
         t3 ++ [querying_line question; Query [question] 5 (inr e)])).
Proof.
  cbn zeta. intros Hn.
  set (n := count_reply W (t ++ [query_banner])) in *.
  assert (Hmain : QueryMedicalQa.main fuel W t
    = (let reply := input_reply W (t ++ menu n) choice_prompt in
       let choice := Py.strip reply in
       let t2 := (t ++ menu n) ++ [Input choice_prompt reply] in
       if String.eqb choice "1" then QueryMedicalQa.interactive_query fuel W t2
       else if String.eqb choice "2" then
         let asked := input_reply W t2 single_question_prompt in
         let question := Py.strip asked in
         let t3 := t2 ++ [Input single_question_prompt asked] in
         if Py.truthy question
         then bind
                (bind (QueryMedicalQa.query_medical_qa question 5)
                   (fun result =>
                      bind (print (LF ++ "💡 Answer: "
                                   ++ QueryMedicalQa.answer result))
                        (fun _ =>
                           print ("📚 Sources: "
                                  ++ Py.str (length
                                               (QueryMedicalQa.sources result))
                                  ++ " relevant documents found"))))
                (fun _ => ret (Some tt)) W t3
         else (Ok (Some tt), t3)
       else if String.eqb choice "3"
       then (Ok (Some tt), t2 ++ [Print "Goodbye!"])
       else (Ok (Some tt), t2 ++ [Print "Invalid choice. Exiting."]))).
  { unfold QueryMedicalQa.main, QueryMedicalQa.show_collection_info.
    step. fold query_banner. fold n.
    destruct (n =? 0) eqn:Hz; [apply Nat.eqb_eq in Hz; contradiction|].
    step. cbn [negb]. step. fold choice_prompt.
    assert (Ht : (((((((t ++ [query_banner]) ++ [Count n])
                      ++ [Print ("Knowledge base contains " ++ Py.str n
                                 ++ " medical Q&A pairs")])
                     ++ [Print (LF ++ "Options:")])
                    ++ [Print "1. Interactive query mode"])
                   ++ [Print "2. Single question"])
                  ++ [Print "3. Exit"]) = t ++ menu n)
      by (unfold menu; now rewrite <- !app_assoc).
    rewrite Ht. cbn zeta.
    destruct (String.eqb (Py.strip (input_reply W (t ++ menu n) choice_prompt))
                "1"); [reflexivity|].
    destruct (String.eqb (Py.strip (input_reply W (t ++ menu n) choice_prompt))
                "2").
    - step. fold single_question_prompt.
      destruct (Py.truthy _); [|reflexivity].
      symmetry. rewrite bind_assoc. reflexivity.
    - destruct (String.eqb _ "3"); reflexivity. }
  rewrite Hmain. cbn zeta. clear Hmain.
  split; [|split; [|split]].
  - intros ->. reflexivity.
  - intros H1 H2 H3.
    apply String.eqb_neq in H1, H2, H3. now rewrite H1, H2, H3.
  - intros -> Hblank. cbn [String.eqb Ascii.eqb Bool.eqb].
    now rewrite Hblank.
  - intros e -> Hne He. cbn [String.eqb Ascii.eqb Bool.eqb].
    apply truthy_nonempty in Hne. rewrite Hne.
    rewrite !bind_cases, query_medical_qa_run. cbn zeta. rewrite He.
    now rewrite <- !app_assoc.
Qed.

Lemma X15_witness :
  fst (QueryMedicalQa.main 0 single_question_world [])
  = Raise (Exception "RuntimeError" "index not loaded").
Proof.
  destruct (X15_menu_choices single_question_world [] 0) as (_ & _ & _ & H).
  - discriminate.
  - rewrite (H (Exception "RuntimeError" "index not loaded"));
      [reflexivity | reflexivity | discriminate | reflexivity].
Defined.

(* ===================================================================== *)
(** * Further properties: the structured-QA write run *)
(* ===================================================================== *)

(** X16.  In test mode, an answer to the number of files that [int]
    does not read makes the write run raise [ValueError] at once: the
    store is not asked for its count and nothing is read or written. *)
Theorem X16_bad_file_count_raises_before_the_store
  (W : World) (t : list event) :
  let t1 := t ++ processor_banner in
  let mode := input_reply W t1 mode_prompt in
  let t2 := t1 ++ [Input mode_prompt mode; Print (LF ++ "=== TEST MODE ===")] in
  let n := input_reply W t2 files_prompt in
  let text := if Py.truthy n then n else "50" in
  Py.lower mode <> "n" ->
  Py.int text = None ->
  exists message,
    ProcessMedquad.main W t
    = (Raise (Exception "ValueError" message), t2 ++ [Input files_prompt n]).
Proof.
  cbn zeta. intros Hmode Hint.
  unfold ProcessMedquad.main. step. fold mode_prompt.
  assert (Ht : ((t ++ [Print "=== MedQuAD Data Processor ==="])
                ++ [Print "This script will process all XML files and store them in ChromaDB."])
               ++ [Print "You only need to run this once to create your knowledge base."]
               = t ++ processor_banner)
    by (unfold processor_banner; now rewrite <- !app_assoc).
  rewrite Ht. apply String.eqb_neq in Hmode. rewrite Hmode. cbn [negb].
  step. fold files_prompt.
  assert (Ht2 : ((t ++ processor_banner)
                 ++ [Input mode_prompt
                       (input_reply W (t ++ processor_banner) mode_prompt)])
                ++ [Print (LF ++ "=== TEST MODE ===")]
                = (t ++ processor_banner)
                  ++ [Input mode_prompt
                        (input_reply W (t ++ processor_banner) mode_prompt);
                      Print (LF ++ "=== TEST MODE ===")])
    by now rewrite <- !app_assoc.
  rewrite Ht2. unfold int_or_raise. unfold Py.int in Hint.
  destruct (Py.parse_int _) as [z| |digits];
    [discriminate | eexists; reflexivity | eexists; reflexivity].
Qed.

Lemma X16_witness :
  exists message,
    ProcessMedquad.main wordy_world []
    = (Raise (Exception "ValueError" message),
       processor_banner
       ++ [Input mode_prompt "y"; Print (LF ++ "=== TEST MODE ===");
           Input files_prompt "ten"]).
Proof.
  apply (X16_bad_file_count_raises_before_the_store wordy_world []).
  - discriminate.
  - reflexivity.
Defined.

(** The wording of the two [ValueError]s of [int]: an invalid literal is
    quoted as [repr] writes it, so a text with an apostrophe stands
    between double quotes; a literal of more than 4300 digits is
    refused with their number. *)
Example int_or_raise_messages (W : World) (t : list event) :
  int_or_raise "ten" W t
  = (Raise (Exception "ValueError"
              "invalid literal for int() with base 10: 'ten'"), t) /\
  int_or_raise "it's" W t
  = (Raise (Exception "ValueError"
              ("invalid literal for int() with base 10: "
               ++ String Py.double_quote
                    ("it's" ++ String Py.double_quote ""))), t) /\
  int_or_raise (String.concat "" (repeat "1" 4301)) W t
  = (Raise (Exception "ValueError"
              "Exceeds the limit (4300 digits) for integer string conversion: value has 4301 digits; use sys.set_int_max_str_digits() to increase the limit"),
     t).
Proof.
  split; [|split].
  - reflexivity.
  - reflexivity.
  - unfold int_or_raise.
    replace (Py.parse_int (String.concat "" (repeat "1" 4301)))
      with (Py.TooManyDigits 4301) by (vm_compute; reflexivity).
    reflexivity.
Qed.

Lemma adds_store_calls l : adds l = adds (store_calls l).
Proof.
  induction l as [|e l IH]; [reflexivity|].
  destruct e; cbn; try exact IH. f_equal. exact IH.
Qed.

Lemma printed_not_input d prompt reply :
  Forall printed d -> ~ In (Input prompt reply) d.
Proof.
  intros Hd Hin. rewrite Forall_forall in Hd. exact (Hd _ Hin).
Qed.

(** The write run from the count on, when the load finds nothing. *)
Lemma main_from_count_without_documents W t
  (config : option Z * option (list string)) :
  nothing_to_load W ->
  store_calls t = [] ->
  overwrite_not_asked t ->
  emptied_on_confirmation
    (snd
       ((existing_count <- collection_count ;;
         proceed <-
           (if 0 <? existing_count then
              print (LF ++ "Collection already has " ++ Py.str existing_count
                     ++ " documents") ;;
              reply <- input "Do you want to overwrite existing data? (y/n): " ;;
              if String.eqb (Py.lower reply) "y" then
                print "Deleting existing collection..." ;;
                delete_collection collection_name ;;
                create_collection collection_name ;;
                ret true
              else
                print "Keeping existing data. Exiting." ;;
                ret false
            else ret true) ;;
         if proceed : bool then
           documents <- ProcessMedquad.load_xml_documents_from_directory
                          "./MedQuAD/" (fst config) (snd config) ;;
           match documents with
           | _ :: _ =>
               ProcessMedquad.add_documents_to_chroma_batch documents 50 ;;
               seconds <- elapsed ;;
               print (LF ++ "=== PROCESSING COMPLETE ===") ;;
               print ("Total time: " ++ seconds ++ " seconds") ;;
               stored <- collection_count ;;
               print ("Total documents stored: " ++ Py.str stored) ;;
               print (LF ++ "You can now use query_medical_qa.py to ask questions!")
           | [] => print "No documents found to process."
           end
         else ret tt) W t)).
Proof.
  intros Hnone Ht Hasked. unfold emptied_on_confirmation. step.
  set (n := count_reply W t). clearbody n.
  assert (Hload : forall t0,
    (documents <- ProcessMedquad.load_xml_documents_from_directory
                    "./MedQuAD/" (fst config) (snd config) ;;
     match documents with
     | _ :: _ =>
         ProcessMedquad.add_documents_to_chroma_batch documents 50 ;;
         seconds <- elapsed ;;
         print (LF ++ "=== PROCESSING COMPLETE ===") ;;
         print ("Total time: " ++ seconds ++ " seconds") ;;
         stored <- collection_count ;;
         print ("Total documents stored: " ++ Py.str stored) ;;
         print (LF ++ "You can now use query_medical_qa.py to ask questions!")
     | [] => print "No documents found to process."
     end) W t0
    = (Ok tt,
       (t0 ++ load_trace W "./MedQuAD/" (fst config) (snd config))
       ++ [Print "No documents found to process."])).
  { intros t0.
    erewrite bind_ok by apply load_xml_documents_from_directory_run.
    now rewrite Hnone. }
  pose proof (load_trace_printed W "./MedQuAD/" (fst config) (snd config))
    as Hprinted.
  assert (Hquiet : store_calls
                     (load_trace W "./MedQuAD/" (fst config) (snd config)) = [])
    by now apply store_calls_printed.
  destruct (0 <? n) eqn:Hn.
  - apply Nat.ltb_lt in Hn. step.
    match goal with |- context [input_reply W ?t0 ?p] =>
      set (reply := input_reply W t0 p) end.
    destruct (String.eqb (Py.lower reply) "y") eqn:Hy.
    + step. cbv iota. rewrite Hload. cbn [snd].
      match goal with |- adds ?tr = [] /\ _ =>
        assert (Hcalls : store_calls tr
                         = [Count n; DeleteCollection collection_name;
                            CreateCollection collection_name]) end.
      { rewrite !store_calls_app, Ht, Hquiet. reflexivity. }
      split.
      * rewrite adds_store_calls, Hcalls. reflexivity.
      * intros _. exists n. split; [exact Hn | exact Hcalls].
    + step. cbv iota. cbn [ret snd].
      split.
      * rewrite adds_store_calls, !store_calls_app, Ht. reflexivity.
      * intros (answer & Hin & Hyes). exfalso.
        rewrite !in_app_iff in Hin. cbn [In] in Hin.
        destruct Hin as [[[[Hin|[Hin|[]]]|[Hin|[]]]|[Hin|[]]]|[Hin|[]]];
          try discriminate.
        -- exact (Hasked _ Hin).
        -- injection Hin as Hr. subst answer. fold reply in Hyes.
           apply String.eqb_neq in Hy. exact (Hy Hyes).
  - step. cbv iota. rewrite Hload. cbn [snd].
    split.
    + rewrite adds_store_calls, !store_calls_app, Ht, Hquiet. reflexivity.
    + intros (answer & Hin & _). exfalso.
      rewrite !in_app_iff in Hin. cbn [In] in Hin.
      destruct Hin as [[[Hin|[Hin|[]]]|Hin]|[Hin|[]]]; try discriminate.
      * exact (Hasked _ Hin).
      * exact (printed_not_input _ _ _ Hprinted Hin).
Qed.

(** X17.  When the load finds no document, the structured-QA write run
    makes no [add] call; yet, when the operator is asked whether to
    overwrite the collection and confirms, the run has deleted the
    collection and created it anew: the collection held documents, and
    the count, the deletion and the creation are the run's only calls
    to the store, so it ends empty. *)
Theorem X17_overwrite_without_documents_empties_the_collection
  (W : World) :
  nothing_to_load W ->
  adds (trace ProcessMedquad.main W) = [] /\
  (forall reply,
      In (Input overwrite_prompt reply) (trace ProcessMedquad.main W) ->
      Py.lower reply = "y" ->
      exists n,
        0 < n /\
        store_calls (trace ProcessMedquad.main W)
        = [Count n; DeleteCollection collection_name;
           CreateCollection collection_name]).
Proof.
  intros Hnone.
  assert (H : emptied_on_confirmation (trace ProcessMedquad.main W)).
  { unfold trace, ProcessMedquad.main. step. cbn [app].
    match goal with |- context [input_reply W ?t ?p] =>
      set (mode := input_reply W t p) end.
    destruct (negb (String.eqb (Py.lower mode) "n")).
    - step. cbn [app].
      match goal with |- context [input_reply W ?t ?p] =>
        set (n := input_reply W t p) end.
      unfold int_or_raise.
      destruct (Py.parse_int (if Py.truthy n then n else "50"))
        as [z| |digits].
      + step. apply main_from_count_without_documents;
          [exact Hnone | reflexivity|].
        intros reply Hin. cbn [In] in Hin.
        repeat (destruct Hin as [Hin|Hin]; [discriminate|]). exact Hin.
      + split; [reflexivity|]. intros (reply & Hin & _). exfalso.
        cbn [bind raise snd In] in Hin.
        repeat (destruct Hin as [Hin|Hin]; [discriminate|]). exact Hin.
      + split; [reflexivity|]. intros (reply & Hin & _). exfalso.
        cbn [bind raise snd In] in Hin.
        repeat (destruct Hin as [Hin|Hin]; [discriminate|]). exact Hin.
    - step. apply main_from_count_without_documents;
        [exact Hnone | reflexivity|].
      intros reply Hin. cbn [In] in Hin.
      repeat (destruct Hin as [Hin|Hin]; [discriminate|]). exact Hin. }
  destruct H as [Hadds Hconfirmed].
  split; [exact Hadds|].
  intros reply Hin Hyes. apply Hconfirmed. now exists reply.
Qed.

Lemma X17_witness :
  adds (trace ProcessMedquad.main overwriting_world) = [] /\
  exists n,
    0 < n /\
    store_calls (trace ProcessMedquad.main overwriting_world)
    = [Count n; DeleteCollection collection_name;
       CreateCollection collection_name].
Proof.
  destruct (X17_overwrite_without_documents_empties_the_collection
              overwriting_world) as [Hadds Hcalls].
  - intros max_files specific_dirs.
    unfold loaded_documents, found_files.
    destruct max_files as [z|]; [|reflexivity].
    unfold ProcessMedquad.limit_files. destruct (negb _); [|reflexivity].
    unfold Py.slice_to. destruct (0 <=? z)%Z; cbn; rewrite ?firstn_nil;
      reflexivity.
  - split; [exact Hadds|].
    apply (Hcalls "Y"); [|reflexivity].
    vm_compute. auto 12.
Defined.

(* ===================================================================== *)
(** * Further properties: what a loaded document holds *)
(* ===================================================================== *)

Lemma rstrip_idempotent s : Py.rstrip (Py.rstrip s) = Py.rstrip s.
Proof.
  induction s as [|c r IH]; [reflexivity|].
  cbn [Py.rstrip].
  destruct (Py.isspace c && Py.is_empty (Py.rstrip r)) eqn:E; [reflexivity|].
  cbn [Py.rstrip]. now rewrite IH, E.
Qed.

Lemma lstrip_starts s :
  match Py.lstrip s with
  | EmptyString => True
  | String c _ => Py.isspace c = false
  end.
Proof.
  induction s as [|c r IH]; cbn; [exact I|].
  destruct (Py.isspace c) eqn:Hc; [exact IH | exact Hc].
Qed.

(** Stripping a stripped text changes nothing. *)
Lemma strip_idempotent s : Py.strip (Py.strip s) = Py.strip s.
Proof.
  unfold Py.strip.
  assert (H : Py.lstrip (Py.rstrip (Py.lstrip s)) = Py.rstrip (Py.lstrip s)).
  { pose proof (lstrip_starts s) as Hs.
    destruct (Py.lstrip s) as [|c r]; [reflexivity|].
    cbn [Py.rstrip]. rewrite Hs. cbn [andb]. cbn. now rewrite Hs. }
  rewrite H. apply rstrip_idempotent.
Qed.

Lemma trimmed_text_stripped e : Py.strip (trimmed_text e) = trimmed_text e.
Proof.
  unfold trimmed_text. destruct (ET.text e); [apply strip_idempotent|].
  reflexivity.
Qed.

Lemma qa_of_some e p :
  qa_of e = Some p ->
  ProcessMedquad.question p <> "" /\ ProcessMedquad.answer p <> "" /\
  Py.strip (ProcessMedquad.question p) = ProcessMedquad.question p /\
  Py.strip (ProcessMedquad.answer p) = ProcessMedquad.answer p.
Proof.
  unfold qa_of.
  destruct (ET.find e "Question") as [qe|]; [|discriminate].
  destruct (ET.find e "Answer") as [ae|]; [|discriminate].
  destruct (Py.truthy (trimmed_text qe)) eqn:Hq; [|discriminate].
  destruct (Py.truthy (trimmed_text ae)) eqn:Ha; [|discriminate].
  intros [= <-]. cbn.
  repeat split; try apply trimmed_text_stripped; now apply truthy_nonempty.
Qed.

Lemma in_file_documents W f doc :
  In doc (file_documents W f) ->
  exists i p e,
    doc = document_of f (i, p) /\ qa_of e = Some p.
Proof.
  rewrite file_documents_eq.
  destruct (read f) as [x|]; [|contradiction].
  destruct (ET_fromstring W x) as [root|]; [|contradiction].
  intros H. apply in_map_iff in H as ([i p] & <- & Hin).
  unfold enumerate in Hin. apply in_combine_r in Hin.
  unfold qa_pairs_of in Hin. rewrite fold_append_qa in Hin. cbn [app] in Hin.
  apply in_flat_map in Hin as (e & _ & He).
  destruct (qa_of e) as [p'|] eqn:Hqa; [|contradiction].
  destruct He as [<-|[]]. now exists i, p', e.
Qed.

(** X18.  Every document a load returns holds a question and an answer
    that are not empty and carry no whitespace at either end; its text
    is "Question: q / Answer: a" built from them; and its id is its
    source file followed by [_qa_] and a number from 1 on. *)
Theorem X18_loaded_documents_are_well_formed
  (W : World) (t : list event) (directory_path : string)
  (max_files : option Z) (specific_dirs : option (list string))
  (docs : list ProcessMedquad.document) (doc : ProcessMedquad.document) :
  fst (ProcessMedquad.load_xml_documents_from_directory directory_path
         max_files specific_dirs W t) = Ok docs ->
  In doc docs ->
  ProcessMedquad.doc_question doc <> "" /\
  ProcessMedquad.doc_answer doc <> "" /\
  Py.strip (ProcessMedquad.doc_question doc) = ProcessMedquad.doc_question doc
  /\
  Py.strip (ProcessMedquad.doc_answer doc) = ProcessMedquad.doc_answer doc /\
  ProcessMedquad.text doc
  = qa_text (ProcessMedquad.doc_question doc) (ProcessMedquad.doc_answer doc)
  /\
  exists k,
    1 <= k /\
    ProcessMedquad.id doc
    = (ProcessMedquad.source_file doc ++ "_qa_" ++ Py.str k)%string.
Proof.
  rewrite load_xml_documents_from_directory_run. cbn [fst].
  intros [= <-] Hin. unfold loaded_documents in Hin.
  apply in_flat_map in Hin as (f & _ & Hdoc).
  apply in_file_documents in Hdoc as (i & p & e & -> & Hqa).
  apply qa_of_some in Hqa as (Hq & Ha & Hsq & Hsa).
  cbn. repeat split; try assumption.
  exists (i + 1). split; [lia | reflexivity].
Qed.

Lemma X18_witness :
  let doc := qa_document "asthma.xml" 1 "What is asthma?" "A lung disease." in
  ProcessMedquad.doc_question doc <> "" /\
  Py.strip (ProcessMedquad.doc_question doc) = ProcessMedquad.doc_question doc
  /\
  exists k,
    1 <= k /\
    ProcessMedquad.id doc
    = (ProcessMedquad.source_file doc ++ "_qa_" ++ Py.str k)%string.
Proof.
  intros doc.
  destruct (X18_loaded_documents_are_well_formed
              (example_world tree_with_bad_file) [] "./MedQuAD/" None None
              (loaded_documents (example_world tree_with_bad_file)
                 "./MedQuAD/" None None) doc)
    as (Hq & _ & Hs & _ & _ & Hid).
  - reflexivity.
  - vm_compute. left. reflexivity.
  - repeat split; assumption.
Defined.

(** X19.  The two closing lines of a load report what it did: the
    number of files it went through and the number of documents it
    returns. *)
Theorem X19_load_reports_its_counts
  (W : World) (t : list event) (directory_path : string)
  (max_files : option Z) (specific_dirs : option (list string)) :
  exists docs d,
    ProcessMedquad.load_xml_documents_from_directory directory_path max_files
      specific_dirs W t
    = (Ok docs,
       (t ++ d)
       ++ [Print ("Processed "
                  ++ Py.str (length
                               (ProcessMedquad.limit_files max_files
                                  (found_files W directory_path
                                     specific_dirs)))
                  ++ " XML files");
           Print ("Extracted " ++ Py.str (length docs) ++ " QA pairs")]) /\
    Forall printed d.
Proof.
  eexists _, _. rewrite load_xml_documents_from_directory_run.
  unfold load_trace. split.
  - f_equal. rewrite <- app_assoc. f_equal.
    change (?a :: ?b :: ?l ++ ?m ++ ?r)
      with ((a :: b :: l) ++ m ++ r).
    rewrite !app_assoc. reflexivity.
  - repeat constructor. apply Forall_app. split.
    + unfold limit_line. destruct max_files as [z|]; [|constructor].
      destruct (negb _); repeat constructor.
    + apply load_events_printed.
Qed.

(* ===================================================================== *)
(** * Further properties: the query script only reads *)
(* ===================================================================== *)

Lemma emits_input prompt : emits read_only (input prompt).
Proof. intros W t. eexists. split; [reflexivity|]. now repeat constructor. Qed.

Lemma emits_count : emits read_only collection_count.
Proof. intros W t. eexists. split; [reflexivity|]. now repeat constructor. Qed.

Lemma emits_query texts n : emits read_only (collection_query texts n).
Proof. intros W t. eexists. split; [reflexivity|]. now repeat constructor. Qed.

Lemma emits_generate model contents :
  emits read_only (generate_content model contents).
Proof. intros W t. eexists. split; [reflexivity|]. now repeat constructor. Qed.

Lemma emits_first_item {A} P (l : list A) : emits P (first_item l).
Proof. destruct l; [apply emits_raise | apply emits_ret]. Qed.

Lemma emits_getitem P d key : emits P (getitem d key).
Proof.
  unfold getitem. destruct (dict_get d key); [apply emits_ret|apply emits_raise].
Qed.

Ltac quiet :=
  repeat first
    [ apply emits_ret
    | apply emits_raise
    | apply emits_print; exact I
    | apply emits_input
    | apply emits_count
    | apply emits_query
    | apply emits_generate
    | apply emits_first_item
    | apply emits_getitem
    | apply emits_for_each; intros ? ?
    | apply emits_bind; [|intros ?]
    | apply emits_try; [|intros ?] ].

Lemma query_medical_qa_reads question top_k :
  emits read_only (QueryMedicalQa.query_medical_qa question top_k).
Proof. unfold QueryMedicalQa.query_medical_qa. quiet. Qed.

Lemma show_source_reads entry u :
  emits read_only (QueryMedicalQa.show_source entry u).
Proof.
  unfold QueryMedicalQa.show_source. destruct entry as [i source].
  destruct (contains source "source_file"); [quiet|].
  destruct (contains source "title"); [|quiet].
  quiet. destruct (contains source "url"); quiet.
Qed.

Lemma interactive_loop_reads fuel :
  emits read_only (QueryMedicalQa.interactive_loop fuel).
Proof.
  induction fuel as [|fuel IH]; [apply emits_ret|].
  cbn [QueryMedicalQa.interactive_loop].
  apply emits_bind; [apply emits_input|]. intros reply.
  destruct (QueryMedicalQa.is_quit _); [quiet|].
  destruct (negb _); [exact IH|].
  apply emits_bind; [|intros _; exact IH].
  apply emits_try; [|intros e; quiet].
  apply emits_bind; [apply query_medical_qa_reads|]. intros result.
  quiet. destruct (QueryMedicalQa.sources result); [quiet|].
  quiet. apply show_source_reads.
Qed.

Lemma try_print_never_raises {A} (m : Run A) (line : exn -> string) W t
  (k : A -> Run unit) :
  exists t', try_except (bind m k) "Exception" (fun e => print (line e)) W t
             = (Ok tt, t').
Proof.
  unfold try_except.
  destruct (bind m k W t) as [[[]|e] t']; [now eexists|].
  cbn. now eexists.
Qed.

Lemma interactive_round W t fuel :
  let reply := input_reply W t question_prompt in
  let question := Py.strip reply in
  let t1 := t ++ [Input question_prompt reply] in
  QueryMedicalQa.interactive_loop (S fuel) W t
  = if QueryMedicalQa.is_quit question
    then (Ok (Some tt), t1 ++ [Print "Goodbye!"])
    else if negb (Py.truthy question)
    then QueryMedicalQa.interactive_loop fuel W t1
    else
      bind
        (try_except
           (bind (QueryMedicalQa.query_medical_qa question 5)
              (fun result =>
                 bind (print (LF ++ "💡 Answer: "
                              ++ QueryMedicalQa.answer result))
                   (fun _ =>
                      bind (print ("📚 Sources: "
                                   ++ Py.str (length
                                                (QueryMedicalQa.sources result))
                                   ++ " relevant documents found"))
                        (fun _ =>
                           match QueryMedicalQa.sources result with
                           | _ :: _ =>
                               bind (print (LF ++ "📖 Source documents:"))
                                 (fun _ =>
                                    for_each
                                      (enumerate 1
                                         (QueryMedicalQa.sources result))
                                      tt QueryMedicalQa.show_source)
                           | [] => ret tt
                           end))))
           "Exception"
           (fun e => print ("❌ Error: " ++ exn_msg e)))
        (fun _ => QueryMedicalQa.interactive_loop fuel) W t1.
Proof.
  cbn zeta. cbn [QueryMedicalQa.interactive_loop]. rewrite bind_input.
  fold question_prompt.
  destruct (QueryMedicalQa.is_quit _); [reflexivity|].
  destruct (negb _); reflexivity.
Qed.

(** The [try] statement of a round raises nothing and writes nothing to
    the store. *)
Lemma answer_round_is_contained {A} (m : Run A) (k : A -> Run unit) W t :
  emits read_only (bind m k) ->
  exists d,
    Forall read_only d /\
    try_except (bind m k) "Exception"
      (fun e => print ("❌ Error: " ++ exn_msg e)) W t
    = (Ok tt, t ++ d).
Proof.
  intros Hm.
  assert (He : emits read_only
                 (try_except (bind m k) "Exception"
                    (fun e => print ("❌ Error: " ++ exn_msg e)))).
  { apply emits_try; [exact Hm|]. intros e. apply emits_print. exact I. }
  destruct (He W t) as (d & Hd & HP).
  destruct (try_print_never_raises m
              (fun e => ("❌ Error: " ++ exn_msg e)%string) W t k)
    as [t' Ht'].
  rewrite Ht' in Hd. cbn in Hd. subst t'.
  exists d. split; [exact HP | exact Ht'].
Qed.

(** X14.  A round of the interactive loop, once the operator's answer
    is read.  An answer that is [quit], [exit] or [q], in any case and
    with spaces around, ends the loop with a goodbye and no call to the
    store; a blank answer asks again without a call.  Any other
    question is answered inside the [try]: whatever the store, the
    model or the display of the sources raise there is caught, the
    round writes nothing to the store, and the loop goes on to the
    next question; when it is the store's query that raises, the round
    prints the error and nothing more. *)
Theorem X14_interactive_loop_survives_failures
  (W : World) (t : list event) (fuel : nat) :
  let reply := input_reply W t question_prompt in
  let question := Py.strip reply in
  let t1 := t ++ [Input question_prompt reply] in
  (QueryMedicalQa.is_quit question = true ->
   QueryMedicalQa.interactive_loop (S fuel) W t
   = (Ok (Some tt), t1 ++ [Print "Goodbye!"])) /\
  (QueryMedicalQa.is_quit question = false -> question = "" ->
   QueryMedicalQa.interactive_loop (S fuel) W t
   = QueryMedicalQa.interactive_loop fuel W t1) /\
  (QueryMedicalQa.is_quit question = false -> question <> "" ->
   exists d,
     Forall read_only d /\
     QueryMedicalQa.interactive_loop (S fuel) W t
     = QueryMedicalQa.interactive_loop fuel W (t1 ++ d)) /\
  (forall e,
      QueryMedicalQa.is_quit question = false -> question <> "" ->
      query_reply W (t1 ++ [querying_line question]) [question] 5 = inr e ->
      QueryMedicalQa.interactive_loop (S fuel) W t
      = QueryMedicalQa.interactive_loop fuel W
          (t1 ++ [querying_line question;
                  Query [question] 5 (inr e);
                  Print ("❌ Error: " ++ exn_msg e)])).
Proof.
  cbn zeta. split; [|split; [|split]].
  - intros Hq. rewrite interactive_round. cbn zeta. now rewrite Hq.
  - intros Hq Hblank. rewrite interactive_round. cbn zeta.
    now rewrite Hq, Hblank.
  - intros Hq Hne. rewrite interactive_round. cbn zeta. rewrite Hq.
    apply truthy_nonempty in Hne. rewrite Hne. cbn [negb].
    rewrite bind_cases.
    match goal with |- context [try_except (bind ?m ?k) _ _ W ?t0] =>
      destruct (answer_round_is_contained m k W t0) as (d & HP & Hd) end.
    { apply emits_bind; [apply query_medical_qa_reads|]. intros result.
      quiet. destruct (QueryMedicalQa.sources result); [quiet|].
      quiet. apply show_source_reads. }
    rewrite Hd. exists d. split; [exact HP | reflexivity].
  - intros e Hq Hne He. rewrite interactive_round. cbn zeta. rewrite Hq.
    apply truthy_nonempty in Hne. rewrite Hne. cbn [negb].
    rewrite bind_cases. unfold try_except. rewrite bind_cases.
    rewrite query_medical_qa_run. cbn zeta. rewrite He.
    cbn [catches String.eqb Ascii.eqb Bool.eqb orb]. unfold print.
    rewrite <- !app_assoc. reflexivity.
Qed.

Lemma X14_witness :
  QueryMedicalQa.interactive_loop 1 failing_store_world []
  = (Ok None,
     [Input question_prompt "What is asthma?";
      querying_line "What is asthma?";
      Query ["What is asthma?"] 5
        (inr (Exception "RuntimeError" "index not loaded"));
      Print "❌ Error: index not loaded"]).
Proof.
  destruct (X14_interactive_loop_survives_failures failing_store_world [] 0)
    as (_ & _ & _ & H).
  rewrite (H (Exception "RuntimeError" "index not loaded"));
    [reflexivity | reflexivity | discriminate | reflexivity].
Defined.

(** X20.  The query script only reads: whatever the operator chooses
    and however long the interactive loop runs, its entry point never
    adds to the collection, never deletes it and never creates it. *)
Theorem X20_query_script_never_writes
  (W : World) (t : list event) (fuel : nat) :
  exists d,
    snd (QueryMedicalQa.main fuel W t) = t ++ d /\ Forall read_only d.
Proof.
  revert W t. change (emits read_only (QueryMedicalQa.main fuel)).
  unfold QueryMedicalQa.main.
  apply emits_bind; [quiet|]. intros _.
  apply emits_bind.
  { unfold QueryMedicalQa.show_collection_info. quiet.
    destruct (_ =? 0); quiet. }
  intros has_data. destruct (negb has_data); [quiet|].
  quiet. destruct (String.eqb _ "1").
  { unfold QueryMedicalQa.interactive_query. quiet.
    apply interactive_loop_reads. }
  destruct (String.eqb _ "2").
  { quiet. destruct (Py.truthy _); [|quiet].
    apply emits_bind; [apply query_medical_qa_reads|]. intros result. quiet. }
  destruct (String.eqb _ "3"); quiet.
Qed.
